(** * ToothLit: per-domain dark mode toggle

    A shallow embedding of the two scripts of the extension:
    - [background.js]: the preference store ([getDomainState],
      [setDomainState]), the domain resolver ([getDomainFromUrl]), the
      icon presenter ([updateIcon]) and the two event listeners;
    - [contentScript.js]: the page styler ([enableDarkMode],
      [disableDarkMode]), its message listener and its start-up check.

    JavaScript values, plain objects, the DOM fragment the scripts touch and
    the host APIs ([browser.storage.local], [browser.action],
    [browser.scripting], [URL]) are modelled explicitly; every host call can
    be rejected by the host, as the promises of the real APIs can. *)

From Stdlib Require Import ZArith Ascii String List Bool Lia.
From stdpp Require Import base option list gmap strings.
Import ListNotations.

Local Open Scope string_scope.
Local Open Scope Z_scope.

#[local] Set Warnings "-register-all".

(** ** JavaScript values and plain objects *)
Module JS.

(** The values the scripts can observe.  [VBuiltin] stands for the
    built-in objects and functions reachable through [Object.prototype]
    (the [Object] function, [Object.prototype] itself, [toString], ...):
    all of them are objects, hence truthy, and none is a boolean. *)
Inductive value :=
| VUndefined
| VNull
| VBool (b : bool)
| VNumber (n : Z)
| VString (s : string)
| VObject (props : list (string * value))
| VBuiltin (name : string).

(** ToBoolean. *)
Definition truthy (v : value) : bool :=
  match v with
  | VUndefined | VNull => false
  | VBool b => b
  | VNumber n => negb (n =? 0)
  | VString s => negb (String.eqb s "")
  | VObject _ | VBuiltin _ => true
  end.

(** [a || b]. *)
Definition js_or (a b : value) : value := if truthy a then a else b.

(** [!a]. *)
Definition js_not (a : value) : bool := negb (truthy a).

(** [v === s] for a string literal [s]. *)
Definition strict_eq_string (v : value) (s : string) : bool :=
  match v with
  | VString t => String.eqb t s
  | _ => false
  end.

Fixpoint assoc (k : string) (ps : list (string * value)) : option value :=
  match ps with
  | [] => None
  | (k', v) :: ps' => if String.eqb k' k then Some v else assoc k ps'
  end.

(** [v.k] where [v] is a message payload: an own property of an object,
    [undefined] otherwise (the scripts read [source] and [action] only,
    which no prototype defines for the payloads modelled here). *)
Definition get (v : value) (k : string) : value :=
  match v with
  | VObject ps => default VUndefined (assoc k ps)
  | _ => VUndefined
  end.

(** The property names every plain object inherits from
    [Object.prototype]. *)
Definition object_prototype_names : list string :=
  [ "constructor"; "__defineGetter__"; "__defineSetter__";
    "hasOwnProperty"; "__lookupGetter__"; "__lookupSetter__";
    "isPrototypeOf"; "propertyIsEnumerable"; "toString"; "valueOf";
    "__proto__"; "toLocaleString" ].

Definition inherited (k : string) : bool :=
  existsb (String.eqb k) object_prototype_names.

(** A plain object whose own properties are booleans: the shape of the
    settings object, [{ [domain]: boolean }].  It is created by [{}] or
    by the deserialisation of the storage area, so its prototype is
    [Object.prototype]. *)
Abbreviation object := (gmap string bool).

(** [o[k]]: the own property if there is one, else the property
    inherited from [Object.prototype], else [undefined]. *)
Definition obj_get (o : object) (k : string) : value :=
  match o !! k with
  | Some b => VBool b
  | None => if inherited k then VBuiltin k else VUndefined
  end.

(** [o[k] = b].  An own property is created or updated, except for
    ["__proto__"], which (unless it is an own property already) reaches
    the setter of [Object.prototype]: that setter ignores a value that is
    neither an object nor [null]. *)
Definition obj_set (o : object) (k : string) (b : bool) : object :=
  match o !! k with
  | Some _ => <[k := b]> o
  | None => if String.eqb k "__proto__" then o else <[k := b]> o
  end.

End JS.

(** ** The page context: contentScript.js *)
(** ** The page context: contentScript.js *)
Module Page.

(** An element of the document, an HTML or SVG element (which has a
    [style]): its tag (the local name: [html], [head], [link]), the
    attributes the script sets on its link, the
    declarations of its [style] attribute ([None] when the element has no
    such attribute; the text of the attribute is not kept) and its child
    elements, in order. *)
Inductive Element := mkElement {
  tagName : string;
  id : string;
  rel : string;
  type : string;
  href : string;
  style : option (gmap string (string * string));
  children : list Element
}.

(** The document: [document.documentElement], which is [null] once the
    root has been removed. *)
Record Document := mkDocument {
  documentElement : option Element
}.

(** What the content script sees of its page: [window] (an identity),
    [window.location.hostname], the document, the base URL of the
    extension's resources and what the script wrote with
    [console.error]. *)
Record Page := mkPage {
  window : nat;
  hostname : string;
  document : Document;
  extensionBase : string;
  console : list string
}.

(** How a call ends. *)
Inductive completion :=
| Completes
| Throws (e : string).

Definition FALLBACK_STYLE_ID : string := "toothlit-dark-mode-fallback-css".
Definition SETTINGS_KEY : string := "toothlit_settings".

Definition has_id (i : string) (e : Element) : bool := String.eqb (id e) i.

Definition is_tag (t : string) (e : Element) : bool := String.eqb (tagName e) t.

Definition with_children (e : Element) (cs : list Element) : Element :=
  mkElement (tagName e) (id e) (rel e) (type e) (href e) (style e) cs.

Definition with_style (e : Element) (s : option (gmap string (string * string))) : Element :=
  mkElement (tagName e) (id e) (rel e) (type e) (href e) s (children e).

(** An element and its descendants, in tree order. *)
Fixpoint elements_of (e : Element) : list Element :=
  match e with
  | mkElement _ _ _ _ _ _ cs => e :: flat_map elements_of cs
  end.

(** The elements of the document, in tree order. *)
Definition elements (d : Document) : list Element :=
  match documentElement d with
  | Some r => elements_of r
  | None => []
  end.

(** [document.getElementById(i)]: the first element in tree order. *)
Definition getElementById (d : Document) (i : string) : option Element :=
  List.find (has_id i) (elements d).

(** [document.head]: the first [head] child of the [html] root, or
    [null]. *)
Definition head (d : Document) : option Element :=
  match documentElement d with
  | Some r => if is_tag "html" r then List.find (is_tag "head") (children r) else None
  | None => None
  end.

(** Removes, from the descendants of [e], the first element in tree order
    that has the id [i], with its subtree; [None] when no descendant has
    it. *)
Fixpoint remove_below (i : string) (e : Element) : option Element :=
  match e with
  | mkElement t i' r ty h s cs =>
      option_map (mkElement t i' r ty h s)
        ((fix forest (l : list Element) : option (list Element) :=
            match l with
            | [] => None
            | c :: l' =>
                if has_id i c then Some l'
                else
                  match remove_below i c with
                  | Some c' => Some (c' :: l')
                  | None => option_map (cons c) (forest l')
                  end
            end) cs)
  end.

(** The same for a list of siblings and their descendants. *)
Definition remove_forest (i : string) : list Element -> option (list Element) :=
  fix forest (l : list Element) : option (list Element) :=
    match l with
    | [] => None
    | c :: l' =>
        if has_id i c then Some l'
        else
          match remove_below i c with
          | Some c' => Some (c' :: l')
          | None => option_map (cons c) (forest l')
          end
    end.

(** [e.remove()] for the element found by [getElementById(i)]: the element
    leaves the document with everything below it. *)
Definition remove_by_id (d : Document) (i : string) : Document :=
  match documentElement d with
  | Some r =>
      if has_id i r then mkDocument None
      else
        match remove_below i r with
        | Some r' => mkDocument (Some r')
        | None => d
        end
  | None => d
  end.

(** The declarations of an element's [style] attribute. *)
Definition declarations (e : Element) : gmap string (string * string) :=
  default ∅ (style e).

(** [e.style.setProperty(name, val, prio)]: the declaration is set and the
    [style] attribute holds the block. *)
Definition setProperty (e : Element) (name val prio : string) : Element :=
  with_style e (Some (<[name := (val, prio)]> (declarations e))).

(** [e.style.removeProperty(name)]: a declaration that is there is
    removed, and the [style] attribute stays, possibly empty; without such
    a declaration nothing changes. *)
Definition removeProperty (e : Element) (name : string) : Element :=
  match style e with
  | Some m =>
      match m !! name with
      | Some _ => with_style e (Some (delete name m))
      | None => e
      end
  | None => e
  end.

(** [c.appendChild(e)] for the first of the siblings [cs] that satisfies
    [f]. *)
Fixpoint append_to_first (f : Element -> bool) (e : Element) (cs : list Element)
  : list Element :=
  match cs with
  | [] => []
  | c :: cs' =>
      if f c then with_children c (children c ++ [e]) :: cs'
      else c :: append_to_first f e cs'
  end.

(** [document.head.appendChild(e)], for a document that has a head. *)
Definition appendToHead (d : Document) (e : Element) : Document :=
  match documentElement d with
  | Some r =>
      mkDocument
        (Some (with_children r (append_to_first (is_tag "head") e (children r))))
  | None => d
  end.

(** The declarations of the root's [style] attribute; none without a
    root. *)
Definition rootStyle (d : Document) : gmap string (string * string) :=
  match documentElement d with
  | Some r => declarations r
  | None => ∅
  end.

Definition with_document (p : Page) (d : Document) : Page :=
  mkPage (window p) (hostname p) d (extensionBase p) (console p).

Definition console_error (p : Page) (msg : string) : Page :=
  mkPage (window p) (hostname p) (document p) (extensionBase p)
         (console p ++ [msg]).

(** [browser.runtime.getURL(path)]. *)
Definition runtime_getURL (p : Page) (path : string) : string :=
  extensionBase p ++ path.

(** The element the script creates: [link.id], [link.rel], [link.type]
    and [link.href] are set, nothing else. *)
Definition fallback_link (p : Page) : Element :=
  mkElement "link" FALLBACK_STYLE_ID "stylesheet" "text/css"
            (runtime_getURL p "dark-mode.css") None [].

(** The call [enableDarkMode()]: how it ends and the page it leaves.
    [document.documentElement.style] throws a [TypeError] without a root,
    and [document.head.appendChild] without a head, after the property has
    been set. *)
Definition enableDarkMode_call (p : Page) : completion * Page :=
  match documentElement (document p) with
  | None => (Throws "TypeError", p)
  | Some r =>
      let d := mkDocument (Some (setProperty r "color-scheme" "dark" "important")) in
      match getElementById d FALLBACK_STYLE_ID with
      | Some _ => (Completes, with_document p d)
      | None =>
          match head d with
          | Some _ => (Completes, with_document p (appendToHead d (fallback_link p)))
          | None => (Throws "TypeError", with_document p d)
          end
      end
  end.

(** The page [enableDarkMode()] leaves, however it ends. *)
Definition enableDarkMode (p : Page) : Page := snd (enableDarkMode_call p).

(** The call [disableDarkMode()]: how it ends and the page it leaves. *)
Definition disableDarkMode_call (p : Page) : completion * Page :=
  match documentElement (document p) with
  | None => (Throws "TypeError", p)
  | Some r =>
      let d := mkDocument (Some (removeProperty r "color-scheme")) in
      match getElementById d FALLBACK_STYLE_ID with
      | Some _ => (Completes, with_document p (remove_by_id d FALLBACK_STYLE_ID))
      | None => (Completes, with_document p d)
      end
  end.

(** The page [disableDarkMode()] leaves, however it ends. *)
Definition disableDarkMode (p : Page) : Page := snd (disableDarkMode_call p).

(** A [message] event: [event.source] (a window identity or [null]) and
    [event.data]. *)
Record MessageEvent := mkMessageEvent {
  source : option nat;
  data : JS.value
}.

(** [event.source === window]. *)
Definition from_own_window (p : Page) (ev : MessageEvent) : bool :=
  match source ev with
  | Some w => Nat.eqb w (window p)
  | None => false
  end.

(** The listener registered with [window.addEventListener('message', ...)].
    An exception of [enableDarkMode] or [disableDarkMode] ends the listener
    uncaught; the page is the one the call leaves. *)
Definition onMessage (ev : MessageEvent) (p : Page) : Page :=
  if from_own_window p ev
     && JS.truthy (data ev)
     && JS.strict_eq_string (JS.get (data ev) "source") "toothlit-background"
  then
    if JS.strict_eq_string (JS.get (data ev) "action") "enableDarkMode"
    then enableDarkMode p
    else if JS.strict_eq_string (JS.get (data ev) "action") "disableDarkMode"
    then disableDarkMode p
    else p
  else p.

(** The [catch] handler at the end of the start-up chain, for what the
    [then] handler did: an exception thrown there is logged like a
    rejected read. *)
Definition catch_handler (c : completion * Page) : Page :=
  match c with
  | (Completes, q) => q
  | (Throws _, q) => console_error q "ToothLit: Could not read storage."
  end.

(** The start-up check: the continuation of
    [browser.storage.local.get(SETTINGS_KEY)].  [Some settings] is the
    fulfilled promise, [settings] being the object the host returns (the
    stored entries among the requested keys); [None] is the rejected
    one.  The [catch] handler receives a rejected read and also an
    exception of [enableDarkMode]. *)
Definition initialCheck (r : option (gmap string JS.object)) (p : Page) : Page :=
  match r with
  | Some settings =>
      let allDomains := default ∅ (settings !! SETTINGS_KEY) in
      if JS.truthy (JS.obj_get allDomains (hostname p))
      then catch_handler (enableDarkMode_call p)
      else p
  | None => console_error p "ToothLit: Could not read storage."
  end.

(** The number of elements with the id [i] among [l]. *)
Definition count_in (i : string) (l : list Element) : nat :=
  List.length (List.filter (has_id i) l).

(** What an element is by itself, its children apart. *)
Definition attributes (e : Element)
  : string * string * string * string * string * option (gmap string (string * string)) :=
  (tagName e, id e, rel e, type e, href e, style e).

(** What [remove_forest] does to the siblings [cs] and their descendants:
    nothing is found exactly when no element has the id; otherwise the
    first element with the id in tree order leaves with its subtree, and
    the other elements stay as they are, in order, their children
    apart. *)
Definition removal (i : string) (cs : list Element) : Prop :=
  (remove_forest i cs = None <-> count_in i (flat_map elements_of cs) = 0%nat)
  /\ forall cs', remove_forest i cs = Some cs' ->
       exists pre x post,
         flat_map elements_of cs = (pre ++ elements_of x ++ post)%list
         /\ has_id i x = true
         /\ count_in i pre = 0%nat
         /\ map attributes (flat_map elements_of cs') = map attributes (pre ++ post)%list.

(** The elements below the root, in tree order. *)
Definition descendants (d : Document) : list Element :=
  match documentElement d with
  | Some r => flat_map elements_of (children r)
  | None => []
  end.

(** The two states of the styler, read off the document. *)
Definition count_id (i : string) (d : Document) : nat :=
  List.length (List.filter (has_id i) (elements d)).

Definition isDark (p : Page) : bool :=
  bool_decide (rootStyle (document p) !! "color-scheme" = Some ("dark", "important"))
  && Nat.eqb (count_id FALLBACK_STYLE_ID (document p)) 1.

Definition isLight (p : Page) : bool :=
  bool_decide (rootStyle (document p) !! "color-scheme" = None)
  && Nat.eqb (count_id FALLBACK_STYLE_ID (document p)) 0.

End Page.

(** ** The host's [URL] class

    [new URL(url)] and the [hostname] getter are host code.  They are
    modelled after the URL Standard's basic URL parser (no base URL), on
    byte strings, as far as the result decides whether the constructor
    throws and what [hostname] returns: the scheme, the authority with its
    credentials, the host and the port.  The path, query and fragment of a
    URL never make the parser fail and are not kept.  Two algorithms of the
    standard are left to the host, see [Platform]. *)
Module URL.

Local Open Scope char_scope.
Local Open Scope N_scope.

(** The algorithms the model takes from the host: Unicode ToASCII (UTS 46)
    for a domain that is not plain ASCII or that has a Punycode label, and
    the parser and serialiser of an IPv6 address (without the brackets).
    [None] is the standard's failure. *)
Record Platform := mkPlatform {
  unicodeToASCII : list ascii -> option (list ascii);
  ipv6 : list ascii -> option (list ascii)
}.

Record URLRecord := mkURL {
  scheme : string;
  host : option string;
  port : option N
}.

Definition code (c : ascii) : N := N_of_ascii c.

Definition between (lo hi : N) (c : ascii) : bool :=
  (lo <=? code c) && (code c <=? hi).

Definition is_upper : ascii -> bool := between 65 90.
Definition is_lower : ascii -> bool := between 97 122.
Definition is_alpha (c : ascii) : bool := is_upper c || is_lower c.
Definition is_digit : ascii -> bool := between 48 57.
Definition is_alnum (c : ascii) : bool := is_alpha c || is_digit c.
Definition is_ascii_byte (c : ascii) : bool := code c <? 128.

(** ASCII lowercase of one byte. *)
Definition lower (c : ascii) : ascii :=
  if is_upper c then ascii_of_N (code c + 32) else c.

Definition is_c0_or_space (c : ascii) : bool := code c <=? 32.

Definition is_tab_or_newline (c : ascii) : bool :=
  (code c =? 9) || (code c =? 10) || (code c =? 13).

Fixpoint drop_while (f : ascii -> bool) (l : list ascii) : list ascii :=
  match l with
  | [] => []
  | c :: l' => if f c then drop_while f l' else l
  end.

Fixpoint take_while (f : ascii -> bool) (l : list ascii) : list ascii :=
  match l with
  | [] => []
  | c :: l' => if f c then c :: take_while f l' else []
  end.

(** Leading and trailing C0 controls and spaces are stripped, then every
    tab and newline is removed. *)
Definition preprocess (l : list ascii) : list ascii :=
  let l1 := drop_while is_c0_or_space l in
  let l2 := rev (drop_while is_c0_or_space (rev l1)) in
  List.filter (fun c => negb (is_tab_or_newline c)) l2.

Definition is_scheme_char (c : ascii) : bool :=
  is_alnum c || Ascii.eqb c "+" || Ascii.eqb c "-" || Ascii.eqb c ".".

(** The scheme state: [acc] is the buffer.  Returns the scheme and what
    follows the colon; without a colon there is no scheme, which is a
    failure when there is no base URL. *)
Fixpoint scheme_state (acc l : list ascii) : option (list ascii * list ascii) :=
  match l with
  | [] => None
  | c :: l' =>
      if is_scheme_char c then scheme_state (acc ++ [lower c]) l'
      else if Ascii.eqb c ":" then Some (acc, l')
      else None
  end.

(** The scheme start state. *)
Definition scheme_start_state (l : list ascii) : option (list ascii * list ascii) :=
  match l with
  | c :: l' => if is_alpha c then scheme_state [lower c] l' else None
  | [] => None
  end.

(** The special schemes and their default ports. *)
Definition special_schemes : list (string * option N) :=
  [ ("ftp", Some 21); ("file", None); ("http", Some 80);
    ("https", Some 443); ("ws", Some 80); ("wss", Some 443) ]%string.

Fixpoint lookup_scheme (s : string) (t : list (string * option N)) : option (option N) :=
  match t with
  | [] => None
  | (k, p) :: t' => if String.eqb k s then Some p else lookup_scheme s t'
  end.

Definition is_special (s : string) : bool :=
  match lookup_scheme s special_schemes with Some _ => true | None => false end.

Definition default_port (s : string) : option N :=
  match lookup_scheme s special_schemes with Some p => p | None => None end.

Definition is_slash (c : ascii) : bool := Ascii.eqb c "/" || Ascii.eqb c "\".

(** The code points that end the authority. *)
Definition ends_authority (special : bool) (c : ascii) : bool :=
  Ascii.eqb c "/" || Ascii.eqb c "?" || Ascii.eqb c "#"
  || (special && Ascii.eqb c "\").

(** What follows the last [@] of [l], if there is one. *)
Fixpoint after_last_at (l : list ascii) : option (list ascii) :=
  match l with
  | [] => None
  | c :: l' =>
      match after_last_at l' with
      | Some r => Some r
      | None => if Ascii.eqb c "@" then Some l' else None
      end
  end.

(** The host state's scan: splits at the first colon outside brackets. *)
Fixpoint split_host_port (inside : bool) (acc l : list ascii)
  : list ascii * option (list ascii) :=
  match l with
  | [] => (acc, None)
  | c :: l' =>
      if Ascii.eqb c ":" && negb inside then (acc, Some l')
      else split_host_port
             (if Ascii.eqb c "[" then true
              else if Ascii.eqb c "]" then false else inside)
             (acc ++ [c]) l'
  end.

Definition forbidden_host (c : ascii) : bool :=
  existsb (N.eqb (code c)) [0; 9; 10; 13; 32; 35; 47; 58; 60; 62; 63; 64; 91; 92; 93; 94; 124].

Definition forbidden_domain (c : ascii) : bool :=
  forbidden_host c || (code c <=? 31) || (code c =? 37) || (code c =? 127).

Definition is_hex (c : ascii) : bool :=
  is_digit c || between 65 70 c || between 97 102 c.

Definition hex_value (c : ascii) : N :=
  if is_digit c then code c - 48
  else if between 65 70 c then code c - 55
  else code c - 87.

Definition hex_digit_upper (n : N) : ascii :=
  if n <? 10 then ascii_of_N (48 + n) else ascii_of_N (55 + n).

(** Percent-decoding of a byte sequence; [skip] counts the bytes of an
    escape that are still to be passed over. *)
Fixpoint percent_decode_from (skip : nat) (l : list ascii) : list ascii :=
  match l with
  | [] => []
  | c :: l' =>
      match skip with
      | S k => percent_decode_from k l'
      | O =>
          match l' with
          | a :: b :: _ =>
              if Ascii.eqb c "%" && is_hex a && is_hex b
              then ascii_of_N (16 * hex_value a + hex_value b)
                     :: percent_decode_from 2 l'
              else c :: percent_decode_from 0 l'
          | _ => c :: percent_decode_from 0 l'
          end
      end
  end.

Definition percent_decode : list ascii -> list ascii := percent_decode_from 0.

(** Percent-encoding with the C0 control percent-encode set. *)
Definition percent_encode_c0 (l : list ascii) : list ascii :=
  flat_map (fun c =>
    if (code c <=? 31) || (126 <? code c)
    then ["%"; hex_digit_upper (code c / 16); hex_digit_upper (code c mod 16)]
    else [c]) l.

(** Strict split on the full stop. *)
Fixpoint split_dot (cur l : list ascii) : list (list ascii) :=
  match l with
  | [] => [cur]
  | c :: l' => if Ascii.eqb c "." then cur :: split_dot [] l' else split_dot (cur ++ [c]) l'
  end.

Definition is_octal : ascii -> bool := between 48 55.

Definition digits_value (radix : N) (l : list ascii) : N :=
  fold_left (fun acc c => acc * radix + hex_value c) l 0.

(** The IPv4 number parser. *)
Definition ipv4_number (l : list ascii) : option N :=
  match l with
  | [] => None
  | c :: l' =>
      match l' with
      | x :: l'' =>
          if Ascii.eqb c "0" && (Ascii.eqb x "x" || Ascii.eqb x "X")
          then if forallb is_hex l'' then Some (digits_value 16 l'') else None
          else if Ascii.eqb c "0"
          then if forallb is_octal l' then Some (digits_value 8 l') else None
          else if forallb is_digit l then Some (digits_value 10 l) else None
      | [] => if is_digit c then Some (digits_value 10 l) else None
      end
  end.

(** The parts of a host without the empty part that follows a trailing
    full stop (kept when it is the only part). *)
Definition drop_last_empty (parts : list (list ascii)) : list (list ascii) :=
  match rev parts with
  | [] :: ((_ :: _) as r) => rev r
  | _ => parts
  end.

(** The ends-in-a-number checker. *)
Definition ends_in_number (l : list ascii) : bool :=
  match rev (drop_last_empty (split_dot [] l)) with
  | last :: _ =>
      (negb (Nat.eqb (List.length last) 0) && forallb is_digit last)
      || match ipv4_number last with Some _ => true | None => false end
  | [] => false
  end.

Fixpoint all_some {A} (l : list (option A)) : option (list A) :=
  match l with
  | [] => Some []
  | None :: _ => None
  | Some a :: l' => match all_some l' with Some r => Some (a :: r) | None => None end
  end.

(** The IPv4 parser: the address as a number below [2^32]. *)
Definition ipv4_parse (l : list ascii) : option N :=
  let parts := drop_last_empty (split_dot [] l) in
  if (4 <? List.length parts)%nat then None
  else
    match all_some (List.map ipv4_number parts) with
    | None => None
    | Some numbers =>
        match rev numbers with
        | [] => None
        | last :: front =>
            if existsb (fun n => 255 <? n) front then None
            else if 256 ^ (5 - N.of_nat (List.length numbers)) <=? last then None
            else Some (fst (fold_left
                              (fun '(acc, counter) n => (acc + n * 256 ^ (3 - counter), counter + 1))
                              (rev front) (last, 0)))
        end
    end.

Definition decimal_digit (n : N) : ascii := ascii_of_N (48 + n).

(** A number below 1000 in decimal, without leading zeros. *)
Definition decimal (n : N) : list ascii :=
  (if 100 <=? n then [decimal_digit (n / 100 mod 10)] else [])
  ++ (if 10 <=? n then [decimal_digit (n / 10 mod 10)] else [])
  ++ [decimal_digit (n mod 10)].

(** The IPv4 serialiser. *)
Definition ipv4_serialize (a : N) : list ascii :=
  decimal (a / 16777216 mod 256) ++ ["."] ++ decimal (a / 65536 mod 256)
  ++ ["."] ++ decimal (a / 256 mod 256) ++ ["."] ++ decimal (a mod 256).

Definition starts_with_xn (label : list ascii) : bool :=
  match label with
  | a :: b :: c :: d :: _ =>
      Ascii.eqb (lower a) "x" && Ascii.eqb (lower b) "n"
      && Ascii.eqb c "-" && Ascii.eqb d "-"
  | _ => false
  end.

(** A domain on which ToASCII is ASCII lowercasing: ASCII only, and no
    label that starts with [xn--]. *)
Definition plain_domain (l : list ascii) : bool :=
  forallb is_ascii_byte l && negb (existsb starts_with_xn (split_dot [] l)).

Definition non_empty (r : option (list ascii)) : option (list ascii) :=
  match r with
  | Some [] => None
  | _ => r
  end.

Section WithPlatform.

Variable P : Platform.

(** Domain to ASCII (not strict). *)
Definition domain_to_ascii (l : list ascii) : option (list ascii) :=
  non_empty (if plain_domain l then Some (List.map lower l) else unicodeToASCII P l).

(** The host parser; the result is the serialised host. *)
Definition host_parse (opaque : bool) (l : list ascii) : option (list ascii) :=
  match l with
  | c :: l' =>
      if Ascii.eqb c "["
      then
        match rev l' with
        | e :: inner =>
            if Ascii.eqb e "]"
            then match ipv6 P (rev inner) with
                 | Some a => Some ("[" :: a ++ ["]"])
                 | None => None
                 end
            else None
        | [] => None
        end
      else if opaque
      then if existsb forbidden_host l then None else Some (percent_encode_c0 l)
      else
        match domain_to_ascii (percent_decode l) with
        | None => None
        | Some a =>
            if existsb forbidden_domain a then None
            else if ends_in_number a
            then match ipv4_parse a with
                 | Some n => Some (ipv4_serialize n)
                 | None => None
                 end
            else Some a
        end
  | [] => if opaque then Some [] else None
  end.

(** The port state on what follows the colon, up to the end of the
    authority. *)
Definition port_state (sch : string) (l : list ascii) : option (option N) :=
  if forallb is_digit l
  then
    match l with
    | [] => Some None
    | _ =>
        let p := digits_value 10 l in
        if 65535 <? p then None
        else if bool_decide (default_port sch = Some p) then Some None
        else Some (Some p)
    end
  else None.

(** The authority state followed by the host and port states; [l] starts
    at the authority. *)
Definition authority_state (sch : string) (l : list ascii) : option URLRecord :=
  let special := is_special sch in
  let span := take_while (fun c => negb (ends_authority special c)) l in
  match (match after_last_at span with
         | Some [] => None
         | Some r => Some r
         | None => Some span
         end) with
  | None => None
  | Some hostport =>
      match split_host_port false [] hostport with
      | (buffer, Some after_colon) =>
          match buffer with
          | [] => None
          | _ =>
              match host_parse (negb special) buffer with
              | None => None
              | Some h =>
                  match port_state sch after_colon with
                  | None => None
                  | Some p => Some (mkURL sch (Some (string_of_list_ascii h)) p)
                  end
              end
          end
      | (buffer, None) =>
          if special && Nat.eqb (List.length buffer) 0 then None
          else
            match host_parse (negb special) buffer with
            | None => None
            | Some h => Some (mkURL sch (Some (string_of_list_ascii h)) None)
            end
      end
  end.

Definition is_windows_drive_letter (l : list ascii) : bool :=
  match l with
  | [a; b] => is_alpha a && (Ascii.eqb b ":" || Ascii.eqb b "|")
  | _ => false
  end.

Definition ends_file_host (c : ascii) : bool :=
  is_slash c || Ascii.eqb c "?" || Ascii.eqb c "#".

(** The file, file slash and file host states. *)
Definition file_state (l : list ascii) : option URLRecord :=
  let empty := Some (mkURL "file" (Some ""%string) None) in
  match l with
  | c1 :: c2 :: l' =>
      if is_slash c1 && is_slash c2
      then
        let buffer := take_while (fun c => negb (ends_file_host c)) l' in
        if is_windows_drive_letter buffer then empty
        else
          match buffer with
          | [] => empty
          | _ =>
              match host_parse false buffer with
              | None => None
              | Some h =>
                  if String.eqb (string_of_list_ascii h) "localhost" then empty
                  else Some (mkURL "file" (Some (string_of_list_ascii h)) None)
              end
          end
      else empty
  | _ => empty
  end.

(** The basic URL parser without a base URL and without a state override:
    [None] is failure, on which the constructor throws a [TypeError]. *)
Definition parse (input : string) : option URLRecord :=
  match scheme_start_state (preprocess (list_ascii_of_string input)) with
  | None => None
  | Some (s, rest) =>
      let sch := string_of_list_ascii s in
      if String.eqb sch "file" then file_state rest
      else if is_special sch
      then authority_state sch (drop_while is_slash rest)
      else
        match rest with
        | c1 :: c2 :: rest' =>
            if Ascii.eqb c1 "/" && Ascii.eqb c2 "/"
            then authority_state sch rest'
            else Some (mkURL sch None None)
        | _ => Some (mkURL sch None None)
        end
  end.

End WithPlatform.

(** The [hostname] getter: the empty string for a null host. *)
Definition hostname (u : URLRecord) : string := default ""%string (host u).

(** ASCII lowercasing of a string, and the strings it leaves alone. *)
Definition to_lower (s : string) : string :=
  string_of_list_ascii (List.map lower (list_ascii_of_string s)).

Definition has_colon (s : string) : bool :=
  existsb (Ascii.eqb ":") (list_ascii_of_string s).

Definition is_bracketed (s : string) : bool :=
  match s with
  | String c _ => Ascii.eqb c "["
  | EmptyString => false
  end.

(** What the standard guarantees of the two host algorithms and the
    model relies on for lowercase results: ToASCII yields lowercase labels
    and the IPv6 serialiser lowercase hexadecimal digits. *)
Definition lowercase_output (f : list ascii -> option (list ascii)) : Prop :=
  forall l r, f l = Some r -> List.map lower r = r.

Definition lowercase_platform (P : Platform) : Prop :=
  lowercase_output (unicodeToASCII P) /\ lowercase_output (ipv6 P).

(** A host whose two algorithms always fail: enough to run the model on
    inputs that do not reach them. *)
Definition ascii_only : Platform := mkPlatform (fun _ => None) (fun _ => None).

End URL.

(** ** The background context: background.js *)
Module Background.

Definition SETTINGS_KEY : string := "toothlit_settings".

(** The [tab] object handed to the listeners: [tab.id] and [tab.url],
    which is [undefined] when the host does not disclose it. *)
Record Tab := mkTab {
  tab_id : Z;
  tab_url : option string
}.

(** The [path] argument of [browser.action.setIcon]. *)
Record IconPath := mkIconPath {
  px16 : string;
  px32 : string
}.

#[global] Instance IconPath_eq_dec : EqDecision IconPath.
Proof. solve_decision. Defined.

(** The host calls of the background script, with their arguments.  The
    function injected by [executeScript] is fixed, so the call is
    determined by the target tab and the argument [isDark]. *)
Inductive call :=
| CStorageGet (key : string)
| CStorageSet (items : gmap string JS.object)
| CSetIcon (tabId : Z) (path : IconPath)
| CExecuteScript (tabId : Z) (isDark : bool).

(** The host and everything the script can change through it:
    - [platform]: the host's URL algorithms;
    - [storage]: the area [browser.storage.local];
    - [icons]: the toolbar icon of each tab;
    - [pages]: the page context of each tab that can host scripts (a
      restricted or internal page has none);
    - [console]: the background console, a message and its datum;
    - [trace]: the host calls made so far, in order;
    - [rejects]: whether the host rejects the [n]-th call. *)
Record World := mkWorld {
  platform : URL.Platform;
  storage : gmap string JS.object;
  icons : gmap Z IconPath;
  pages : gmap Z Page.Page;
  console : list (string * JS.value);
  trace : list call;
  rejects : nat -> call -> bool
}.

Definition set_storage (s : gmap string JS.object) (w : World) : World :=
  mkWorld (platform w) s (icons w) (pages w) (console w) (trace w) (rejects w).

Definition set_icons (i : gmap Z IconPath) (w : World) : World :=
  mkWorld (platform w) (storage w) i (pages w) (console w) (trace w) (rejects w).

Definition set_pages (p : gmap Z Page.Page) (w : World) : World :=
  mkWorld (platform w) (storage w) (icons w) p (console w) (trace w) (rejects w).

Definition set_console (c : list (string * JS.value)) (w : World) : World :=
  mkWorld (platform w) (storage w) (icons w) (pages w) c (trace w) (rejects w).

Definition set_trace (t : list call) (w : World) : World :=
  mkWorld (platform w) (storage w) (icons w) (pages w) (console w) t (rejects w).

(** The settings object in the storage area, [{}] when there is none. *)
Definition settings_of (w : World) : JS.object :=
  default ∅ (storage w !! SETTINGS_KEY).

(** Whether the host accepts [c] as the call after the next [k] ones. *)
Definition accepted (w : World) (k : nat) (c : call) : bool :=
  negb (rejects w (List.length (trace w) + k)%nat c).

(** An asynchronous function awaited to completion: it returns or throws,
    and leaves a world behind. *)
Inductive outcome (A : Type) :=
| Returned (a : A)
| Thrown (e : string).

Arguments Returned {A} a.
Arguments Thrown {A} e.

Definition Task (A : Type) : Type := World -> outcome A * World.

Definition ret {A} (a : A) : Task A := fun w => (Returned a, w).

Definition throw {A} (e : string) : Task A := fun w => (Thrown e, w).

Definition bind {A B} (m : Task A) (k : A -> Task B) : Task B :=
  fun w =>
    match m w with
    | (Returned a, w') => k a w'
    | (Thrown e, w') => (Thrown e, w')
    end.

(** [try { body } catch (e) { handler }]. *)
Definition try_catch {A} (body : Task A) (handler : string -> Task A) : Task A :=
  fun w =>
    match body w with
    | (Returned a, w') => (Returned a, w')
    | (Thrown e, w') => handler e w'
    end.

Notation "'let*' x ':=' m 'in' k" := (bind m (fun x => k))
  (at level 10, x name, m at level 100, k at level 200, only parsing).

Notation "m ';;' k" := (bind m (fun _ => k))
  (at level 100, k at level 200, right associativity, only parsing).

(** The world after a task. *)
Definition exec {A} (m : Task A) (w : World) : World := snd (m w).

(** What a task returns or throws. *)
Definition result {A} (m : Task A) (w : World) : outcome A := fst (m w).

(** A host call is recorded in the trace; the host accepts or rejects
    it. *)
Definition invoke (c : call) : Task bool :=
  fun w =>
    (Returned (negb (rejects w (List.length (trace w)) c)),
     set_trace (trace w ++ [c]) w).

Definition console_error (msg : string) (datum : JS.value) : Task unit :=
  fun w => (Returned tt, set_console (console w ++ [(msg, datum)]) w).

(** [browser.storage.local.get(key)]: an object with the stored entry, if
    there is one. *)
Definition storage_local_get (key : string) : Task (gmap string JS.object) :=
  let* accepted := invoke (CStorageGet key) in
  if accepted
  then fun w =>
         (Returned (match storage w !! key with
                    | Some v => {[ key := v ]}
                    | None => ∅
                    end), w)
  else throw "storage.local.get".

(** [browser.storage.local.set(items)]. *)
Definition storage_local_set (items : gmap string JS.object) : Task unit :=
  let* accepted := invoke (CStorageSet items) in
  if accepted
  then fun w => (Returned tt, set_storage (items ∪ storage w) w)
  else throw "storage.local.set".

(** [browser.action.setIcon({ tabId, path })]. *)
Definition action_setIcon (tabId : Z) (path : IconPath) : Task unit :=
  let* accepted := invoke (CSetIcon tabId path) in
  if accepted
  then fun w => (Returned tt, set_icons (<[tabId := path]> (icons w)) w)
  else throw "action.setIcon".

(** The message the injected function posts with
    [window.postMessage(..., '*')], as the page's listeners receive it. *)
Definition posted_message (isDark : bool) (p : Page.Page) : Page.MessageEvent :=
  Page.mkMessageEvent
    (Some (Page.window p))
    (JS.VObject
       [ ("source", JS.VString "toothlit-background");
         ("action", JS.VString (if isDark then "enableDarkMode" else "disableDarkMode")) ]).

(** [browser.scripting.executeScript({ target: { tabId }, func, args:
    [isDark] })]: the injected function runs in the page of the tab and
    posts its message, which the content script's listener receives.  The
    call is rejected when the tab has no page that can host scripts. *)
Definition scripting_executeScript (tabId : Z) (isDark : bool) : Task unit :=
  let* accepted := invoke (CExecuteScript tabId isDark) in
  fun w =>
    match pages w !! tabId with
    | Some p =>
        if accepted
        then (Returned tt,
              set_pages (<[tabId := Page.onMessage (posted_message isDark p) p]> (pages w)) w)
        else (Thrown "scripting.executeScript", w)
    | None => (Thrown "scripting.executeScript", w)
    end.

(** [String(url)] for [tab.url]. *)
Definition to_string (url : option string) : string :=
  match url with
  | Some s => s
  | None => "undefined"
  end.

(** [new URL(url)]: throws when the parser fails. *)
Definition URL_new (url : option string) : Task URL.URLRecord :=
  fun w =>
    match URL.parse (platform w) (to_string url) with
    | Some u => (Returned u, w)
    | None => (Thrown "TypeError", w)
    end.

Definition getDomainFromUrl (url : option string) : Task (option string) :=
  try_catch
    (let* u := URL_new url in ret (Some (URL.hostname u)))
    (fun e =>
       console_error "ToothLit: Invalid URL - " (JS.VString (to_string url));;
       ret None).

Definition icon_on : IconPath := mkIconPath "icons/icon-on-16.png" "icons/icon-on-32.png".
Definition icon_off : IconPath := mkIconPath "icons/icon-off-16.png" "icons/icon-off-32.png".

Definition updateIcon (tabId : Z) (isEnabled : bool) : Task unit :=
  let path := if isEnabled then icon_on else icon_off in
  try_catch
    (action_setIcon tabId path)
    (fun e => console_error "ToothLit: Failed to set icon for tab " (JS.VNumber tabId)).

Definition getDomainState (domain : string) : Task JS.value :=
  try_catch
    (let* settings := storage_local_get SETTINGS_KEY in
     let allDomains := default ∅ (settings !! SETTINGS_KEY) in
     ret (JS.js_or (JS.obj_get allDomains domain) (JS.VBool false)))
    (fun e =>
       console_error "ToothLit: Error getting domain state" (JS.VString e);;
       ret (JS.VBool false)).

Definition setDomainState (domain : string) (isEnabled : bool) : Task unit :=
  try_catch
    (let* settings := storage_local_get SETTINGS_KEY in
     let allDomains := JS.obj_set (default ∅ (settings !! SETTINGS_KEY)) domain isEnabled in
     storage_local_set {[ SETTINGS_KEY := allDomains ]})
    (fun e => console_error "ToothLit: Error setting domain state" (JS.VString e)).

(** The value [getDomainState] resolves to: the property read from the
    settings object, or [false] when the host rejects the read. *)
Definition read_state (d : string) (w : World) : JS.value :=
  if accepted w 0 (CStorageGet SETTINGS_KEY)
  then JS.js_or (JS.obj_get (settings_of w) d) (JS.VBool false)
  else JS.VBool false.

(** [!domain] for the result of [getDomainFromUrl]: [null] and the empty
    string are falsy. *)
Definition no_domain (domain : option string) : bool :=
  match domain with
  | Some d => String.eqb d ""
  | None => true
  end.

(** The last statement of the click listener:
    [try { await browser.scripting.executeScript(...) } catch (e) { ... }]. *)
Definition notifyContentScript (tabId : Z) (newState : bool) : Task unit :=
  try_catch
    (scripting_executeScript tabId newState)
    (fun e =>
       console_error "ToothLit: Could not communicate with content script in tab "
                     (JS.VNumber tabId)).

(** The listener of [browser.action.onClicked]. *)
Definition onClicked (tab : Tab) : Task unit :=
  let* domain := getDomainFromUrl (tab_url tab) in
  if no_domain domain then ret tt
  else
    let d := default "" domain in
    let* currentState := getDomainState d in
    let newState := JS.js_not currentState in
    setDomainState d newState;;
    updateIcon (tab_id tab) newState;;
    notifyContentScript (tab_id tab) newState.

(** The listener of [browser.tabs.onUpdated]; [complete] is
    [changeInfo.status === 'complete']. *)
Definition onUpdated (tabId : Z) (complete : bool) (tab : Tab) : Task unit :=
  if complete && negb (String.eqb (default "" (tab_url tab)) "")
  then
    let* domain := getDomainFromUrl (tab_url tab) in
    if no_domain domain then ret tt
    else
      let* isEnabled := getDomainState (default "" domain) in
      updateIcon tabId (JS.truthy isEnabled)
  else ret tt.

(** The content script starting in the page of [tabId]: its start-up read
    of the storage area (which the host may reject) and
    [Page.initialCheck] on the outcome. *)
Definition contentScript_start (tabId : Z) : Task unit :=
  fun w =>
    match pages w !! tabId with
    | None => (Returned tt, w)
    | Some p =>
        match storage_local_get Page.SETTINGS_KEY w with
        | (Returned settings, w') =>
            (Returned tt,
             set_pages (<[tabId := Page.initialCheck (Some settings) p]> (pages w')) w')
        | (Thrown _, w') =>
            (Returned tt,
             set_pages (<[tabId := Page.initialCheck None p]> (pages w')) w')
        end
    end.

End Background.

(** ** Concrete pages and worlds *)
Module Examples.

Import Background.

(** An element without attributes. *)
Definition plain (tag : string) (cs : list Page.Element) : Page.Element :=
  Page.mkElement tag "" "" "" "" None cs.

(** A page without any override, loaded from [host]: an [html] root with
    an empty [head] and an empty [body]. *)
Definition light_page (host : string) : Page.Page :=
  Page.mkPage 7%nat host
    (Page.mkDocument (Some (plain "html" [plain "head" []; plain "body" []])))
    "safari-web-extension://toothlit/" [].

(** A host that rejects nothing, with an empty storage area.  Tab 1 shows
    a page of [news.example]; no other tab has a page that can host
    scripts. *)
Definition fresh_world : World :=
  mkWorld URL.ascii_only ∅ ∅ {[ 1 := light_page "news.example" ]} [] []
          (fun _ _ => false).

(** The same, with a page of the host [constructor] in tab 1. *)
Definition constructor_world : World :=
  mkWorld URL.ascii_only ∅ ∅ {[ 1 := light_page "constructor" ]} [] []
          (fun _ _ => false).

Definition news_tab : Tab := mkTab 1 (Some "https://news.example/a").
(** A tab whose page cannot host scripts. *)
Definition restricted_tab : Tab := mkTab 2 (Some "https://news.example/a").
Definition blank_tab : Tab := mkTab 1 (Some "about:blank").
Definition garbage_tab : Tab := mkTab 1 (Some "not a url").

(** A host that rejects every write to the storage area, with a stored
    preference for [news.example]. *)
Definition read_only_world : World :=
  mkWorld URL.ascii_only
          {[ SETTINGS_KEY := {[ "news.example"%string := true ]} ]}
          ∅ {[ 1 := light_page "news.example" ]} [] []
          (fun _ c => match c with CStorageSet _ => true | _ => false end).

(** A host that rejects every read of the storage area. *)
Definition unreadable_world : World :=
  mkWorld URL.ascii_only
          {[ SETTINGS_KEY := {[ "news.example"%string := true ]} ]}
          ∅ {[ 1 := light_page "news.example" ]} [] []
          (fun _ c => match c with CStorageGet _ => true | _ => false end).

(** A page with a style property and an element of its own. *)
Definition styled_page (host : string) : Page.Page :=
  Page.mkPage 7%nat host
    (Page.mkDocument
       (Some (Page.mkElement "html" "" "" "" "" (Some {[ "color" := ("red", "") ]})
                [ plain "head" [plain "title" []];
                  plain "body" [Page.mkElement "div" "main" "" "" "" None []] ])))
    "safari-web-extension://toothlit/" [].

(** A message from the page's own window with the marker and an action
    the listener does not know. *)
Definition unknown_action_message : Page.MessageEvent :=
  Page.mkMessageEvent (Some 7%nat)
    (JS.VObject [ ("source", JS.VString "toothlit-background");
                  ("action", JS.VString "toggleDarkMode") ]).

(** A message posted by the page's own window with the marker. *)
Definition enable_message : Page.MessageEvent :=
  posted_message true (light_page "news.example").

(** A page whose author used the reserved id on two elements. *)
Definition twin_page (host : string) : Page.Page :=
  Page.mkPage 7%nat host
    (Page.mkDocument
       (Some (plain "html"
                [ plain "head" [];
                  plain "body"
                    [ Page.mkElement "div" Page.FALLBACK_STYLE_ID "" "" "" None [];
                      Page.mkElement "div" Page.FALLBACK_STYLE_ID "" "" "" None [] ] ])))
    "safari-web-extension://toothlit/" [].

(** An SVG document: its root is an [svg] element, and [document.head] is
    [null]. *)
Definition svg_page (host : string) : Page.Page :=
  Page.mkPage 7%nat host
    (Page.mkDocument (Some (plain "svg" [plain "circle" []])))
    "safari-web-extension://toothlit/" [].

(** A page on which the element with the reserved id has a child. *)
Definition nested_page (host : string) : Page.Page :=
  Page.mkPage 7%nat host
    (Page.mkDocument
       (Some (plain "html"
                [ plain "head" [];
                  plain "body"
                    [ Page.mkElement "div" Page.FALLBACK_STYLE_ID "" "" "" None
                        [Page.mkElement "p" "child" "" "" "" None []];
                      plain "footer" [] ] ])))
    "safari-web-extension://toothlit/" [].

End Examples.
(** * Properties *)

(** ** The page styler *)
Module PageFacts.
Import Page.

Local Open Scope nat_scope.

(** Induction on an element, with the property for its children. *)
Lemma Element_rose (P : Element -> Prop) :
  (forall t i r ty h s cs, Forall P cs -> P (mkElement t i r ty h s cs)) ->
  forall e, P e.
Proof.
  intros H. fix IH 1. intros [t i r ty h s cs]. apply H.
  induction cs as [|c cs IHcs]; constructor; [apply IH | exact IHcs].
Qed.

Lemma elements_of_eq (e : Element) :
  elements_of e = e :: flat_map elements_of (children e).
Proof. destruct e; reflexivity. Qed.

Lemma remove_below_eq (i : string) (e : Element) :
  remove_below i e = option_map (with_children e) (remove_forest i (children e)).
Proof. destruct e; reflexivity. Qed.

Lemma remove_forest_cons (i : string) (c : Element) (l : list Element) :
  remove_forest i (c :: l)
  = if has_id i c then Some l
    else match remove_below i c with
         | Some c' => Some (c' :: l)
         | None => option_map (cons c) (remove_forest i l)
         end.
Proof. reflexivity. Qed.

Lemma find_app (f : Element -> bool) (l1 l2 : list Element) :
  List.find f (l1 ++ l2)
  = match List.find f l1 with Some x => Some x | None => List.find f l2 end.
Proof.
  induction l1 as [|x l1 IH]; simpl; [reflexivity|].
  destruct (f x); [reflexivity|exact IH].
Qed.

Lemma find_none_filter (f : Element -> bool) (l : list Element) :
  List.find f l = None <-> List.filter f l = [].
Proof.
  induction l as [|e l IH]; simpl; [tauto|].
  destruct (f e); [split; discriminate | exact IH].
Qed.

Lemma getElementById_none (d : Document) (i : string) :
  getElementById d i = None <-> count_id i d = 0.
Proof.
  unfold getElementById, count_id. rewrite find_none_filter.
  destruct (List.filter (has_id i) (elements d)); simpl; split; congruence.
Qed.

Lemma count_in_app (i : string) (l1 l2 : list Element) :
  count_in i (l1 ++ l2) = count_in i l1 + count_in i l2.
Proof. unfold count_in. rewrite List.filter_app, List.length_app. reflexivity. Qed.

Lemma count_in_cons (i : string) (e : Element) (l : list Element) :
  count_in i (e :: l) = (if has_id i e then 1 else 0) + count_in i l.
Proof. unfold count_in. simpl. destruct (has_id i e); reflexivity. Qed.

Lemma count_id_root (i : string) (r : Element) :
  count_id i (mkDocument (Some r))
  = (if has_id i r then 1 else 0) + count_in i (flat_map elements_of (children r)).
Proof.
  unfold count_id, elements. simpl. rewrite elements_of_eq.
  apply count_in_cons.
Qed.

Lemma find_zero (i : string) (l : list Element) :
  count_in i l = 0 -> List.find (has_id i) l = None.
Proof.
  unfold count_in. intros H. apply find_none_filter.
  destruct (List.filter _ _); [reflexivity|discriminate].
Qed.

(** A change of the root's style changes neither the ids nor the head. *)
Lemma count_id_with_style (i : string) (r : Element) s :
  count_id i (mkDocument (Some (with_style r s))) = count_id i (mkDocument (Some r)).
Proof. rewrite !count_id_root. reflexivity. Qed.

Lemma head_with_style (r : Element) s :
  is_Some (head (mkDocument (Some (with_style r s))))
  <-> is_Some (head (mkDocument (Some r))).
Proof. reflexivity. Qed.

Lemma removeProperty_with_style (r : Element) (name : string) :
  removeProperty r name = r
  \/ exists s, removeProperty r name = with_style r s.
Proof.
  unfold removeProperty. destruct (style r) as [m|]; [|auto].
  destruct (m !! name); eauto.
Qed.

Lemma count_id_removeProperty (i : string) (r : Element) (name : string) :
  count_id i (mkDocument (Some (removeProperty r name)))
  = count_id i (mkDocument (Some r)).
Proof.
  destruct (removeProperty_with_style r name) as [->|[s ->]];
    [reflexivity | apply count_id_with_style].
Qed.

Lemma with_style_same (e : Element) : with_style e (style e) = e.
Proof. destruct e; reflexivity. Qed.

Lemma with_children_same (e : Element) : with_children e (children e) = e.
Proof. destruct e; reflexivity. Qed.

Lemma setProperty_fixed (e : Element) (m : gmap string (string * string))
      (name v q : string) :
  style e = Some m -> m !! name = Some (v, q) -> setProperty e name v q = e.
Proof.
  intros Hs Hm. unfold setProperty, declarations. rewrite Hs. cbn [from_option Datatypes.id].
  rewrite (insert_id _ _ _ Hm), <- Hs. apply with_style_same.
Qed.

Lemma setProperty_again (e : Element) (name v q : string) :
  setProperty (setProperty e name v q) name v q = setProperty e name v q.
Proof.
  apply (setProperty_fixed _ (<[name := (v, q)]> (declarations e)));
    [reflexivity | apply lookup_insert_eq].
Qed.

Lemma elements_of_with_children (c : Element) (l : list Element) :
  elements_of (with_children c l) = with_children c l :: flat_map elements_of l.
Proof. reflexivity. Qed.

Lemma has_id_with_children (i : string) (c : Element) (l : list Element) :
  has_id i (with_children c l) = has_id i c.
Proof. reflexivity. Qed.

Lemma count_in_elements_of (i : string) (e : Element) :
  count_in i (elements_of e)
  = (if has_id i e then 1 else 0) + count_in i (flat_map elements_of (children e)).
Proof. rewrite elements_of_eq. apply count_in_cons. Qed.

(** Appending to the first sibling that satisfies [f]. *)
Lemma count_append_to_first (i : string) (f : Element -> bool) (e : Element)
      (cs : list Element) :
  List.find f cs <> None ->
  count_in i (flat_map elements_of (append_to_first f e cs))
  = count_in i (flat_map elements_of cs) + count_in i (elements_of e).
Proof.
  induction cs as [|c cs IH]; cbn [List.find append_to_first flat_map];
    [congruence|].
  destruct (f c) eqn:Ef; intros H; cbn [flat_map]; rewrite !count_in_app.
  - rewrite elements_of_with_children, count_in_cons, has_id_with_children,
      flat_map_app, count_in_app, count_in_elements_of.
    cbn [flat_map]. rewrite app_nil_r. lia.
  - rewrite (IH H). lia.
Qed.

Lemma find_append_to_first (i : string) (f : Element -> bool) (e : Element)
      (cs : list Element) :
  List.find f cs <> None ->
  count_in i (flat_map elements_of cs) = 0 ->
  has_id i e = true ->
  List.find (has_id i) (flat_map elements_of (append_to_first f e cs)) = Some e.
Proof.
  induction cs as [|c cs IH]; cbn [List.find append_to_first flat_map];
    [congruence|].
  rewrite count_in_app. intros H Hc He.
  assert (Hc1 : count_in i (elements_of c) = 0) by lia.
  assert (Hc2 : count_in i (flat_map elements_of cs) = 0) by lia.
  rewrite count_in_elements_of in Hc1.
  destruct (f c) eqn:Ef; cbn [flat_map]; rewrite find_app.
  - rewrite elements_of_with_children. cbn [List.find].
    rewrite has_id_with_children.
    destruct (has_id i c); [discriminate Hc1|]. cbn [Nat.add] in Hc1.
    rewrite flat_map_app, find_app, (find_zero _ _ Hc1). cbn [flat_map].
    rewrite app_nil_r, (elements_of_eq e). cbn [List.find]. rewrite He.
    reflexivity.
  - rewrite find_zero; [apply IH; assumption|].
    rewrite count_in_elements_of. exact Hc1.
Qed.

Lemma head_is_some (r : Element) :
  is_Some (head (mkDocument (Some r))) ->
  List.find (is_tag "head") (children r) <> None.
Proof.
  unfold head. simpl. destruct (is_tag "html" r); intros [x Hx]; congruence.
Qed.

Lemma count_id_appendToHead (i : string) (r e : Element) :
  is_Some (head (mkDocument (Some r))) ->
  count_id i (appendToHead (mkDocument (Some r)) e)
  = count_id i (mkDocument (Some r)) + count_in i (elements_of e).
Proof.
  intros H. unfold appendToHead. cbn [documentElement].
  rewrite !count_id_root, has_id_with_children.
  change (children (with_children r ?l)) with l.
  cbn [children with_children].
  rewrite (count_append_to_first _ _ _ _ (head_is_some _ H)). lia.
Qed.

Lemma getElementById_appendToHead (i : string) (r e : Element) :
  is_Some (head (mkDocument (Some r))) ->
  count_id i (mkDocument (Some r)) = 0 ->
  has_id i e = true ->
  getElementById (appendToHead (mkDocument (Some r)) e) i = Some e.
Proof.
  intros H Hc He. rewrite count_id_root in Hc.
  unfold getElementById, appendToHead, elements.
  cbn [documentElement]. rewrite elements_of_with_children. cbn [List.find].
  rewrite has_id_with_children.
  destruct (has_id i r); [discriminate Hc|]. cbn [Nat.add] in Hc.
  apply find_append_to_first; [apply head_is_some, H | exact Hc | exact He].
Qed.

Lemma fallback_link_id (p : Page) :
  has_id FALLBACK_STYLE_ID (fallback_link p) = true.
Proof. reflexivity. Qed.

(** [enableDarkMode()] by cases: on the root, on whether an element has
    the reserved id, and on the head. *)
Lemma enableDarkMode_call_cases (p : Page) :
  enableDarkMode_call p
  = match documentElement (document p) with
    | None => (Throws "TypeError", p)
    | Some r =>
        let d := mkDocument (Some (setProperty r "color-scheme" "dark" "important")) in
        if Nat.eqb (count_id FALLBACK_STYLE_ID (document p)) 0
        then
          if bool_decide (is_Some (head (document p)))
          then (Completes, with_document p (appendToHead d (fallback_link p)))
          else (Throws "TypeError", with_document p d)
        else (Completes, with_document p d)
    end.
Proof.
  unfold enableDarkMode_call. destruct p as [w h [[r|]] b k]; simpl; [|reflexivity].
  pose proof (count_id_with_style FALLBACK_STYLE_ID r
                (Some (<["color-scheme" := ("dark", "important")%string]> (declarations r))))
    as Hc.
  fold (setProperty r "color-scheme" "dark" "important") in Hc.
  destruct (getElementById _ FALLBACK_STYLE_ID) eqn:E.
  - destruct (Nat.eqb_spec (count_id FALLBACK_STYLE_ID (mkDocument (Some r))) 0) as [H|H];
      [|reflexivity].
    rewrite <- Hc in H. apply getElementById_none in H. congruence.
  - apply getElementById_none in E. rewrite Hc in E. rewrite E. simpl.
    change (head (mkDocument (Some (setProperty r "color-scheme" "dark" "important"))))
      with (head (mkDocument (Some r))).
    destruct (head (mkDocument (Some r))) eqn:Eh.
    + rewrite bool_decide_eq_true_2 by eauto. reflexivity.
    + rewrite bool_decide_eq_false_2; [reflexivity|]. intros [x Hx]. discriminate.
Qed.

Lemma count_id_setProperty (i : string) (r : Element) (name v q : string) :
  count_id i (mkDocument (Some (setProperty r name v q)))
  = count_id i (mkDocument (Some r)).
Proof. apply count_id_with_style. Qed.

(** The ids after [enableDarkMode()]. *)
Lemma enableDarkMode_count (p : Page) :
  count_id FALLBACK_STYLE_ID (document (enableDarkMode p))
  = if bool_decide (is_Some (head (document p)))
    then Nat.max 1 (count_id FALLBACK_STYLE_ID (document p))
    else count_id FALLBACK_STYLE_ID (document p).
Proof.
  unfold enableDarkMode. rewrite enableDarkMode_call_cases.
  destruct p as [w h [[r|]] b k]; cbn [document documentElement].
  - cbv zeta.
    destruct (Nat.eqb_spec (count_id FALLBACK_STYLE_ID (mkDocument (Some r))) 0) as [H|H].
    + destruct (bool_decide (is_Some (head (mkDocument (Some r))))) eqn:Eh;
        cbn [snd document with_document].
      * apply bool_decide_eq_true in Eh.
        rewrite (count_id_appendToHead _ (setProperty r _ _ _)) by exact Eh.
        rewrite count_id_setProperty, H. reflexivity.
      * apply count_id_setProperty.
    + cbn [snd document with_document]. rewrite count_id_setProperty.
      destruct (bool_decide _); lia.
  - rewrite bool_decide_eq_false_2; [reflexivity|].
    intros [x Hx]. discriminate Hx.
Qed.

Lemma rootStyle_setProperty (r : Element) (name v q : string) :
  declarations (setProperty r name v q) = <[name := (v, q)]> (declarations r).
Proof. reflexivity. Qed.

(** The root's declarations after [enableDarkMode()]. *)
Lemma enableDarkMode_style (p : Page) (r : Element) :
  documentElement (document p) = Some r ->
  rootStyle (document (enableDarkMode p))
  = <["color-scheme" := ("dark", "important")%string]> (declarations r).
Proof.
  intros Hr. unfold enableDarkMode. rewrite enableDarkMode_call_cases, Hr.
  cbv zeta. destruct (Nat.eqb _ 0); [destruct (bool_decide _)|]; reflexivity.
Qed.

Lemma with_document_same (p : Page) : with_document p (document p) = p.
Proof. destruct p; reflexivity. Qed.

(** A second [enableDarkMode()] changes nothing, however the first
    ended. *)
Lemma enableDarkMode_idempotent (p : Page) :
  enableDarkMode (enableDarkMode p) = enableDarkMode p.
Proof.
  pose proof (enableDarkMode_count p) as Hcount.
  unfold enableDarkMode in *. rewrite (enableDarkMode_call_cases p) in *.
  destruct p as [w h [[r|]] b k]; cbn [document documentElement] in *;
    [|reflexivity].
  cbv zeta in *.
  set (r1 := setProperty r "color-scheme" "dark" "important") in *.
  destruct (Nat.eqb_spec (count_id FALLBACK_STYLE_ID (mkDocument (Some r))) 0) as [H|H].
  - destruct (bool_decide (is_Some (head (mkDocument (Some r))))) eqn:Eh;
      cbn [snd] in *.
    + rewrite enableDarkMode_call_cases.
      cbn [document with_document documentElement appendToHead] in *.
      cbv zeta. rewrite Hcount, H. cbn [Nat.max Nat.eqb snd].
      rewrite (setProperty_fixed _ (<["color-scheme" := ("dark", "important")%string]>
                                      (declarations r)));
        [reflexivity | reflexivity | apply lookup_insert_eq].
    + rewrite enableDarkMode_call_cases.
      cbn [document with_document documentElement] in *.
      cbv zeta. rewrite Hcount, H. cbn [Nat.eqb].
      change (head (mkDocument (Some r1))) with (head (mkDocument (Some r))).
      rewrite Eh. cbn [snd]. unfold r1. rewrite setProperty_again. reflexivity.
  - cbn [snd] in *. rewrite enableDarkMode_call_cases.
    cbn [document with_document documentElement] in *. cbv zeta.
    replace (Nat.eqb (count_id FALLBACK_STYLE_ID (mkDocument (Some r1))) 0) with false.
    + cbn [snd]. unfold r1. rewrite setProperty_again. reflexivity.
    + symmetry. apply Nat.eqb_neq. unfold r1. rewrite count_id_setProperty. exact H.
Qed.

(** [disableDarkMode()] on a page in the Light state. *)
Lemma disableDarkMode_light (p : Page) :
  isLight p = true -> disableDarkMode p = p.
Proof.
  unfold isLight. intros H. apply andb_true_iff in H as [Hs Hc].
  apply bool_decide_eq_true in Hs. apply Nat.eqb_eq in Hc.
  unfold disableDarkMode, disableDarkMode_call.
  destruct p as [w h [[r|]] b k]; cbn [document documentElement] in *;
    [|reflexivity].
  cbv zeta.
  assert (Hr : removeProperty r "color-scheme" = r).
  { unfold removeProperty. unfold rootStyle, declarations in Hs.
    cbn [documentElement] in Hs.
    destruct (style r) as [m|]; [|reflexivity].
    cbn [from_option Datatypes.id] in Hs. rewrite Hs. reflexivity. }
  rewrite Hr. apply getElementById_none in Hc. rewrite Hc. reflexivity.
Qed.

(** *** Removal *)

Lemma attributes_with_children (c : Element) (l : list Element) :
  attributes (with_children c l) = attributes c.
Proof. reflexivity. Qed.

Lemma count_in_attributes (i : string) (l1 l2 : list Element) :
  map attributes l1 = map attributes l2 -> count_in i l1 = count_in i l2.
Proof.
  revert l2. induction l1 as [|a l1 IH]; intros [|b l2] H; try discriminate H;
    [reflexivity|].
  cbn [map] in H.
  assert (Hab : attributes a = attributes b) by congruence.
  assert (Hl : map attributes l1 = map attributes l2) by congruence.
  rewrite !count_in_cons, (IH _ Hl).
  unfold has_id. unfold attributes in Hab. replace (id b) with (id a) by congruence.
  reflexivity.
Qed.

Lemma removal_forest (i : string) (cs : list Element) :
  Forall (fun c => removal i (children c)) cs -> removal i cs.
Proof.
  induction 1 as [|c l [Hc1 Hc2] _ [IH1 IH2]].
  - split; [split; reflexivity | intros cs' H; discriminate H].
  - unfold removal. rewrite remove_forest_cons, remove_below_eq.
    cbn [flat_map]. rewrite (elements_of_eq c).
    destruct (has_id i c) eqn:Ei.
    + split.
      * split; [discriminate|]. rewrite <- app_comm_cons, count_in_cons, Ei.
        discriminate.
      * intros cs' H. injection H as <-.
        exists [], c, (flat_map elements_of l).
        rewrite elements_of_eq. repeat split; assumption.
    + destruct (remove_forest i (children c)) as [k|] eqn:Ek; cbn [option_map].
      * split.
        -- split; [discriminate|].
           rewrite <- app_comm_cons, count_in_cons, count_in_app. intros H.
           assert (H0 : count_in i (flat_map elements_of (children c)) = 0) by lia.
           apply Hc1 in H0. discriminate H0.
        -- intros cs' H. injection H as <-.
           destruct (Hc2 k eq_refl) as (pre & x & post & E1 & E2 & E3 & E4).
           exists (c :: pre), x, (post ++ flat_map elements_of l)%list.
           split; [|split; [exact E2|split]].
           ++ rewrite E1, <- !app_comm_cons, <- !List.app_assoc. reflexivity.
           ++ rewrite count_in_cons, Ei, E3. reflexivity.
           ++ cbn [flat_map]. rewrite elements_of_with_children.
              rewrite <- !app_comm_cons, !List.map_cons, !List.map_app, E4,
                List.map_app, attributes_with_children, <- List.app_assoc.
              reflexivity.
      * assert (H0 : count_in i (flat_map elements_of (children c)) = 0)
          by (apply Hc1; reflexivity).
        split.
        -- rewrite <- app_comm_cons, count_in_cons, count_in_app, Ei, H0.
           cbn [Nat.add]. rewrite <- IH1.
           destruct (remove_forest i l); cbn [option_map];
             split; congruence.
        -- intros cs' H.
           destruct (remove_forest i l) as [l'|] eqn:El; cbn [option_map] in H;
             [|discriminate H].
           injection H as <-.
           destruct (IH2 l' eq_refl) as (pre & x & post & E1 & E2 & E3 & E4).
           exists ((c :: flat_map elements_of (children c)) ++ pre)%list, x, post.
           split; [|split; [exact E2|split]].
           ++ rewrite E1, <- !List.app_assoc. reflexivity.
           ++ rewrite count_in_app, count_in_cons, Ei, H0, E3.
              reflexivity.
           ++ cbn [flat_map]. rewrite elements_of_eq, <- !List.app_assoc,
                !List.map_app, E4, List.map_app. reflexivity.
Qed.

Lemma removal_children (i : string) (e : Element) : removal i (children e).
Proof.
  induction e as [t i' r ty h s cs IH] using Element_rose.
  apply removal_forest. exact IH.
Qed.

Lemma removal_all (i : string) (cs : list Element) : removal i cs.
Proof.
  apply removal_forest, Forall_forall. intros c _. apply removal_children.
Qed.

Lemma remove_by_id_none (d : Document) (i : string) :
  count_id i d = 0 -> remove_by_id d i = d.
Proof.
  destruct d as [[r|]]; [|reflexivity].
  rewrite count_id_root. unfold remove_by_id. cbn [documentElement].
  destruct (has_id i r); [discriminate|]. cbn [Nat.add]. intros H.
  apply (proj1 (removal_all i (children r))) in H.
  rewrite remove_below_eq, H. reflexivity.
Qed.

(** [remove_by_id] on a document in which some element has the id: the
    element that [getElementById] finds leaves with its subtree. *)
Lemma remove_by_id_some (d : Document) (i : string) :
  count_id i d <> 0 ->
  exists pre x post,
    elements d = (pre ++ elements_of x ++ post)%list
    /\ getElementById d i = Some x
    /\ has_id i x = true
    /\ count_in i pre = 0
    /\ map attributes (elements (remove_by_id d i)) = map attributes (pre ++ post)%list.
Proof.
  destruct d as [[r|]]; [|intros H; contradiction H; reflexivity].
  rewrite count_id_root. unfold remove_by_id, getElementById, elements.
  cbn [documentElement]. destruct (has_id i r) eqn:Ei.
  - intros _. exists [], r, []. rewrite List.app_nil_r. cbn [app].
    split; [reflexivity|]. split; [|auto].
    rewrite elements_of_eq. cbn [List.find]. rewrite Ei. reflexivity.
  - cbn [Nat.add]. intros H.
    destruct (removal_all i (children r)) as [H1 H2].
    rewrite remove_below_eq.
    destruct (remove_forest i (children r)) as [k|] eqn:Ek;
      [|contradiction H; apply H1; reflexivity].
    destruct (H2 k eq_refl) as (pre & x & post & E1 & E2 & E3 & E4).
    exists (r :: pre), x, post. cbn [option_map documentElement].
    split; [rewrite elements_of_eq, E1; reflexivity|].
    split; [|split; [exact E2|split]].
    + rewrite elements_of_eq, E1. cbn [List.find]. rewrite Ei.
      rewrite find_app, (find_zero _ _ E3), elements_of_eq. cbn [app List.find].
      rewrite E2. reflexivity.
    + rewrite count_in_cons, Ei, E3. reflexivity.
    + rewrite elements_of_with_children, <- app_comm_cons, !List.map_cons, E4,
        attributes_with_children. reflexivity.
Qed.

Lemma count_in_elements_of_pos (i : string) (x : Element) :
  has_id i x = true -> 1 <= count_in i (elements_of x).
Proof. intros H. rewrite elements_of_eq, count_in_cons, H. lia. Qed.

Lemma remove_by_id_count (d : Document) (i : string) :
  count_id i (remove_by_id d i) <= Nat.pred (count_id i d).
Proof.
  destruct (Nat.eq_dec (count_id i d) 0) as [H|H].
  - rewrite (remove_by_id_none _ _ H), H. reflexivity.
  - destruct (remove_by_id_some d i H) as (pre & x & post & E1 & _ & E2 & E3 & E4).
    apply (count_in_attributes i) in E4. apply count_in_elements_of_pos in E2.
    unfold count_id in *. fold (count_in i (elements (remove_by_id d i))).
    fold (count_in i (elements d)) in *.
    rewrite E4, E1, !count_in_app in *. lia.
Qed.

Lemma is_tag_with_children (t : string) (c : Element) (l : list Element) :
  is_tag t (with_children c l) = is_tag t c.
Proof. reflexivity. Qed.

(** Among siblings, the first one with a given tag is still there after a
    removal that did not take it. *)
Lemma find_remove_forest (i t : string) (cs k : list Element) (h : Element) :
  remove_forest i cs = Some k ->
  List.find (is_tag t) cs = Some h ->
  has_id i h = false ->
  is_Some (List.find (is_tag t) k).
Proof.
  revert k. induction cs as [|c l IH]; intros k Hk Hf Hh; [discriminate Hk|].
  rewrite remove_forest_cons, remove_below_eq in Hk. cbn [List.find] in Hf.
  destruct (has_id i c) eqn:Ei.
  - injection Hk as <-. destruct (is_tag t c); [|eauto].
    congruence.
  - destruct (remove_forest i (children c)) as [k'|]; cbn [option_map] in Hk.
    + injection Hk as <-. cbn [List.find]. rewrite is_tag_with_children.
      destruct (is_tag t c); eauto.
    + destruct (remove_forest i l) as [l'|]; cbn [option_map] in Hk;
        [|discriminate Hk].
      injection Hk as <-. cbn [List.find].
      destruct (is_tag t c); eauto.
Qed.

(** [document.head] is still there after the removal, unless the root or
    the head was the element removed. *)
Lemma head_remove_by_id (d : Document) (i : string) (r h : Element) :
  documentElement d = Some r -> has_id i r = false ->
  head d = Some h -> has_id i h = false ->
  is_Some (head (remove_by_id d i)).
Proof.
  destruct d as [[r'|]]; cbn [documentElement]; [|discriminate].
  intros [= ->] Hr Hh Hi. unfold remove_by_id. cbn [documentElement].
  rewrite Hr, remove_below_eq.
  destruct (remove_forest i (children r)) as [k|] eqn:Ek; cbn [option_map];
    [|eauto].
  unfold head in *. cbn [documentElement] in *. rewrite is_tag_with_children.
  destruct (is_tag "html" r); [|discriminate Hh].
  exact (find_remove_forest i "head" _ _ h Ek Hh Hi).
Qed.

Lemma remove_forest_snoc (i : string) (k : list Element) (e : Element) :
  count_in i (flat_map elements_of k) = 0 -> has_id i e = true ->
  remove_forest i (k ++ [e]) = Some k.
Proof.
  intros Hk He. induction k as [|c k IH]; cbn [app].
  - rewrite remove_forest_cons, He. reflexivity.
  - cbn [flat_map] in Hk. rewrite count_in_app, count_in_elements_of in Hk.
    rewrite remove_forest_cons, remove_below_eq.
    destruct (has_id i c); [discriminate Hk|]. cbn [Nat.add] in Hk.
    assert (H1 : count_in i (flat_map elements_of (children c)) = 0) by lia.
    assert (H2 : count_in i (flat_map elements_of k) = 0) by lia.
    apply (proj1 (removal_all i (children c))) in H1.
    rewrite H1, (IH H2). reflexivity.
Qed.

Lemma with_children_twice (c : Element) (l1 l2 : list Element) :
  with_children (with_children c l1) l2 = with_children c l2.
Proof. reflexivity. Qed.

(** The removal takes back what [append_to_first] appended, when no
    other element has the id. *)
Lemma remove_forest_append_to_first (i : string) (f : Element -> bool) (e : Element)
      (cs : list Element) :
  List.find f cs <> None ->
  count_in i (flat_map elements_of cs) = 0 ->
  has_id i e = true ->
  remove_forest i (append_to_first f e cs) = Some cs.
Proof.
  intros Hf Hc He. induction cs as [|c l IH]; cbn [List.find] in Hf;
    [congruence|].
  cbn [flat_map] in Hc. rewrite count_in_app, count_in_elements_of in Hc.
  cbn [append_to_first].
  destruct (has_id i c) eqn:Ei; [discriminate Hc|]. cbn [Nat.add] in Hc.
  assert (H1 : count_in i (flat_map elements_of (children c)) = 0) by lia.
  assert (H2 : count_in i (flat_map elements_of l) = 0) by lia.
  destruct (f c).
  - rewrite remove_forest_cons, has_id_with_children, Ei, remove_below_eq.
    change (children (with_children c (children c ++ [e]))) with (children c ++ [e])%list.
    rewrite (remove_forest_snoc _ _ _ H1 He). cbn [option_map].
    rewrite with_children_twice, with_children_same. reflexivity.
  - rewrite remove_forest_cons, Ei, remove_below_eq.
    apply (proj1 (removal_all i (children c))) in H1.
    rewrite H1, (IH Hf H2). reflexivity.
Qed.

Lemma remove_by_id_appendToHead (i : string) (r e : Element) :
  is_Some (head (mkDocument (Some r))) ->
  count_id i (mkDocument (Some r)) = 0 ->
  has_id i e = true ->
  remove_by_id (appendToHead (mkDocument (Some r)) e) i = mkDocument (Some r).
Proof.
  intros H Hc He. rewrite count_id_root in Hc.
  unfold remove_by_id, appendToHead. cbn [documentElement].
  rewrite has_id_with_children.
  destruct (has_id i r); [discriminate Hc|]. cbn [Nat.add] in Hc.
  rewrite remove_below_eq.
  change (children (with_children r ?l)) with l.
  cbn [children with_children].
  rewrite (remove_forest_append_to_first _ _ _ _ (head_is_some _ H) Hc He).
  cbn [option_map]. rewrite with_children_twice, with_children_same. reflexivity.
Qed.

Lemma find_append_to_first_tag (t : string) (e h : Element) (cs : list Element) :
  List.find (is_tag t) cs = Some h ->
  List.find (is_tag t) (append_to_first (is_tag t) e cs)
  = Some (with_children h (children h ++ [e])).
Proof.
  induction cs as [|c l IH]; cbn [List.find append_to_first]; [discriminate|].
  destruct (is_tag t c) eqn:Et; cbn [List.find].
  - intros [= ->]. rewrite is_tag_with_children, Et. reflexivity.
  - rewrite Et. exact IH.
Qed.

(** The appended element is the last child of the head. *)
Lemma head_appendToHead (r e h : Element) :
  head (mkDocument (Some r)) = Some h ->
  head (appendToHead (mkDocument (Some r)) e)
  = Some (with_children h (children h ++ [e])).
Proof.
  unfold head, appendToHead. cbn [documentElement].
  rewrite is_tag_with_children. destruct (is_tag "html" r); [|discriminate].
  change (children (with_children r ?l)) with l.
  cbn [children with_children].
  apply find_append_to_first_tag.
Qed.

(** *** [disableDarkMode] *)

Lemma disableDarkMode_document (p : Page) (r : Element) :
  documentElement (document p) = Some r ->
  document (disableDarkMode p)
  = remove_by_id (mkDocument (Some (removeProperty r "color-scheme"))) FALLBACK_STYLE_ID.
Proof.
  intros Hr. unfold disableDarkMode, disableDarkMode_call. rewrite Hr. cbv zeta.
  destruct (getElementById _ FALLBACK_STYLE_ID) eqn:E; cbn [snd document with_document];
    [reflexivity|].
  apply getElementById_none in E. rewrite (remove_by_id_none _ _ E). reflexivity.
Qed.

Lemma disableDarkMode_rootless (p : Page) :
  documentElement (document p) = None -> disableDarkMode_call p = (Throws "TypeError", p).
Proof. intros H. unfold disableDarkMode_call. rewrite H. reflexivity. Qed.

Lemma disableDarkMode_completes (p : Page) :
  is_Some (documentElement (document p)) ->
  disableDarkMode_call p = (Completes, disableDarkMode p).
Proof.
  intros [r Hr]. unfold disableDarkMode, disableDarkMode_call. rewrite Hr. cbv zeta.
  destruct (getElementById _ FALLBACK_STYLE_ID); reflexivity.
Qed.

Lemma disableDarkMode_with_document (p : Page) :
  disableDarkMode p = with_document p (document (disableDarkMode p)).
Proof.
  unfold disableDarkMode, disableDarkMode_call.
  destruct (documentElement (document p)); cbv zeta;
    [destruct (getElementById _ FALLBACK_STYLE_ID)|]; cbn [snd];
    destruct p; reflexivity.
Qed.

Lemma enableDarkMode_with_document (p : Page) :
  enableDarkMode p = with_document p (document (enableDarkMode p)).
Proof.
  unfold enableDarkMode, enableDarkMode_call.
  destruct (documentElement (document p)); cbv zeta;
    [destruct (getElementById _ FALLBACK_STYLE_ID); [|destruct (head _)]|]; cbn [snd];
    destruct p; reflexivity.
Qed.

(** The ids after [disableDarkMode()]: at least one fewer, if there was
    one. *)
Lemma disableDarkMode_count (p : Page) :
  count_id FALLBACK_STYLE_ID (document (disableDarkMode p))
  <= Nat.pred (count_id FALLBACK_STYLE_ID (document p)).
Proof.
  destruct (documentElement (document p)) as [r|] eqn:Hr.
  - rewrite (disableDarkMode_document p r Hr).
    etrans; [apply remove_by_id_count|].
    rewrite count_id_removeProperty.
    destruct p as [w h [r'] b k]. cbn [document documentElement] in *.
    rewrite Hr. reflexivity.
  - unfold disableDarkMode. rewrite (disableDarkMode_rootless p Hr).
    destruct p as [w h [r'] b k]. cbn [document documentElement snd] in *.
    rewrite Hr. cbn. lia.
Qed.

Lemma declarations_removeProperty (r : Element) (name : string) :
  declarations (removeProperty r name) = delete name (declarations r).
Proof.
  unfold removeProperty, declarations.
  destruct (style r) as [m|] eqn:Es; cbn [from_option Datatypes.id].
  - destruct (m !! name) eqn:Em.
    + reflexivity.
    + rewrite Es. cbn [from_option Datatypes.id]. symmetry. apply delete_id, Em.
  - rewrite Es. cbn [from_option Datatypes.id]. symmetry. apply delete_empty.
Qed.

(** The root after a removal: gone, or the same but for its children. *)
Lemma remove_by_id_root (d : Document) (i : string) (r : Element) :
  documentElement d = Some r ->
  (has_id i r = true /\ documentElement (remove_by_id d i) = None)
  \/ (has_id i r = false
      /\ exists k, documentElement (remove_by_id d i) = Some (with_children r k)).
Proof.
  intros Hr. unfold remove_by_id. rewrite Hr.
  destruct (has_id i r); [left; auto|right; split; [reflexivity|]].
  rewrite remove_below_eq.
  destruct (remove_forest i (children r)) as [k|]; cbn [option_map documentElement].
  - eauto.
  - exists (children r). rewrite with_children_same. exact Hr.
Qed.

Lemma disableDarkMode_style (p : Page) :
  rootStyle (document (disableDarkMode p)) !! "color-scheme" = None.
Proof.
  destruct (documentElement (document p)) as [r|] eqn:Hr.
  - rewrite (disableDarkMode_document p r Hr).
    destruct (remove_by_id_root (mkDocument (Some (removeProperty r "color-scheme")))
                FALLBACK_STYLE_ID _ eq_refl) as [[_ H]|[_ [k H]]];
      unfold rootStyle; rewrite H; [reflexivity|].
    change (declarations (with_children ?e k)) with (declarations e).
    rewrite declarations_removeProperty. apply lookup_delete_eq.
  - unfold disableDarkMode. rewrite (disableDarkMode_rootless p Hr).
    unfold rootStyle. cbn [snd]. rewrite Hr. reflexivity.
Qed.

(** The other declarations of the root, as long as the root stays. *)
Lemma disableDarkMode_other_style (p : Page) (name : string) :
  name <> "color-scheme"%string ->
  is_Some (documentElement (document (disableDarkMode p))) ->
  rootStyle (document (disableDarkMode p)) !! name = rootStyle (document p) !! name.
Proof.
  intros Hn. destruct (documentElement (document p)) as [r|] eqn:Hr.
  - rewrite (disableDarkMode_document p r Hr).
    destruct (remove_by_id_root (mkDocument (Some (removeProperty r "color-scheme")))
                FALLBACK_STYLE_ID _ eq_refl) as [[_ H]|[_ [k H]]];
      unfold rootStyle; rewrite H, Hr; [intros [x Hx]; discriminate Hx|].
    intros _. change (declarations (with_children ?e k)) with (declarations e).
    rewrite declarations_removeProperty. apply lookup_delete_ne. congruence.
  - unfold disableDarkMode. rewrite (disableDarkMode_rootless p Hr). reflexivity.
Qed.

(** [document.head] after [disableDarkMode()]. *)
Lemma disableDarkMode_head (p : Page) (r h : Element) :
  documentElement (document p) = Some r -> has_id FALLBACK_STYLE_ID r = false ->
  head (document p) = Some h -> has_id FALLBACK_STYLE_ID h = false ->
  is_Some (head (document (disableDarkMode p))).
Proof.
  intros Hr Hi Hh Hj. rewrite (disableDarkMode_document p r Hr).
  assert (E : head (mkDocument (Some (removeProperty r "color-scheme"))) = Some h).
  { destruct (removeProperty_with_style r "color-scheme") as [->|[s ->]];
      destruct p as [w ho [r'] b k]; cbn [document documentElement] in *;
      subst r'; exact Hh. }
  apply (head_remove_by_id _ _ (removeProperty r "color-scheme") h);
    [reflexivity | | exact E | exact Hj].
  destruct (removeProperty_with_style r "color-scheme") as [->|[s ->]]; exact Hi.
Qed.

(** *** [enableDarkMode] on a document with a head *)

Lemma head_root (d : Document) (h : Element) :
  head d = Some h -> exists r, documentElement d = Some r.
Proof. unfold head. destruct (documentElement d); [eauto|discriminate]. Qed.

Lemma enableDarkMode_completes (p : Page) :
  is_Some (head (document p)) ->
  enableDarkMode_call p = (Completes, enableDarkMode p).
Proof.
  intros H. unfold enableDarkMode. rewrite enableDarkMode_call_cases.
  destruct H as [h Hh]. destruct (head_root _ _ Hh) as [r Hr]. rewrite Hr. cbv zeta.
  rewrite bool_decide_eq_true_2 by eauto.
  destruct (Nat.eqb _ 0); reflexivity.
Qed.

(** On a document without an element of the reserved id, the call
    appends its link to the head, as the last child. *)
Lemma enableDarkMode_fresh (p : Page) (h : Element) :
  head (document p) = Some h ->
  count_id FALLBACK_STYLE_ID (document p) = 0 ->
  getElementById (document (enableDarkMode p)) FALLBACK_STYLE_ID = Some (fallback_link p)
  /\ head (document (enableDarkMode p))
     = Some (with_children h (children h ++ [fallback_link p])).
Proof.
  intros Hh Hc. unfold enableDarkMode. rewrite enableDarkMode_call_cases.
  destruct (head_root _ _ Hh) as [r Hr]. rewrite Hr, Hc. cbv zeta.
  rewrite bool_decide_eq_true_2 by eauto. cbn [Nat.eqb snd document with_document].
  destruct p as [w ho [r'] b k]. cbn [document documentElement] in *. subst r'.
  split.
  - apply getElementById_appendToHead; [eauto | | reflexivity].
    rewrite count_id_setProperty. exact Hc.
  - apply head_appendToHead. exact Hh.
Qed.

(** On a document with such an element, only the root's style changes. *)
Lemma enableDarkMode_head_kept (p : Page) :
  count_id FALLBACK_STYLE_ID (document p) <> 0 ->
  head (document (enableDarkMode p)) = head (document p).
Proof.
  intros Hc. unfold enableDarkMode. rewrite enableDarkMode_call_cases.
  destruct p as [w ho [[r|]] b k]; cbn [document documentElement] in *;
    [|reflexivity].
  cbv zeta. apply Nat.eqb_neq in Hc. rewrite Hc. reflexivity.
Qed.

Lemma enableDarkMode_head (p : Page) :
  is_Some (head (document p)) -> is_Some (head (document (enableDarkMode p))).
Proof.
  intros [h Hh].
  destruct (Nat.eq_dec (count_id FALLBACK_STYLE_ID (document p)) 0) as [Hc|Hc].
  - destruct (enableDarkMode_fresh p h Hh Hc) as [_ H]. rewrite H. eauto.
  - rewrite (enableDarkMode_head_kept p Hc). eauto.
Qed.

(** C4 (as amended): on a page whose document has a head and at most one
    element with the reserved id, applying the enable transition twice in
    a row leaves exactly one element with the reserved id and the property
    [color-scheme: dark !important] on the root, both calls complete, and
    the second changes nothing; when no element had the id, the one
    element is the stylesheet link with its [id], [rel], [type] and
    [href], the last child of the head.  The disable transition on a page
    in the Light state changes nothing (and completes when the document
    has a root); in general it leaves the root without the property and
    the document with at least one element of the reserved id fewer, if
    there was one. *)
Theorem enable_twice_one_override (p : Page) (h : Element) :
  (head (document p) = Some h ->
   count_id FALLBACK_STYLE_ID (document p) <= 1 ->
   let q := enableDarkMode (enableDarkMode p) in
   enableDarkMode_call p = (Completes, enableDarkMode p)
   /\ enableDarkMode_call (enableDarkMode p) = (Completes, q)
   /\ count_id FALLBACK_STYLE_ID (document q) = 1
   /\ rootStyle (document q) !! "color-scheme" = Some ("dark", "important")%string
   /\ q = enableDarkMode p
   /\ (count_id FALLBACK_STYLE_ID (document p) = 0 ->
       let link :=
         mkElement "link" "toothlit-dark-mode-fallback-css" "stylesheet" "text/css"
                   (extensionBase p ++ "dark-mode.css") None [] in
       getElementById (document q) FALLBACK_STYLE_ID = Some link
       /\ head (document q) = Some (with_children h (children h ++ [link]))))
  /\ (isLight p = true -> disableDarkMode p = p)
  /\ (isLight p = true -> is_Some (documentElement (document p)) ->
      disableDarkMode_call p = (Completes, p))
  /\ rootStyle (document (disableDarkMode p)) !! "color-scheme" = None
  /\ count_id FALLBACK_STYLE_ID (document (disableDarkMode p))
     <= Nat.pred (count_id FALLBACK_STYLE_ID (document p)).
Proof.
  split; [intros Hh Hc; cbv zeta | split; [|split; [|split]]].
  - assert (Hs : is_Some (head (document p))) by eauto.
    destruct (head_root _ _ Hh) as [r Hr].
    rewrite enableDarkMode_idempotent.
    split; [apply enableDarkMode_completes, Hs|].
    split; [rewrite <- (enableDarkMode_idempotent p) at 2;
            apply enableDarkMode_completes, enableDarkMode_head, Hs|].
    split; [rewrite enableDarkMode_count, bool_decide_eq_true_2 by exact Hs; lia|].
    split; [rewrite (enableDarkMode_style p r Hr); apply lookup_insert_eq|].
    split; [reflexivity|].
    intros H0. exact (enableDarkMode_fresh p h Hh H0).
  - apply disableDarkMode_light.
  - intros Hl Hr. rewrite (disableDarkMode_completes p Hr).
    rewrite (disableDarkMode_light p Hl). reflexivity.
  - apply disableDarkMode_style.
  - apply disableDarkMode_count.
Qed.

Lemma enable_twice_one_override_witness :
  head (document (Examples.light_page "news.example")) = Some (Examples.plain "head" [])
  /\ count_id FALLBACK_STYLE_ID (document (Examples.light_page "news.example")) <= 1
  /\ isLight (Examples.light_page "news.example") = true
  /\ isDark (enableDarkMode (enableDarkMode (Examples.light_page "news.example"))) = true
  /\ head (document (enableDarkMode (enableDarkMode (Examples.light_page "news.example"))))
     = Some (Examples.plain "head"
               [mkElement "link" "toothlit-dark-mode-fallback-css" "stylesheet" "text/css"
                          "safari-web-extension://toothlit/dark-mode.css" None []])
  /\ disableDarkMode_call (Examples.light_page "news.example")
     = (Completes, Examples.light_page "news.example").
Proof.
  assert (H0 : head (document (Examples.light_page "news.example"))
               = Some (Examples.plain "head" [])) by reflexivity.
  assert (H1 : count_id FALLBACK_STYLE_ID
                 (document (Examples.light_page "news.example")) <= 1)
    by (vm_compute; lia).
  assert (H2 : isLight (Examples.light_page "news.example") = true)
    by reflexivity.
  destruct (enable_twice_one_override (Examples.light_page "news.example")
              (Examples.plain "head" []))
    as (He & _ & Hd & _).
  destruct (He H0 H1) as (_ & _ & Hc & Hs & _ & Hl).
  destruct (Hl eq_refl) as [_ Hh].
  split; [exact H0|]. split; [exact H1|]. split; [exact H2|].
  split; [unfold isDark; rewrite Hc, Hs; reflexivity|].
  split; [exact Hh|]. apply (Hd H2). eexists. reflexivity.
Defined.

(** C4 as the specification states it, for every page, does not hold: on
    a page that carries the reserved id on two elements, two enable
    transitions leave two such elements; on an SVG document, which has no
    head, the call throws after it has set the property and no element
    with the reserved id is there afterwards. *)
Lemma enable_twice_not_one :
  count_id FALLBACK_STYLE_ID
    (document (enableDarkMode (enableDarkMode (Examples.twin_page "news.example")))) = 2
  /\ fst (enableDarkMode_call (Examples.svg_page "news.example")) = Throws "TypeError"
  /\ count_id FALLBACK_STYLE_ID
       (document (enableDarkMode (enableDarkMode (Examples.svg_page "news.example")))) = 0.
Proof. vm_compute. auto. Qed.

Lemma strict_eq_string_true (v : JS.value) (s : string) :
  JS.strict_eq_string v s = true <-> v = JS.VString s.
Proof.
  destruct v; simpl; try (split; [discriminate|congruence]).
  rewrite String.eqb_eq. split; congruence.
Qed.

Lemma from_own_window_true (p : Page) (ev : MessageEvent) :
  from_own_window p ev = true <-> source ev = Some (window p).
Proof.
  unfold from_own_window. destruct (source ev) as [n|];
    [|split; [discriminate|congruence]].
  rewrite Nat.eqb_eq. split; congruence.
Qed.

(** C5: an inbound message changes the page only if its source is the
    page's own window and its data carries the source marker
    ['toothlit-background']; a message that fails either check leaves the
    page as it is. *)
Theorem onMessage_guard (ev : MessageEvent) (p : Page) :
  (onMessage ev p <> p ->
   source ev = Some (window p)
   /\ JS.get (data ev) "source" = JS.VString "toothlit-background")
  /\ (source ev <> Some (window p)
      \/ JS.get (data ev) "source" <> JS.VString "toothlit-background" ->
      onMessage ev p = p).
Proof.
  unfold onMessage.
  destruct (from_own_window p ev) eqn:Ew; cbn [andb].
  - destruct (JS.truthy (data ev)); cbn [andb].
    + destruct (JS.strict_eq_string (JS.get (data ev) "source") _) eqn:Es.
      * apply from_own_window_true in Ew. apply strict_eq_string_true in Es.
        split; [auto|]. intros [H|H]; contradiction.
      * split; [congruence|reflexivity].
    + split; [congruence|reflexivity].
  - split; [congruence|reflexivity].
Qed.

Lemma onMessage_guard_witness :
  onMessage Examples.enable_message (Examples.light_page "news.example")
    <> Examples.light_page "news.example"
  /\ source Examples.enable_message
     = Some (window (Examples.light_page "news.example"))
  /\ JS.get (data Examples.enable_message) "source"
     = JS.VString "toothlit-background"
  /\ (source (mkMessageEvent (Some 8) (data Examples.enable_message))
        <> Some (window (Examples.light_page "news.example")) ->
      onMessage (mkMessageEvent (Some 8) (data Examples.enable_message))
                (Examples.light_page "news.example")
      = Examples.light_page "news.example").
Proof.
  assert (H : onMessage Examples.enable_message (Examples.light_page "news.example")
              <> Examples.light_page "news.example").
  { intros E.
    apply (f_equal (fun q => count_id FALLBACK_STYLE_ID (document q))) in E.
    vm_compute in E. discriminate E. }
  destruct (onMessage_guard Examples.enable_message
              (Examples.light_page "news.example")) as [H1 _].
  destruct (H1 H) as [Hs Hm].
  destruct (onMessage_guard (mkMessageEvent (Some 8) (data Examples.enable_message))
              (Examples.light_page "news.example")) as [_ H2].
  split; [exact H|]. split; [exact Hs|]. split; [exact Hm|].
  intros Hn. apply H2. left. exact Hn.
Defined.

(** The start-up check on a stored [true]. *)
Lemma initialCheck_enabled (settings : gmap string JS.object) (o : JS.object) (p : Page) :
  settings !! SETTINGS_KEY = Some o ->
  o !! hostname p = Some true ->
  initialCheck (Some settings) p = catch_handler (enableDarkMode_call p).
Proof.
  intros Hs Ho. unfold initialCheck. cbv zeta. rewrite Hs. cbn [from_option Datatypes.id].
  unfold JS.obj_get. rewrite Ho. reflexivity.
Qed.

(** The start-up check on a stored [false], or on no entry for a host
    name that [Object.prototype] does not define. *)
Lemma initialCheck_not_enabled (settings : gmap string JS.object) (p : Page) :
  default ∅ (settings !! SETTINGS_KEY) !! hostname p = Some false
  \/ (default ∅ (settings !! SETTINGS_KEY) !! hostname p = None
      /\ JS.inherited (hostname p) = false) ->
  initialCheck (Some settings) p = p.
Proof.
  unfold initialCheck, JS.obj_get. cbv zeta. intros [->|[-> ->]]; reflexivity.
Qed.

(** What the [catch] handler leaves of the document. *)
Lemma catch_handler_document (p : Page) :
  document (catch_handler (enableDarkMode_call p)) = document (enableDarkMode p).
Proof.
  unfold enableDarkMode, catch_handler.
  destruct (enableDarkMode_call p) as [[|e] q]; reflexivity.
Qed.

Lemma catch_handler_completes (p : Page) :
  fst (enableDarkMode_call p) = Completes ->
  catch_handler (enableDarkMode_call p) = enableDarkMode p.
Proof.
  unfold enableDarkMode, catch_handler.
  destruct (enableDarkMode_call p) as [[|e] q]; [reflexivity|discriminate].
Qed.

End PageFacts.
Module URLFacts.
Import URL.

Local Open Scope char_scope.
Local Open Scope N_scope.

Lemma lower_not_upper (c : ascii) : is_upper (lower c) = false.
Proof. destruct c as [[] [] [] [] [] [] [] []]; reflexivity. Qed.

Lemma lower_fixed (c : ascii) : is_upper c = false -> lower c = c.
Proof. unfold lower. intros ->. reflexivity. Qed.

Lemma map_lower_fixed (l : list ascii) :
  forallb (fun c => negb (is_upper c)) l = true -> List.map lower l = l.
Proof.
  induction l as [|c l IH]; simpl; [reflexivity|].
  intros H. apply andb_true_iff in H as [Hc Hl].
  apply negb_true_iff in Hc. rewrite lower_fixed by exact Hc.
  f_equal. apply IH. exact Hl.
Qed.

Lemma map_lower_idempotent (l : list ascii) :
  List.map lower (List.map lower l) = List.map lower l.
Proof.
  apply map_lower_fixed. rewrite forallb_forall. intros c Hc.
  apply in_map_iff in Hc as (c0 & <- & _). now rewrite lower_not_upper.
Qed.

Lemma map_lower_app (a b : list ascii) :
  List.map lower a = a -> List.map lower b = b ->
  List.map lower (a ++ b) = (a ++ b)%list.
Proof. intros Ha Hb. rewrite List.map_app, Ha, Hb. reflexivity. Qed.

Lemma small_cases (k : N) :
  k < 10 ->
  k = 0 \/ k = 1 \/ k = 2 \/ k = 3 \/ k = 4 \/ k = 5 \/ k = 6 \/ k = 7 \/ k = 8 \/ k = 9.
Proof. lia. Qed.

Lemma decimal_digit_plain (k : N) :
  k < 10 ->
  lower (decimal_digit k) = decimal_digit k
  /\ Ascii.eqb (decimal_digit k) ":" = false.
Proof.
  intros H. destruct (small_cases k H) as [->|[->|[->|[->|[->|[->|[->|[->|[->| ->]]]]]]]]];
    split; reflexivity.
Qed.

Lemma decimal_lower (n : N) : List.map lower (decimal n) = decimal n.
Proof.
  unfold decimal.
  assert (H : forall k, lower (decimal_digit (k mod 10)) = decimal_digit (k mod 10)).
  { intros k. apply decimal_digit_plain. apply N.mod_lt. discriminate. }
  destruct (100 <=? n), (10 <=? n); cbn [List.map app]; rewrite ?H; reflexivity.
Qed.

Lemma decimal_no_colon (n : N) : existsb (Ascii.eqb ":") (decimal n) = false.
Proof.
  unfold decimal.
  assert (H : forall k, Ascii.eqb ":" (decimal_digit (k mod 10)) = false).
  { intros k. rewrite Ascii.eqb_sym. apply decimal_digit_plain.
    apply N.mod_lt. discriminate. }
  destruct (100 <=? n), (10 <=? n); cbn [existsb app]; rewrite ?H; reflexivity.
Qed.

Lemma ipv4_serialize_lower (a : N) :
  List.map lower (ipv4_serialize a) = ipv4_serialize a.
Proof.
  unfold ipv4_serialize.
  repeat (apply map_lower_app; [first [apply decimal_lower | reflexivity]|]).
  apply decimal_lower.
Qed.

Lemma ipv4_serialize_no_colon (a : N) :
  existsb (Ascii.eqb ":") (ipv4_serialize a) = false.
Proof.
  unfold ipv4_serialize. rewrite !existsb_app, !decimal_no_colon. reflexivity.
Qed.

Lemma non_empty_some (r : option (list ascii)) (a : list ascii) :
  non_empty r = Some a -> r = Some a.
Proof. destruct r as [[|c l]|]; simpl; congruence. Qed.

Lemma domain_to_ascii_lower (P : Platform) (l a : list ascii) :
  lowercase_platform P ->
  domain_to_ascii P l = Some a -> List.map lower a = a.
Proof.
  intros [HU _] H. unfold domain_to_ascii in H. apply non_empty_some in H.
  destruct (plain_domain l).
  - injection H as <-. apply map_lower_idempotent.
  - eapply HU. exact H.
Qed.

(** A host parsed as a domain, an IPv4 or an IPv6 address is lowercase. *)
Lemma host_parse_lower (P : Platform) (l h : list ascii) :
  lowercase_platform P ->
  host_parse P false l = Some h -> List.map lower h = h.
Proof.
  intros HP H. unfold host_parse in H.
  destruct l as [|c l']; [discriminate|].
  destruct (Ascii.eqb c "[").
  - destruct (rev l') as [|e inner]; [discriminate|].
    destruct (Ascii.eqb e "]"); [|discriminate].
    destruct (ipv6 P (rev inner)) as [a|] eqn:E; [|discriminate].
    injection H as <-. destruct HP as [_ H6]. apply H6 in E.
    change ("[" :: a ++ ["]"])%list with (["["] ++ a ++ ["]"])%list.
    repeat apply map_lower_app; auto.
  - destruct (domain_to_ascii P (percent_decode (c :: l'))) as [a|] eqn:E;
      [|discriminate].
    destruct (existsb forbidden_domain a); [discriminate|].
    destruct (ends_in_number a).
    + destruct (ipv4_parse a); [|discriminate].
      injection H as <-. apply ipv4_serialize_lower.
    + injection H as <-. eapply domain_to_ascii_lower; eauto.
Qed.

Lemma forbidden_host_colon (c : ascii) :
  forbidden_host c = false -> Ascii.eqb ":" c = false.
Proof.
  destruct (Ascii.eqb_spec ":" c) as [<-|]; [discriminate|reflexivity].
Qed.

Lemma no_forbidden_no_colon (f : ascii -> bool) (l : list ascii) :
  (forall c, f c = false -> Ascii.eqb ":" c = false) ->
  existsb f l = false -> existsb (Ascii.eqb ":") l = false.
Proof.
  intros Hf. induction l as [|c l IH]; cbn [existsb]; [reflexivity|].
  intros H. apply orb_false_iff in H as [Hc Hl].
  rewrite (Hf c Hc), (IH Hl). reflexivity.
Qed.

Lemma percent_encode_c0_no_colon (l : list ascii) :
  existsb (Ascii.eqb ":") l = false ->
  existsb (Ascii.eqb ":") (percent_encode_c0 l) = false.
Proof.
  induction l as [|c l IH]; [reflexivity|].
  unfold percent_encode_c0 in *. cbn [existsb flat_map].
  intros H. apply orb_false_iff in H as [Hc Hl].
  rewrite existsb_app, (IH Hl), orb_false_r.
  revert Hc. clear. destruct c as [[] [] [] [] [] [] [] []]; vm_compute; auto.
Qed.

(** A parsed host has a colon only if it is an IPv6 literal. *)
Lemma host_parse_colon (P : Platform) (opaque : bool) (l h : list ascii) :
  host_parse P opaque l = Some h ->
  existsb (Ascii.eqb ":") h = true ->
  exists h', h = "[" :: h'.
Proof.
  intros H Hc. unfold host_parse in H.
  destruct l as [|c l'].
  { destruct opaque; [|discriminate]. injection H as <-. discriminate. }
  destruct (Ascii.eqb c "[").
  - destruct (rev l') as [|e inner]; [discriminate|].
    destruct (Ascii.eqb e "]"); [|discriminate].
    destruct (ipv6 P (rev inner)) as [a|]; [|discriminate].
    injection H as <-. eauto.
  - destruct opaque.
    + destruct (existsb forbidden_host (c :: l')) eqn:E; [discriminate|].
      assert (Hh : h = percent_encode_c0 (c :: l')) by congruence.
      rewrite Hh, percent_encode_c0_no_colon in Hc; [discriminate|].
      eapply no_forbidden_no_colon; [|exact E]. apply forbidden_host_colon.
    + destruct (domain_to_ascii P (percent_decode (c :: l'))) as [a|];
        [|discriminate].
      destruct (existsb forbidden_domain a) eqn:E; [discriminate|].
      destruct (ends_in_number a).
      * destruct (ipv4_parse a); [|discriminate].
        injection H as <-. rewrite ipv4_serialize_no_colon in Hc. discriminate.
      * injection H as <-.
        rewrite (no_forbidden_no_colon forbidden_domain) in Hc;
          [discriminate| |exact E].
        intros x Hx. apply forbidden_host_colon.
        unfold forbidden_domain in Hx.
        do 3 (apply orb_false_iff in Hx as [Hx _]). exact Hx.
Qed.

Lemma authority_state_host (P : Platform) (sch : string) (l : list ascii) (u : URLRecord) :
  authority_state P sch l = Some u ->
  scheme u = sch
  /\ exists buf h, host u = Some (string_of_list_ascii h)
                 /\ host_parse P (negb (is_special sch)) buf = Some h.
Proof.
  unfold authority_state. cbv zeta.
  destruct (match after_last_at _ with Some [] => None | Some r => Some r | None => _ end)
    as [hostport|]; [|discriminate].
  destruct (split_host_port false [] hostport) as [buffer [after_colon|]].
  - destruct buffer as [|b buffer]; [discriminate|].
    destruct (host_parse P (negb (is_special sch)) (b :: buffer)) as [h|] eqn:E;
      [|discriminate].
    destruct (port_state sch after_colon); [|discriminate].
    intros [= <-]. simpl. eauto.
  - destruct (is_special sch && Nat.eqb (List.length buffer) 0); [discriminate|].
    destruct (host_parse P (negb (is_special sch)) buffer) as [h|] eqn:E;
      [|discriminate].
    intros [= <-]. simpl. eauto.
Qed.

Lemma file_state_host (P : Platform) (l : list ascii) (u : URLRecord) :
  file_state P l = Some u ->
  scheme u = "file"%string
  /\ (host u = Some ""%string
      \/ exists buf h, host u = Some (string_of_list_ascii h)
                     /\ host_parse P false buf = Some h).
Proof.
  unfold file_state. cbv zeta.
  assert (He : forall u', Some (mkURL "file" (Some ""%string) None) = Some u' ->
                          scheme u' = "file"%string
                          /\ (host u' = Some ""%string
                              \/ exists buf h, host u' = Some (string_of_list_ascii h)
                                             /\ host_parse P false buf = Some h)).
  { intros u' [= <-]. simpl. auto. }
  destruct l as [|c1 [|c2 l']]; try apply He.
  destruct (is_slash c1 && is_slash c2); [|apply He].
  destruct (is_windows_drive_letter _); [apply He|].
  destruct (take_while _ l') as [|b buffer] eqn:Eb; [apply He|].
  destruct (host_parse P false (b :: buffer)) as [h|] eqn:E; [|discriminate].
  destruct (String.eqb _ "localhost"); [apply He|].
  intros [= <-]. simpl. split; [reflexivity|]. right. eauto.
Qed.

(** The host of a parsed URL: null for a URL that is not special and has
    no authority, else empty or produced by the host parser. *)
Lemma parse_host (P : Platform) (s : string) (u : URLRecord) :
  parse P s = Some u ->
  (host u = None /\ is_special (scheme u) = false)
  \/ host u = Some ""%string
  \/ exists buf h, host u = Some (string_of_list_ascii h)
                 /\ host_parse P (negb (is_special (scheme u))) buf = Some h.
Proof.
  unfold parse.
  destruct (scheme_start_state _) as [[sc rest]|]; [|discriminate].
  cbv zeta. destruct (String.eqb_spec (string_of_list_ascii sc) "file") as [Ef|Ef].
  - intros H. apply file_state_host in H as [Hs [H|H]]; rewrite Hs; auto.
  - destruct (is_special (string_of_list_ascii sc)) eqn:Es.
    + intros H. apply authority_state_host in H as [Hs H]. rewrite Hs. auto.
    + assert (Hn : forall u', Some (mkURL (string_of_list_ascii sc) None None) = Some u' ->
                              host u' = None /\ is_special (scheme u') = false).
      { intros u' [= <-]. simpl. auto. }
      destruct rest as [|c1 [|c2 rest']]; try (intros H; left; apply Hn, H).
      destruct (Ascii.eqb c1 "/" && Ascii.eqb c2 "/"); [|intros H; left; apply Hn, H].
      intros H. apply authority_state_host in H as [Hs H]. rewrite Hs. auto.
Qed.

Lemma to_lower_of_list (h : list ascii) :
  List.map lower h = h ->
  to_lower (string_of_list_ascii h) = string_of_list_ascii h.
Proof.
  intros H. unfold to_lower.
  rewrite list_ascii_of_string_of_list_ascii, H. reflexivity.
Qed.

(** The hostname of a URL with a special scheme is lowercase. *)
Lemma parse_special_lower (P : Platform) (s : string) (u : URLRecord) :
  lowercase_platform P ->
  parse P s = Some u ->
  is_special (scheme u) = true ->
  to_lower (hostname u) = hostname u.
Proof.
  intros HP H Hs. unfold hostname.
  destruct (parse_host P s u H) as [[_ Hn]|[->|(buf & h & -> & Hh)]].
  - congruence.
  - reflexivity.
  - rewrite Hs in Hh. simpl. apply to_lower_of_list.
    eapply host_parse_lower; eauto.
Qed.

(** The hostname never carries the port: it has a colon only as an IPv6
    literal in brackets. *)
Lemma parse_hostname_colon (P : Platform) (s : string) (u : URLRecord) :
  parse P s = Some u ->
  has_colon (hostname u) = true ->
  is_bracketed (hostname u) = true.
Proof.
  intros H. unfold hostname, has_colon.
  destruct (parse_host P s u H) as [[-> _]|[->|(buf & h & -> & Hh)]];
    try discriminate.
  simpl. rewrite list_ascii_of_string_of_list_ascii. intros Hc.
  destruct (host_parse_colon P _ buf h Hh Hc) as [h' ->]. reflexivity.
Qed.

End URLFacts.

(** ** The background script *)
Module BackgroundFacts.
Import Background.

Local Open Scope nat_scope.

Lemma getDomainFromUrl_spec (url : option string) (w : World) :
  getDomainFromUrl url w
  = match URL.parse (platform w) (to_string url) with
    | Some u => (Returned (Some (URL.hostname u)), w)
    | None =>
        (Returned None,
         set_console (console w ++ [("ToothLit: Invalid URL - ", JS.VString (to_string url))]) w)
    end.
Proof.
  unfold getDomainFromUrl, try_catch, bind, URL_new, ret, console_error.
  destruct (URL.parse _ _); reflexivity.
Qed.

Lemma requested_settings (w : World) :
  default ∅ (match storage w !! SETTINGS_KEY with
             | Some v => ({[ SETTINGS_KEY := v ]} : gmap string JS.object)
             | None => ∅
             end !! SETTINGS_KEY)
  = settings_of w.
Proof.
  unfold settings_of. destruct (storage w !! SETTINGS_KEY).
  - rewrite lookup_singleton_eq. reflexivity.
  - rewrite lookup_empty. reflexivity.
Qed.

Lemma getDomainState_spec (d : string) (w : World) :
  getDomainState d w
  = let w1 := set_trace (trace w ++ [CStorageGet SETTINGS_KEY]) w in
    if accepted w 0 (CStorageGet SETTINGS_KEY)
    then (Returned (JS.js_or (JS.obj_get (settings_of w) d) (JS.VBool false)), w1)
    else (Returned (JS.VBool false),
          set_console (console w ++ [("ToothLit: Error getting domain state",
                                      JS.VString "storage.local.get")]) w1).
Proof.
  unfold getDomainState, storage_local_get, try_catch, bind, invoke, ret,
    throw, console_error, accepted.
  rewrite Nat.add_0_r. cbn [fst snd].
  destruct (rejects w _ _); cbn [negb]; [reflexivity|].
  cbn. rewrite requested_settings. reflexivity.
Qed.

Lemma setDomainState_spec (d : string) (b : bool) (w : World) :
  setDomainState d b w
  = let get := CStorageGet SETTINGS_KEY in
    let items : gmap string JS.object :=
      {[ SETTINGS_KEY := JS.obj_set (settings_of w) d b ]} in
    let w1 := set_trace (trace w ++ [get]) w in
    let w2 := set_trace (trace w ++ [get; CStorageSet items]) w in
    if accepted w 0 get
    then
      if accepted w 1 (CStorageSet items)
      then (Returned tt, set_storage (items ∪ storage w) w2)
      else (Returned tt,
            set_console (console w ++ [("ToothLit: Error setting domain state",
                                        JS.VString "storage.local.set")]) w2)
    else (Returned tt,
          set_console (console w ++ [("ToothLit: Error setting domain state",
                                      JS.VString "storage.local.get")]) w1).
Proof.
  unfold setDomainState, storage_local_get, storage_local_set, try_catch, bind,
    invoke, ret, throw, console_error, accepted.
  rewrite Nat.add_0_r. cbn [fst snd].
  destruct (rejects w (List.length (trace w)) _); cbn [negb]; [reflexivity|].
  cbn. rewrite requested_settings, List.length_app. cbn [List.length].
  rewrite <- List.app_assoc. cbn [app].
  destruct (rejects w _ _); reflexivity.
Qed.

Lemma updateIcon_spec (tabId : Z) (b : bool) (w : World) :
  updateIcon tabId b w
  = let c := CSetIcon tabId (if b then icon_on else icon_off) in
    let w1 := set_trace (trace w ++ [c]) w in
    if accepted w 0 c
    then (Returned tt, set_icons (<[tabId := if b then icon_on else icon_off]> (icons w)) w1)
    else (Returned tt,
          set_console (console w ++ [("ToothLit: Failed to set icon for tab ",
                                      JS.VNumber tabId)]) w1).
Proof.
  unfold updateIcon, action_setIcon, try_catch, bind, invoke, ret, throw,
    console_error, accepted.
  rewrite Nat.add_0_r. cbn [fst snd].
  destruct (rejects w _ _); reflexivity.
Qed.

Lemma notifyContentScript_spec (tabId : Z) (b : bool) (w : World) :
  notifyContentScript tabId b w
  = let c := CExecuteScript tabId b in
    let w1 := set_trace (trace w ++ [c]) w in
    let failed :=
      (Returned tt,
       set_console (console w ++ [("ToothLit: Could not communicate with content script in tab ",
                                   JS.VNumber tabId)]) w1) in
    match pages w !! tabId with
    | Some p =>
        if accepted w 0 c
        then (Returned tt,
              set_pages (<[tabId := Page.onMessage (posted_message b p) p]> (pages w)) w1)
        else failed
    | None => failed
    end.
Proof.
  unfold notifyContentScript, scripting_executeScript, try_catch, bind, invoke,
    ret, throw, console_error, accepted.
  rewrite Nat.add_0_r. cbn [fst snd pages set_trace].
  destruct (pages w !! tabId); [|reflexivity].
  destruct (rejects w _ _); reflexivity.
Qed.

Lemma getDomainState_result (d : string) (w : World) :
  getDomainState d w = (Returned (read_state d w), exec (getDomainState d) w).
Proof.
  unfold exec, read_state. rewrite getDomainState_spec. cbv zeta.
  destruct (accepted w 0 _); reflexivity.
Qed.

Lemma setDomainState_result (d : string) (b : bool) (w : World) :
  setDomainState d b w = (Returned tt, exec (setDomainState d b) w).
Proof.
  unfold exec. rewrite setDomainState_spec. cbv zeta.
  destruct (accepted w 0 _); [destruct (accepted w 1 _)|]; reflexivity.
Qed.

Lemma updateIcon_result (tabId : Z) (b : bool) (w : World) :
  updateIcon tabId b w = (Returned tt, exec (updateIcon tabId b) w).
Proof.
  unfold exec. rewrite updateIcon_spec. cbv zeta.
  destruct (accepted w 0 _); reflexivity.
Qed.

Lemma notifyContentScript_result (tabId : Z) (b : bool) (w : World) :
  notifyContentScript tabId b w
  = (Returned tt, exec (notifyContentScript tabId b) w).
Proof.
  unfold exec. rewrite notifyContentScript_spec. cbv zeta.
  destruct (pages w !! tabId); [destruct (accepted w 0 _)|]; reflexivity.
Qed.

Lemma resolved_unchanged (url : option string) (w : World) (d : string) :
  result (getDomainFromUrl url) w = Returned (Some d) ->
  getDomainFromUrl url w = (Returned (Some d), w).
Proof.
  unfold result. rewrite getDomainFromUrl_spec.
  destruct (URL.parse _ _); simpl; [intros ->; reflexivity | discriminate].
Qed.

(** With a domain that passes the guard, the click listener is the
    sequence of its four steps. *)
Lemma onClicked_steps (tab : Tab) (w : World) (d : string) :
  result (getDomainFromUrl (tab_url tab)) w = Returned (Some d) ->
  d <> ""%string ->
  let next := JS.js_not (read_state d w) in
  let w1 := exec (getDomainState d) w in
  let w2 := exec (setDomainState d next) w1 in
  let w3 := exec (updateIcon (tab_id tab) next) w2 in
  onClicked tab w = (Returned tt, exec (notifyContentScript (tab_id tab) next) w3).
Proof.
  intros Hd Hne. cbv zeta. unfold onClicked, bind.
  rewrite (resolved_unchanged _ _ _ Hd).
  unfold no_domain. destruct (String.eqb_spec d "") as [->|_]; [congruence|].
  cbn [default]. rewrite getDomainState_result, setDomainState_result,
    updateIcon_result, notifyContentScript_result. reflexivity.
Qed.

Ltac fields :=
  cbn [trace storage icons pages console rejects platform
       set_trace set_storage set_icons set_pages set_console fst snd app].

Lemma accepted_after (w w' : World) (t : list call) (k : nat) (c : call) :
  rejects w' = rejects w ->
  trace w' = (trace w ++ t)%list ->
  accepted w' k c = accepted w (List.length t + k) c.
Proof.
  unfold accepted. intros -> ->. rewrite List.length_app, Nat.add_assoc.
  reflexivity.
Qed.

Lemma getDomainState_frame (d : string) (w : World) :
  let w1 := exec (getDomainState d) w in
  trace w1 = (trace w ++ [CStorageGet SETTINGS_KEY])%list
  /\ storage w1 = storage w /\ icons w1 = icons w /\ pages w1 = pages w
  /\ rejects w1 = rejects w /\ platform w1 = platform w.
Proof.
  cbv zeta. unfold exec. rewrite getDomainState_spec. cbv zeta.
  destruct (accepted w 0 _); fields; auto 10.
Qed.

Lemma setDomainState_frame (d : string) (b : bool) (w : World) :
  let get := CStorageGet SETTINGS_KEY in
  let o := JS.obj_set (settings_of w) d b in
  let set := CStorageSet {[ SETTINGS_KEY := o ]} in
  let w2 := exec (setDomainState d b) w in
  trace w2 = (trace w ++ [get] ++ (if accepted w 0 get then [set] else []))%list
  /\ storage w2 = (if accepted w 0 get && accepted w 1 set
                   then <[SETTINGS_KEY := o]> (storage w) else storage w)
  /\ icons w2 = icons w /\ pages w2 = pages w
  /\ rejects w2 = rejects w /\ platform w2 = platform w.
Proof.
  cbv zeta. unfold exec. rewrite setDomainState_spec. cbv zeta.
  destruct (accepted w 0 _); [destruct (accepted w 1 _)|]; fields;
    rewrite <- ?insert_union_singleton_l; auto 10.
Qed.

Lemma updateIcon_frame (tabId : Z) (b : bool) (w : World) :
  let icon := if b then icon_on else icon_off in
  let w3 := exec (updateIcon tabId b) w in
  trace w3 = (trace w ++ [CSetIcon tabId icon])%list
  /\ storage w3 = storage w
  /\ icons w3 = (if accepted w 0 (CSetIcon tabId icon)
                 then <[tabId := icon]> (icons w) else icons w)
  /\ pages w3 = pages w /\ rejects w3 = rejects w /\ platform w3 = platform w.
Proof.
  cbv zeta. unfold exec. rewrite updateIcon_spec. cbv zeta.
  destruct (accepted w 0 _); fields; auto 10.
Qed.

Lemma notifyContentScript_frame (tabId : Z) (b : bool) (w : World) :
  let c := CExecuteScript tabId b in
  let w4 := exec (notifyContentScript tabId b) w in
  trace w4 = (trace w ++ [c])%list
  /\ storage w4 = storage w /\ icons w4 = icons w
  /\ pages w4 = match pages w !! tabId with
                | Some p =>
                    if accepted w 0 c
                    then <[tabId := Page.onMessage (posted_message b p) p]> (pages w)
                    else pages w
                | None => pages w
                end
  /\ rejects w4 = rejects w /\ platform w4 = platform w.
Proof.
  cbv zeta. unfold exec. rewrite notifyContentScript_spec. cbv zeta.
  destruct (pages w !! tabId); [destruct (accepted w 0 _)|]; fields; auto 10.
Qed.

Lemma settings_of_storage (w w' : World) :
  storage w' = storage w -> settings_of w' = settings_of w.
Proof. unfold settings_of. intros ->. reflexivity. Qed.

(** The fields of the world after a click that passes the guard, in terms
    of the world before it. *)
Lemma onClicked_world (tab : Tab) (w : World) (d : string) :
  result (getDomainFromUrl (tab_url tab)) w = Returned (Some d) ->
  d <> ""%string ->
  let get := CStorageGet SETTINGS_KEY in
  let next := JS.js_not (read_state d w) in
  let o := JS.obj_set (settings_of w) d next in
  let set := CStorageSet {[ SETTINGS_KEY := o ]} in
  let icon := if next then icon_on else icon_off in
  let seticon := CSetIcon (tab_id tab) icon in
  let inject := CExecuteScript (tab_id tab) next in
  let k := if accepted w 1 get then 3 else 2 in
  let w' := exec (onClicked tab) w in
  result (onClicked tab) w = Returned tt
  /\ trace w' = (trace w ++ [get; get] ++ (if accepted w 1 get then [set] else [])
                         ++ [seticon; inject])%list
  /\ storage w' = (if accepted w 1 get && accepted w 2 set
                   then <[SETTINGS_KEY := o]> (storage w) else storage w)
  /\ icons w' = (if accepted w k seticon
                 then <[tab_id tab := icon]> (icons w) else icons w)
  /\ pages w' = match pages w !! tab_id tab with
                | Some p =>
                    if accepted w (S k) inject
                    then <[tab_id tab := Page.onMessage (posted_message next p) p]> (pages w)
                    else pages w
                | None => pages w
                end.
Proof.
  intros Hd Hne. cbv zeta. unfold exec, result.
  rewrite (onClicked_steps tab w d Hd Hne). cbv zeta. cbn [fst snd].
  set (next := JS.js_not (read_state d w)).
  set (w1 := exec (getDomainState d) w).
  set (w2 := exec (setDomainState d next) w1).
  set (w3 := exec (updateIcon (tab_id tab) next) w2).
  destruct (getDomainState_frame d w) as (T1 & S1 & I1 & P1 & R1 & _).
  destruct (setDomainState_frame d next w1) as (T2 & S2 & I2 & P2 & R2 & _).
  destruct (updateIcon_frame (tab_id tab) next w2) as (T3 & S3 & I3 & P3 & R3 & _).
  destruct (notifyContentScript_frame (tab_id tab) next w3) as (T4 & S4 & I4 & P4 & _).
  fold w1 in T1, S1, I1, P1, R1. fold w2 in T2, S2, I2, P2, R2.
  fold w3 in T3, S3, I3, P3, R3.
  cbv zeta in *.
  rewrite (settings_of_storage w w1 S1) in *.
  rewrite !(accepted_after w w1 _ _ _ R1 T1) in *. cbn [List.length Nat.add] in *.
  assert (R2' : rejects w2 = rejects w) by congruence.
  assert (T2' : trace w2 = (trace w ++ [CStorageGet SETTINGS_KEY; CStorageGet SETTINGS_KEY]
                    ++ (if accepted w 1 (CStorageGet SETTINGS_KEY)
                        then [CStorageSet {[ SETTINGS_KEY := JS.obj_set (settings_of w) d next ]}]
                        else []))%list).
  { rewrite T2, T1, <- List.app_assoc. reflexivity. }
  rewrite (accepted_after w w2 _ _ _ R2' T2') in *.
  assert (R3' : rejects w3 = rejects w) by congruence.
  assert (T3' : trace w3 = (trace w ++ ([CStorageGet SETTINGS_KEY; CStorageGet SETTINGS_KEY]
                    ++ (if accepted w 1 (CStorageGet SETTINGS_KEY)
                        then [CStorageSet {[ SETTINGS_KEY := JS.obj_set (settings_of w) d next ]}]
                        else []))
                    ++ [CSetIcon (tab_id tab) (if next then icon_on else icon_off)])%list).
  { rewrite T3, T2', <- !List.app_assoc. reflexivity. }
  rewrite (accepted_after w w3 _ _ _ R3' T3') in *.
  split; [reflexivity|].
  rewrite T4, T3', S4, S3, S2, S1, I4, I3, I2, I1, P4, P3, P2, P1.
  destruct (accepted w 1 (CStorageGet SETTINGS_KEY)); cbn [List.length app Nat.add andb];
    rewrite <- ?List.app_assoc; cbn [app]; auto.
Qed.

(** *** The preference store *)

(** The store never throws: a rejected read is logged and read as
    [false]. *)
Lemma getDomainState_read_rejected (d : string) (w : World) :
  accepted w 0 (CStorageGet SETTINGS_KEY) = false ->
  result (getDomainState d) w = Returned (JS.VBool false).
Proof.
  intros H. unfold result. rewrite getDomainState_result. unfold read_state.
  rewrite H. reflexivity.
Qed.

(** A domain without an entry reads as [false], provided its name is not
    one that [Object.prototype] defines. *)
Lemma getDomainState_never_written (d : string) (w : World) :
  settings_of w !! d = None ->
  JS.inherited d = false ->
  result (getDomainState d) w = Returned (JS.VBool false).
Proof.
  intros Hd Hi. unfold result. rewrite getDomainState_result.
  unfold read_state, JS.obj_get. rewrite Hd, Hi.
  destruct (accepted w 0 _); reflexivity.
Qed.

Lemma obj_set_lookup (o : JS.object) (d : string) (b : bool) :
  d <> "__proto__"%string -> JS.obj_set o d b !! d = Some b.
Proof.
  intros Hd. unfold JS.obj_set.
  destruct (o !! d); [apply lookup_insert_eq|].
  destruct (String.eqb_spec d "__proto__"); [contradiction|].
  apply lookup_insert_eq.
Qed.

(** Round trip: [set(D, b)] then [get(D)] is [b], when the host rejects
    neither call and [D] is not ["__proto__"]. *)
Lemma setDomainState_then_get (d : string) (b : bool) (w : World) :
  (forall n c, rejects w n c = false) ->
  d <> "__proto__"%string ->
  result (setDomainState d b;; getDomainState d) w = Returned (JS.VBool b).
Proof.
  intros Hr Hd. unfold result, bind.
  rewrite setDomainState_result, getDomainState_result. cbn [fst].
  destruct (setDomainState_frame d b w) as (T & S & _ & _ & R & _).
  cbv zeta in *. unfold read_state, accepted in *.
  rewrite R, !Hr in *. cbn [negb andb] in *.
  unfold settings_of at 1. rewrite S, lookup_insert_eq. cbn [from_option id].
  unfold JS.obj_get. rewrite (obj_set_lookup _ _ _ Hd).
  destruct b; reflexivity.
Qed.

(** A domain without an entry whose name [Object.prototype] defines reads
    as the inherited object. *)
Lemma getDomainState_inherited (d : string) (w : World) :
  accepted w 0 (CStorageGet SETTINGS_KEY) = true ->
  settings_of w !! d = None ->
  JS.inherited d = true ->
  result (getDomainState d) w = Returned (JS.VBuiltin d).
Proof.
  intros Ha Hd Hi. unfold result. rewrite getDomainState_result.
  unfold read_state, JS.obj_get. rewrite Ha, Hd, Hi. reflexivity.
Qed.

(** The assignment to ["__proto__"] leaves an object without such an own
    property as it is. *)
Lemma obj_set_proto (o : JS.object) (b : bool) :
  o !! "__proto__"%string = None -> JS.obj_set o "__proto__" b = o.
Proof. intros H. unfold JS.obj_set. rewrite H. reflexivity. Qed.

(** C2: [set("__proto__", false)] followed by [get("__proto__")] does not
    return [false]: the assignment [allDomains["__proto__"] = false] creates
    no own property, so an empty settings object is stored, and the read
    finds the inherited [__proto__], an object. *)
Theorem setDomainState_proto_not_stored :
  result (setDomainState "__proto__" false;; getDomainState "__proto__")
         Examples.fresh_world
  = Returned (JS.VBuiltin "__proto__")
  /\ JS.truthy (JS.VBuiltin "__proto__") = true
  /\ storage (exec (setDomainState "__proto__" false) Examples.fresh_world)
       !! SETTINGS_KEY = Some ∅.
Proof. split; [|split]; vm_compute; reflexivity. Qed.

(** C3: in a world whose storage area is empty, [get("constructor")] does
    not return [false] but the [constructor] that the settings object
    inherits from [Object.prototype], which is truthy. *)
Theorem getDomainState_inherited_name :
  settings_of Examples.fresh_world !! "constructor" = None
  /\ result (getDomainState "constructor") Examples.fresh_world
     = Returned (JS.VBuiltin "constructor")
  /\ JS.truthy (JS.VBuiltin "constructor") = true.
Proof. split; [|split]; vm_compute; reflexivity. Qed.

(** C8: on a page of the host [constructor], the start-up check enters
    the Dark state although the storage area is empty. *)
Theorem contentScript_start_inherited_name :
  storage Examples.constructor_world = ∅
  /\ Page.isLight <$> (pages Examples.constructor_world !! 1%Z) = Some true
  /\ Page.isDark <$> (pages (exec (contentScript_start 1) Examples.constructor_world) !! 1%Z)
     = Some true.
Proof. split; [|split]; vm_compute; reflexivity. Qed.

(** *** The domain resolver and the guard of the click listener *)

Lemma getDomainFromUrl_result (url : option string) (w : World) :
  result (getDomainFromUrl url) w
  = Returned (URL.hostname <$> URL.parse (platform w) (to_string url)).
Proof.
  unfold result. rewrite getDomainFromUrl_spec.
  destruct (URL.parse _ _); reflexivity.
Qed.

Lemma getDomainFromUrl_frame (url : option string) (w : World) :
  let w' := exec (getDomainFromUrl url) w in
  storage w' = storage w /\ icons w' = icons w /\ pages w' = pages w
  /\ trace w' = trace w.
Proof.
  cbv zeta. unfold exec. rewrite getDomainFromUrl_spec.
  destruct (URL.parse _ _); fields; auto.
Qed.

(** A click whose domain does not pass the guard stops after the
    resolver. *)
Lemma onClicked_no_domain (tab : Tab) (w : World) (v : option string) :
  result (getDomainFromUrl (tab_url tab)) w = Returned v ->
  no_domain v = true ->
  onClicked tab w = (Returned tt, exec (getDomainFromUrl (tab_url tab)) w).
Proof.
  unfold result, exec, onClicked, bind.
  destruct (getDomainFromUrl (tab_url tab) w) as [[a|e] w1]; cbn [fst snd];
    [|discriminate].
  intros [= ->] ->. reflexivity.
Qed.

(** C6: [getDomainFromUrl] returns [null] exactly when the [URL]
    constructor throws; for a URL without a host it returns the empty
    string; [getDomainFromUrl("not a url")] is [null]; and when the result
    is [null] or empty the click listener mutates neither the store nor
    the icons, delivers nothing and makes no host call. *)
Theorem getDomainFromUrl_null (tab : Tab) (w : World) :
  (result (getDomainFromUrl (tab_url tab)) w = Returned None
   <-> URL.parse (platform w) (to_string (tab_url tab)) = None)
  /\ (forall u, URL.parse (platform w) (to_string (tab_url tab)) = Some u ->
                URL.host u = None ->
                result (getDomainFromUrl (tab_url tab)) w = Returned (Some ""%string))
  /\ result (getDomainFromUrl (Some "not a url"%string)) w = Returned None
  /\ (forall v, result (getDomainFromUrl (tab_url tab)) w = Returned v ->
                no_domain v = true ->
                let w' := exec (onClicked tab) w in
                result (onClicked tab) w = Returned tt
                /\ storage w' = storage w /\ icons w' = icons w
                /\ pages w' = pages w /\ trace w' = trace w).
Proof.
  split; [|split; [|split]].
  - rewrite getDomainFromUrl_result.
    destruct (URL.parse _ _); simpl; split; congruence.
  - intros u Hu Hh. rewrite getDomainFromUrl_result, Hu. simpl.
    unfold URL.hostname. rewrite Hh. reflexivity.
  - rewrite getDomainFromUrl_result. reflexivity.
  - intros v Hv Hn. cbv zeta. unfold result at 1, exec.
    rewrite (onClicked_no_domain tab w v Hv Hn). cbn [fst snd].
    split; [reflexivity|]. apply getDomainFromUrl_frame.
Qed.

Lemma getDomainFromUrl_null_witness :
  URL.parse (platform Examples.fresh_world) (to_string (tab_url Examples.garbage_tab)) = None
  /\ result (getDomainFromUrl (tab_url Examples.garbage_tab)) Examples.fresh_world
     = Returned None
  /\ no_domain None = true
  /\ storage (exec (onClicked Examples.garbage_tab) Examples.fresh_world)
     = storage Examples.fresh_world
  /\ icons (exec (onClicked Examples.garbage_tab) Examples.fresh_world)
     = icons Examples.fresh_world.
Proof.
  destruct (getDomainFromUrl_null Examples.garbage_tab Examples.fresh_world)
    as (H1 & _ & _ & H4).
  assert (Hp : URL.parse (platform Examples.fresh_world)
                 (to_string (tab_url Examples.garbage_tab)) = None)
    by reflexivity.
  assert (Hr := proj2 H1 Hp).
  destruct (H4 None Hr eq_refl) as (_ & Hs & Hi & _).
  split; [exact Hp|]. split; [exact Hr|]. split; [reflexivity|].
  split; [exact Hs | exact Hi].
Defined.

(** [about:blank] parses, has no host, and resolves to the empty string,
    which is not [null]. *)
Lemma getDomainFromUrl_blank_not_null :
  URL.parse URL.ascii_only "about:blank" = Some (URL.mkURL "about" None None)
  /\ result (getDomainFromUrl (Some "about:blank"%string)) Examples.fresh_world
     = Returned (Some ""%string)
  /\ result (getDomainFromUrl (Some "about:blank"%string)) Examples.fresh_world
     <> Returned None.
Proof. split; [|split]; [reflexivity | reflexivity | discriminate]. Qed.

(** C10: for a URL that parses with an empty hostname,
    [getDomainFromUrl] returns the empty string, not [null], and the click
    listener leaves the world as it is: no store mutation, no icon update,
    no notification. *)
Theorem empty_hostname_click_ignored (tab : Tab) (w : World) (u : URL.URLRecord) :
  URL.parse (platform w) (to_string (tab_url tab)) = Some u ->
  URL.hostname u = ""%string ->
  getDomainFromUrl (tab_url tab) w = (Returned (Some ""%string), w)
  /\ onClicked tab w = (Returned tt, w).
Proof.
  intros Hu Hh.
  assert (Hg : getDomainFromUrl (tab_url tab) w = (Returned (Some ""%string), w)).
  { rewrite getDomainFromUrl_spec, Hu, Hh. reflexivity. }
  split; [exact Hg|].
  rewrite (onClicked_no_domain tab w (Some ""%string)).
  - unfold exec. rewrite Hg. reflexivity.
  - unfold result. rewrite Hg. reflexivity.
  - reflexivity.
Qed.

Lemma empty_hostname_click_ignored_witness :
  URL.parse (platform Examples.fresh_world) (to_string (tab_url Examples.blank_tab))
  = Some (URL.mkURL "about" None None)
  /\ URL.hostname (URL.mkURL "about" None None) = ""%string
  /\ getDomainFromUrl (tab_url Examples.blank_tab) Examples.fresh_world
     = (Returned (Some ""%string), Examples.fresh_world)
  /\ onClicked Examples.blank_tab Examples.fresh_world
     = (Returned tt, Examples.fresh_world).
Proof.
  split; [reflexivity|]. split; [reflexivity|].
  exact (empty_hostname_click_ignored Examples.blank_tab Examples.fresh_world
           (URL.mkURL "about" None None) eq_refl eq_refl).
Defined.

(** With a scheme that is not special the host keeps its case. *)
Lemma getDomainFromUrl_keeps_case :
  result (getDomainFromUrl (Some "foo://Example.com:443/path"%string)) Examples.fresh_world
  = Returned (Some "Example.com"%string)
  /\ URL.to_lower "Example.com" <> "Example.com"%string.
Proof. split; [reflexivity|discriminate]. Qed.

(** C9: for every input the [URL] constructor accepts,
    [getDomainFromUrl] returns the hostname of the URL, which never carries
    the port (it has a colon only as a bracketed IPv6 literal) and which is
    lowercase when the scheme is special; and
    [getDomainFromUrl("https://Example.com:443/path")] is ["example.com"]. *)
Theorem getDomainFromUrl_hostname (w : World) (url : string) (u : URL.URLRecord) :
  URL.parse (platform w) url = Some u ->
  result (getDomainFromUrl (Some url)) w = Returned (Some (URL.hostname u))
  /\ (URL.has_colon (URL.hostname u) = true ->
      URL.is_bracketed (URL.hostname u) = true)
  /\ (URL.lowercase_platform (platform w) ->
      URL.is_special (URL.scheme u) = true ->
      URL.to_lower (URL.hostname u) = URL.hostname u)
  /\ result (getDomainFromUrl (Some "https://Example.com:443/path"%string)) w
     = Returned (Some "example.com"%string).
Proof.
  intros Hu. split; [|split; [|split]].
  - rewrite getDomainFromUrl_result. cbn [to_string]. rewrite Hu. reflexivity.
  - apply (URLFacts.parse_hostname_colon _ _ _ Hu).
  - intros HP Hs. exact (URLFacts.parse_special_lower _ _ _ HP Hu Hs).
  - rewrite getDomainFromUrl_result. reflexivity.
Qed.

Lemma ascii_only_lowercase : URL.lowercase_platform URL.ascii_only.
Proof. split; intros l r H; discriminate H. Defined.

Lemma getDomainFromUrl_hostname_witness :
  URL.parse (platform Examples.fresh_world) "HTTP://User@WWW.Example.COM:8080/a"
  = Some (URL.mkURL "http" (Some "www.example.com"%string) (Some 8080%N))
  /\ result (getDomainFromUrl (Some "HTTP://User@WWW.Example.COM:8080/a"%string))
            Examples.fresh_world
     = Returned (Some "www.example.com"%string)
  /\ URL.to_lower "www.example.com" = "www.example.com"%string.
Proof.
  assert (Hp : URL.parse (platform Examples.fresh_world)
                 "HTTP://User@WWW.Example.COM:8080/a"
               = Some (URL.mkURL "http" (Some "www.example.com"%string) (Some 8080%N)))
    by reflexivity.
  destruct (getDomainFromUrl_hostname Examples.fresh_world _ _ Hp)
    as (H1 & _ & H3 & _).
  split; [exact Hp|]. split; [exact H1|].
  exact (H3 ascii_only_lowercase eq_refl).
Defined.

(** *** The toggle controller *)

(** A click on [about:blank]: the resolved domain is the empty string,
    which is not [null], and the listener makes no host call and changes
    neither the store nor the icons. *)
Lemma click_on_empty_hostname :
  result (getDomainFromUrl (tab_url Examples.blank_tab)) Examples.fresh_world
  = Returned (Some ""%string)
  /\ Some ""%string <> (None : option string)
  /\ trace (exec (onClicked Examples.blank_tab) Examples.fresh_world) = []
  /\ storage (exec (onClicked Examples.blank_tab) Examples.fresh_world) = ∅
  /\ icons (exec (onClicked Examples.blank_tab) Examples.fresh_world) = ∅.
Proof.
  split; [reflexivity|]. split; [discriminate|].
  split; [|split]; vm_compute; reflexivity.
Qed.

Lemma obj_set_own (o : JS.object) (d : string) (b : bool) :
  JS.inherited d = false -> JS.obj_set o d b = <[d := b]> o.
Proof.
  intros Hi. unfold JS.obj_set. destruct (o !! d); [reflexivity|].
  destruct (String.eqb_spec d "__proto__") as [->|_]; [discriminate Hi|reflexivity].
Qed.

Lemma obj_get_own (o : JS.object) (d : string) :
  JS.inherited d = false ->
  JS.js_or (JS.obj_get o d) (JS.VBool false) = JS.VBool (default false (o !! d)).
Proof.
  intros Hi. unfold JS.obj_get. rewrite Hi.
  destruct (o !! d) as [[|]|]; reflexivity.
Qed.

(** C1 (as amended): for every click on a tab whose resolved domain is
    neither [null] nor the empty string (and is not a property name of
    [Object.prototype]), the listener performs exactly these steps in this
    order: it resolves the domain from the URL (without any effect), reads
    the current state of the domain with [getDomainState], inverts it,
    persists the inverted value for the domain with [setDomainState],
    updates the icon of the tab to the inverted value with [updateIcon]
    and delivers the notification with [notifyContentScript].  The host is
    called in that order, the write carrying the settings with the
    inverted value assigned to the domain.  When the host rejects no call,
    the state read is the stored boolean ([false] without an entry), the
    storage area then holds the inverted value for the domain, the tab has
    the icon of the inverted value, and the page of the tab has received
    one message, from its own window, with the marker and the action
    [enableDarkMode] when the new state is [true] and [disableDarkMode]
    when it is [false]. *)
Theorem onClicked_performs_steps (tab : Tab) (w : World) (d : string) :
  result (getDomainFromUrl (tab_url tab)) w = Returned (Some d) ->
  d <> ""%string ->
  JS.inherited d = false ->
  let get := CStorageGet SETTINGS_KEY in
  let current := read_state d w in
  let next := JS.js_not current in
  let o := <[d := next]> (settings_of w) in
  let icon := if next then icon_on else icon_off in
  let w1 := exec (getDomainState d) w in
  let w2 := exec (setDomainState d next) w1 in
  let w3 := exec (updateIcon (tab_id tab) next) w2 in
  let w' := exec (onClicked tab) w in
  getDomainFromUrl (tab_url tab) w = (Returned (Some d), w)
  /\ result (getDomainState d) w = Returned current
  /\ onClicked tab w = (Returned tt, exec (notifyContentScript (tab_id tab) next) w3)
  /\ trace w' = (trace w ++ [get; get]
                   ++ (if accepted w 1 get then [CStorageSet {[ SETTINGS_KEY := o ]}] else [])
                   ++ [CSetIcon (tab_id tab) icon; CExecuteScript (tab_id tab) next])%list
  /\ ((forall n c, rejects w n c = false) ->
      current = JS.VBool (default false (settings_of w !! d))
      /\ next = negb (default false (settings_of w !! d))
      /\ storage w' = <[SETTINGS_KEY := o]> (storage w)
      /\ settings_of w' !! d = Some next
      /\ icons w' = <[tab_id tab := icon]> (icons w)
      /\ forall p, pages w !! tab_id tab = Some p ->
           pages w' = <[tab_id tab := Page.onMessage (posted_message next p) p]> (pages w)
           /\ Page.source (posted_message next p) = Some (Page.window p)
           /\ JS.get (Page.data (posted_message next p)) "source"
              = JS.VString "toothlit-background"
           /\ JS.get (Page.data (posted_message next p)) "action"
              = JS.VString (if next then "enableDarkMode" else "disableDarkMode")).
Proof.
  intros Hd Hne Hin. cbv zeta.
  destruct (onClicked_world tab w d Hd Hne) as (_ & Ht & Hs & Hi & Hp).
  cbv zeta in *. rewrite (obj_set_own _ _ _ Hin) in *.
  split; [apply resolved_unchanged, Hd|].
  split; [unfold result; rewrite getDomainState_result; reflexivity|].
  split; [exact (onClicked_steps tab w d Hd Hne)|].
  split; [exact Ht|].
  intros Hr.
  assert (Ha : forall k c, accepted w k c = true).
  { intros k c. unfold accepted. rewrite Hr. reflexivity. }
  repeat rewrite Ha in Hs. repeat rewrite Ha in Hi. cbn [andb] in Hs.
  assert (Hc : read_state d w = JS.VBool (default false (settings_of w !! d))).
  { unfold read_state. rewrite Ha. apply obj_get_own, Hin. }
  split; [exact Hc|].
  split; [rewrite Hc; reflexivity|].
  split; [exact Hs|].
  split; [unfold settings_of at 1; rewrite Hs, lookup_insert_eq;
          cbn [from_option Datatypes.id]; apply lookup_insert_eq|].
  split; [exact Hi|].
  intros p Hpg. rewrite Hpg in Hp. repeat rewrite Ha in Hp.
  split; [exact Hp|]. split; [reflexivity|]. split; [reflexivity|].
  destruct (JS.js_not _); reflexivity.
Qed.

Lemma onClicked_performs_steps_witness :
  result (getDomainFromUrl (tab_url Examples.news_tab)) Examples.fresh_world
  = Returned (Some "news.example"%string)
  /\ "news.example"%string <> ""%string
  /\ JS.inherited "news.example" = false
  /\ trace (exec (onClicked Examples.news_tab) Examples.fresh_world)
     = [ CStorageGet SETTINGS_KEY; CStorageGet SETTINGS_KEY;
         CStorageSet {[ SETTINGS_KEY := {[ "news.example"%string := true ]} ]};
         CSetIcon 1 icon_on; CExecuteScript 1 true ]
  /\ storage (exec (onClicked Examples.news_tab) Examples.fresh_world)
     = {[ SETTINGS_KEY := {[ "news.example"%string := true ]} ]}
  /\ settings_of (exec (onClicked Examples.news_tab) Examples.fresh_world)
       !! "news.example"%string = Some true.
Proof.
  assert (H1 : result (getDomainFromUrl (tab_url Examples.news_tab)) Examples.fresh_world
               = Returned (Some "news.example"%string)) by reflexivity.
  assert (H2 : "news.example"%string <> ""%string) by discriminate.
  assert (H3 : JS.inherited "news.example" = false) by reflexivity.
  destruct (onClicked_performs_steps Examples.news_tab Examples.fresh_world
              "news.example" H1 H2 H3) as (_ & _ & _ & Ht & Hf).
  destruct (Hf (fun _ _ => eq_refl)) as (_ & _ & Hs & Hv & _).
  split; [exact H1|]. split; [exact H2|]. split; [exact H3|].
  split; [rewrite Ht; vm_compute; reflexivity|].
  split; [rewrite Hs; vm_compute; reflexivity|].
  rewrite Hv. vm_compute. reflexivity.
Defined.

Lemma executeScript_thrown (tabId : Z) (b : bool) (w : World) (e : string) :
  result (scripting_executeScript tabId b) w = Thrown e ->
  pages (exec (notifyContentScript tabId b) w) = pages w.
Proof.
  destruct (notifyContentScript_frame tabId b w) as (_ & _ & _ & Hp & _).
  cbv zeta in Hp. rewrite Hp. clear Hp.
  unfold result, scripting_executeScript, bind, invoke, accepted.
  rewrite Nat.add_0_r. fields.
  destruct (pages w !! tabId); [|reflexivity].
  destruct (rejects w _ _); [reflexivity|discriminate].
Qed.

(** C7: when the injection into the page fails (the call made by the
    listener throws), the listener still returns normally, the storage
    area and the icons are those left by [setDomainState] and
    [updateIcon], no page has changed, and the failed injection is the
    last host call: nothing is rolled back.  In particular, after accepted
    calls to the store and to [setIcon] the settings with the domain
    assigned the flipped value stay in the storage area and the tab keeps
    the icon of the new state. *)
Theorem delivery_failure_no_rollback (tab : Tab) (w : World) (d e : string) :
  result (getDomainFromUrl (tab_url tab)) w = Returned (Some d) ->
  d <> ""%string ->
  let next := JS.js_not (read_state d w) in
  let o := JS.obj_set (settings_of w) d next in
  let icon := if next then icon_on else icon_off in
  let w3 := exec (updateIcon (tab_id tab) next)
              (exec (setDomainState d next) (exec (getDomainState d) w)) in
  result (scripting_executeScript (tab_id tab) next) w3 = Thrown e ->
  let w' := exec (onClicked tab) w in
  result (onClicked tab) w = Returned tt
  /\ storage w' = storage w3 /\ icons w' = icons w3 /\ pages w' = pages w
  /\ trace w' = (trace w3 ++ [CExecuteScript (tab_id tab) next])%list
  /\ (accepted w 1 (CStorageGet SETTINGS_KEY) = true ->
      accepted w 2 (CStorageSet {[ SETTINGS_KEY := o ]}) = true ->
      accepted w 3 (CSetIcon (tab_id tab) icon) = true ->
      storage w' !! SETTINGS_KEY = Some o
      /\ icons w' !! tab_id tab = Some icon).
Proof.
  intros Hd Hne. cbv zeta. intros He.
  destruct (onClicked_world tab w d Hd Hne) as (Hr & _ & Hs & Hi & _).
  cbv zeta in Hs, Hi.
  set (next := JS.js_not (read_state d w)) in *.
  set (w3 := exec (updateIcon _ _) _) in *.
  assert (Hw : exec (onClicked tab) w
               = exec (notifyContentScript (tab_id tab) next) w3).
  { unfold exec at 1. rewrite (onClicked_steps tab w d Hd Hne). reflexivity. }
  rewrite Hw in *.
  destruct (notifyContentScript_frame (tab_id tab) next w3) as (T4 & S4 & I4 & _).
  pose proof (executeScript_thrown _ _ _ _ He) as P4.
  split; [exact Hr|]. split; [exact S4|]. split; [exact I4|].
  split.
  { rewrite P4. subst w3.
    destruct (updateIcon_frame (tab_id tab) next
                (exec (setDomainState d next) (exec (getDomainState d) w)))
      as (_ & _ & _ & -> & _).
    destruct (setDomainState_frame d next (exec (getDomainState d) w))
      as (_ & _ & _ & -> & _).
    apply getDomainState_frame. }
  split; [exact T4|].
  intros A1 A2 A3.
  rewrite A1, A2 in Hs. rewrite A1, A3 in Hi. cbn [andb] in Hs.
  rewrite Hs, Hi, !lookup_insert_eq. auto.
Qed.

Lemma delivery_failure_no_rollback_witness :
  result (getDomainFromUrl (tab_url Examples.restricted_tab)) Examples.fresh_world
  = Returned (Some "news.example"%string)
  /\ storage (exec (onClicked Examples.restricted_tab) Examples.fresh_world)
       !! SETTINGS_KEY = Some {[ "news.example"%string := true ]}
  /\ icons (exec (onClicked Examples.restricted_tab) Examples.fresh_world) !! 2%Z
     = Some icon_on
  /\ pages (exec (onClicked Examples.restricted_tab) Examples.fresh_world)
     = pages Examples.fresh_world.
Proof.
  assert (H1 : result (getDomainFromUrl (tab_url Examples.restricted_tab))
                 Examples.fresh_world
               = Returned (Some "news.example"%string)) by reflexivity.
  assert (H2 : "news.example"%string <> ""%string) by discriminate.
  destruct (delivery_failure_no_rollback Examples.restricted_tab Examples.fresh_world
              "news.example" "scripting.executeScript" H1 H2 eq_refl)
    as (_ & _ & _ & Hp & _ & Hk).
  destruct (Hk eq_refl eq_refl eq_refl) as (Hs & Hi).
  split; [exact H1|]. split; [|split; [|exact Hp]].
  - etrans; [exact Hs | vm_compute; reflexivity].
  - etrans; [exact Hi | vm_compute; reflexivity].
Defined.

End BackgroundFacts.

(** ** More on the page styler *)
(** ** More on the page styler *)
Module StylerFacts.
Import Page.

Local Open Scope nat_scope.

Lemma with_document_twice (p : Page) (d1 d2 : Document) :
  with_document (with_document p d1) d2 = with_document p d2.
Proof. reflexivity. Qed.

Lemma removeProperty_setProperty (r : Element) (name v q : string) :
  declarations r !! name = None ->
  removeProperty (setProperty r name v q) name = with_style r (Some (declarations r)).
Proof.
  intros H. unfold removeProperty, setProperty. cbn [style with_style].
  rewrite lookup_insert_eq, delete_insert_eq, (delete_id _ _ H). reflexivity.
Qed.

Lemma removeProperty_with_children (r : Element) (name : string) (l : list Element) :
  removeProperty (with_children r l) name = with_children (removeProperty r name) l.
Proof.
  unfold removeProperty. cbn [style with_children].
  destruct (style r) as [m|]; [destruct (m !! name)|]; reflexivity.
Qed.

(** The document after [enableDarkMode()] and [disableDarkMode()] on a
    Light page with a head. *)
Lemma enabled_then_disabled_document (p : Page) (r : Element) :
  isLight p = true ->
  documentElement (document p) = Some r ->
  is_Some (head (document p)) ->
  document (disableDarkMode (enableDarkMode p))
  = mkDocument (Some (with_style r (Some (declarations r)))).
Proof.
  unfold isLight. intros H Hr Hh. apply andb_true_iff in H as [Hs Hc].
  apply bool_decide_eq_true in Hs. apply Nat.eqb_eq in Hc.
  destruct p as [w ho [r'] b k]. cbn [document documentElement] in *. subst r'.
  unfold rootStyle in Hs. cbn [documentElement] in Hs.
  unfold enableDarkMode. rewrite PageFacts.enableDarkMode_call_cases.
  cbn [document documentElement]. cbv zeta.
  rewrite Hc, bool_decide_eq_true_2 by exact Hh. cbn [Nat.eqb snd].
  set (p0 := mkPage w ho (mkDocument (Some r)) b k).
  match goal with
  | |- document (disableDarkMode ?q) = _ =>
      rewrite (PageFacts.disableDarkMode_document q
                 (with_children (setProperty r "color-scheme" "dark" "important")
                    (append_to_first (is_tag "head") (fallback_link p0) (children r)))
                 eq_refl)
  end.
  rewrite removeProperty_with_children, (removeProperty_setProperty _ _ _ _ Hs).
  assert (Hc' : count_id FALLBACK_STYLE_ID
                  (mkDocument (Some (with_style r (Some (declarations r))))) = 0)
    by (rewrite PageFacts.count_id_with_style; exact Hc).
  exact (PageFacts.remove_by_id_appendToHead FALLBACK_STYLE_ID
           (with_style r (Some (declarations r))) (fallback_link p0) Hh Hc' eq_refl).
Qed.

(** X1: enabling and then disabling brings a Light page whose document has
    a head back to what it was, but for the root's [style] attribute: the
    link that was appended to the head is the element that is removed and
    the property is gone, and the root now has a [style] attribute with
    the declarations it had before.  With the [style] attribute taken
    as its declarations, the page is the one it started from when the
    root already had the attribute, and another one when it did not. *)
Theorem disable_after_enable (p : Page) (r : Element) :
  isLight p = true ->
  documentElement (document p) = Some r ->
  is_Some (head (document p)) ->
  disableDarkMode (enableDarkMode p)
  = with_document p (mkDocument (Some (with_style r (Some (declarations r)))))
  /\ (is_Some (style r) -> disableDarkMode (enableDarkMode p) = p)
  /\ (style r = None -> disableDarkMode (enableDarkMode p) <> p).
Proof.
  intros Hl Hr Hh.
  assert (E : disableDarkMode (enableDarkMode p)
              = with_document p (mkDocument (Some (with_style r (Some (declarations r)))))).
  { rewrite PageFacts.disableDarkMode_with_document,
      (enabled_then_disabled_document p r Hl Hr Hh),
      PageFacts.enableDarkMode_with_document.
    apply with_document_twice. }
  split; [exact E|]. rewrite E. split.
  - intros [m Hm]. unfold declarations. rewrite Hm. cbn [from_option Datatypes.id].
    rewrite <- Hm, PageFacts.with_style_same.
    destruct p as [w ho [r'] b k]. cbn [document documentElement] in Hr. subst r'.
    reflexivity.
  - intros Hn Hp.
    apply (f_equal (fun q => style <$> documentElement (document q))) in Hp.
    rewrite Hr in Hp. cbn in Hp. congruence.
Qed.

Lemma disable_after_enable_witness :
  isLight (Examples.light_page "news.example") = true
  /\ document (disableDarkMode (enableDarkMode (Examples.light_page "news.example")))
     = mkDocument
         (Some (mkElement "html" "" "" "" "" (Some ∅)
                  [Examples.plain "head" []; Examples.plain "body" []]))
  /\ disableDarkMode (enableDarkMode (Examples.light_page "news.example"))
     <> Examples.light_page "news.example".
Proof.
  destruct (disable_after_enable (Examples.light_page "news.example")
              (Examples.plain "html" [Examples.plain "head" []; Examples.plain "body" []])
              eq_refl eq_refl (ex_intro _ _ eq_refl))
    as (H1 & _ & H3).
  split; [reflexivity|]. split; [rewrite H1; reflexivity | exact (H3 eq_refl)].
Defined.

(** The elements without the id [i] after [append_to_first]. *)
Lemma others_append_to_first (i : string) (f : Element -> bool) (e : Element)
      (cs : list Element) :
  has_id i e = true -> children e = [] ->
  map attributes
      (List.filter (fun x => negb (has_id i x))
                   (flat_map elements_of (append_to_first f e cs)))
  = map attributes
        (List.filter (fun x => negb (has_id i x)) (flat_map elements_of cs)).
Proof.
  intros He Hk. induction cs as [|c l IH]; [reflexivity|].
  cbn [append_to_first]. destruct (f c); cbn [flat_map].
  - rewrite PageFacts.elements_of_with_children, (PageFacts.elements_of_eq c),
      flat_map_app, <- !app_comm_cons.
    cbn [flat_map List.filter]. rewrite PageFacts.has_id_with_children.
    rewrite (PageFacts.elements_of_eq e), Hk. cbn [flat_map app].
    rewrite !List.filter_app. cbn [List.filter]. rewrite He. cbn [negb app].
    rewrite List.app_nil_r.
    destruct (has_id i c); cbn [negb map]; rewrite ?PageFacts.attributes_with_children;
      rewrite !List.map_app; reflexivity.
  - rewrite !List.filter_app, !List.map_app, IH. reflexivity.
Qed.

(** X2: what the transitions leave alone.  [enableDarkMode] keeps every
    other style property of the root and, below the root, the elements
    that do not carry the reserved id, in order and as they are but for
    the children of the head; with an element of the reserved id in the
    document it changes nothing below the root.  [disableDarkMode]
    removes the root, and so the whole document, when the root carries the
    reserved id; otherwise it keeps every other style property of the
    root, and below the root it removes the element that [getElementById]
    finds together with its subtree, and nothing else. *)
Theorem styler_keeps_the_rest (p : Page) (r : Element) (name : string) :
  documentElement (document p) = Some r ->
  name <> "color-scheme"%string ->
  (rootStyle (document (enableDarkMode p)) !! name = rootStyle (document p) !! name
   /\ map attributes
          (List.filter (fun x => negb (has_id FALLBACK_STYLE_ID x))
                       (descendants (document (enableDarkMode p))))
      = map attributes
            (List.filter (fun x => negb (has_id FALLBACK_STYLE_ID x))
                         (descendants (document p)))
   /\ (count_id FALLBACK_STYLE_ID (document p) <> 0 ->
       descendants (document (enableDarkMode p)) = descendants (document p)))
  /\ (has_id FALLBACK_STYLE_ID r = true ->
      documentElement (document (disableDarkMode p)) = None)
  /\ (has_id FALLBACK_STYLE_ID r = false ->
      rootStyle (document (disableDarkMode p)) !! name = rootStyle (document p) !! name
      /\ (count_in FALLBACK_STYLE_ID (descendants (document p)) = 0 ->
          descendants (document (disableDarkMode p)) = descendants (document p))
      /\ (count_in FALLBACK_STYLE_ID (descendants (document p)) <> 0 ->
          exists pre x post,
            descendants (document p) = (pre ++ elements_of x ++ post)%list
            /\ getElementById (document p) FALLBACK_STYLE_ID = Some x
            /\ count_in FALLBACK_STYLE_ID pre = 0
            /\ map attributes (descendants (document (disableDarkMode p)))
               = map attributes (pre ++ post)%list)).
Proof.
  intros Hr Hn.
  destruct p as [w ho [r'] b k]. cbn [document documentElement] in Hr. subst r'.
  split; [|split].
  - rewrite (PageFacts.enableDarkMode_style (mkPage w ho (mkDocument (Some r)) b k) r eq_refl).
    split; [apply lookup_insert_ne; congruence|].
    unfold enableDarkMode. rewrite PageFacts.enableDarkMode_call_cases.
    cbn [document documentElement]. cbv zeta.
    destruct (Nat.eqb_spec (count_id FALLBACK_STYLE_ID (mkDocument (Some r))) 0) as [H|H].
    + split; [|contradiction].
      destruct (bool_decide _); cbn [snd document with_document]; [|reflexivity].
      unfold appendToHead, descendants. cbn [documentElement].
      change (children (with_children ?a ?l)) with l.
      apply others_append_to_first; reflexivity.
    + split; reflexivity.
  - intros Hi.
    rewrite (PageFacts.disableDarkMode_document (mkPage w ho (mkDocument (Some r)) b k)
               r eq_refl).
    destruct (PageFacts.remove_by_id_root
                (mkDocument (Some (removeProperty r "color-scheme")))
                FALLBACK_STYLE_ID _ eq_refl) as [[_ H]|[H _]]; [exact H|].
    destruct (PageFacts.removeProperty_with_style r "color-scheme") as [E|[s E]];
      rewrite E in H; unfold has_id in *; cbn in H; congruence.
  - intros Hi.
    assert (Hd : document (disableDarkMode (mkPage w ho (mkDocument (Some r)) b k))
                 = mkDocument
                     (Some (with_children (removeProperty r "color-scheme")
                              (default (children r)
                                 (remove_forest FALLBACK_STYLE_ID (children r)))))).
    { rewrite (PageFacts.disableDarkMode_document (mkPage w ho (mkDocument (Some r)) b k)
                 r eq_refl).
      unfold remove_by_id. cbn [documentElement]. rewrite PageFacts.remove_below_eq.
      destruct (PageFacts.removeProperty_with_style r "color-scheme") as [E|[s E]];
        rewrite E.
      - rewrite Hi.
        destruct (remove_forest FALLBACK_STYLE_ID (children r)) as [l|];
          cbn [option_map from_option Datatypes.id];
          [reflexivity | rewrite PageFacts.with_children_same; reflexivity].
      - change (has_id FALLBACK_STYLE_ID (with_style r s))
          with (has_id FALLBACK_STYLE_ID r).
        rewrite Hi. change (children (with_style r s)) with (children r).
        destruct (remove_forest FALLBACK_STYLE_ID (children r)) as [l|];
          cbn [option_map from_option Datatypes.id];
          [reflexivity | destruct r; reflexivity]. }
    split; [|split].
    + apply PageFacts.disableDarkMode_other_style; [exact Hn|].
      rewrite Hd. eexists. reflexivity.
    + rewrite Hd. unfold descendants. cbn [document documentElement].
      intros H0. apply (proj1 (PageFacts.removal_all _ _)) in H0.
      rewrite H0. reflexivity.
    + rewrite Hd. unfold descendants. cbn [document documentElement].
      intros H0. destruct (PageFacts.removal_all FALLBACK_STYLE_ID (children r)) as [H1 H2].
      destruct (remove_forest FALLBACK_STYLE_ID (children r)) as [l|] eqn:El;
        [|contradiction H0; apply H1; reflexivity].
      destruct (H2 l eq_refl) as (pre & x & post & E1 & E2 & E3 & E4).
      exists pre, x, post. split; [exact E1|]. split; [|split; [exact E3|exact E4]].
      unfold getElementById, elements. cbn [documentElement].
      rewrite PageFacts.elements_of_eq. cbn [List.find]. rewrite Hi, E1.
      rewrite PageFacts.find_app, (PageFacts.find_zero _ _ E3),
        PageFacts.elements_of_eq.
      cbn [app List.find]. rewrite E2. reflexivity.
Qed.

Lemma styler_keeps_the_rest_witness :
  "color"%string <> "color-scheme"%string
  /\ rootStyle (document (enableDarkMode (Examples.styled_page "news.example"))) !! "color"
     = Some ("red", "")%string
  /\ rootStyle (document (disableDarkMode (Examples.styled_page "news.example"))) !! "color"
     = Some ("red", "")%string
  /\ map id (descendants (document (Examples.nested_page "news.example")))
     = ["" ; ""; "toothlit-dark-mode-fallback-css"; "child"; ""]%string
  /\ map id (descendants (document (disableDarkMode (Examples.nested_page "news.example"))))
     = ["" ; ""; ""]%string.
Proof.
  assert (H : "color"%string <> "color-scheme"%string) by discriminate.
  destruct (styler_keeps_the_rest (Examples.styled_page "news.example") _ "color"
              eq_refl H)
    as ((He & _) & _ & Hd).
  destruct (Hd eq_refl) as (Hs & _).
  split; [exact H|]. split; [rewrite He; reflexivity|].
  split; [rewrite Hs; reflexivity|].
  split; reflexivity.
Defined.

Lemma get_string_truthy (v : JS.value) (k s : string) :
  JS.get v k = JS.VString s -> JS.truthy v = true.
Proof. destruct v; simpl; try discriminate; reflexivity. Qed.

(** X3: a message that passes the guard is dispatched on its action alone:
    [enableDarkMode] enables, [disableDarkMode] disables, and every other
    action, or none, leaves the page as it is. *)
Theorem onMessage_dispatch (ev : MessageEvent) (p : Page) :
  source ev = Some (window p) ->
  JS.get (data ev) "source" = JS.VString "toothlit-background" ->
  (JS.get (data ev) "action" = JS.VString "enableDarkMode" ->
   onMessage ev p = enableDarkMode p)
  /\ (JS.get (data ev) "action" = JS.VString "disableDarkMode" ->
      onMessage ev p = disableDarkMode p)
  /\ (JS.get (data ev) "action" <> JS.VString "enableDarkMode" ->
      JS.get (data ev) "action" <> JS.VString "disableDarkMode" ->
      onMessage ev p = p).
Proof.
  intros Hs Hm. unfold onMessage.
  rewrite (proj2 (PageFacts.from_own_window_true p ev) Hs).
  rewrite (get_string_truthy _ _ _ Hm), Hm. cbn [andb JS.strict_eq_string].
  rewrite String.eqb_refl.
  split; [|split].
  - intros ->. reflexivity.
  - intros ->. reflexivity.
  - intros He Hd.
    destruct (JS.strict_eq_string (JS.get (data ev) "action") "enableDarkMode") eqn:E1.
    { apply PageFacts.strict_eq_string_true in E1. contradiction. }
    destruct (JS.strict_eq_string (JS.get (data ev) "action") "disableDarkMode") eqn:E2.
    { apply PageFacts.strict_eq_string_true in E2. contradiction. }
    reflexivity.
Qed.

Lemma onMessage_dispatch_witness :
  source Examples.unknown_action_message
  = Some (window (Examples.light_page "news.example"))
  /\ JS.get (data Examples.unknown_action_message) "source"
     = JS.VString "toothlit-background"
  /\ onMessage Examples.unknown_action_message (Examples.light_page "news.example")
     = Examples.light_page "news.example"
  /\ onMessage Examples.enable_message (Examples.light_page "news.example")
     = enableDarkMode (Examples.light_page "news.example").
Proof.
  destruct (onMessage_dispatch Examples.unknown_action_message
              (Examples.light_page "news.example") eq_refl eq_refl)
    as (_ & _ & Hu).
  destruct (onMessage_dispatch Examples.enable_message
              (Examples.light_page "news.example") eq_refl eq_refl)
    as (He & _ & _).
  split; [reflexivity|]. split; [reflexivity|].
  split; [apply Hu; discriminate | exact (He eq_refl)].
Defined.

(** X4: the two transitions as a two-state machine.  On a page that does
    not carry the reserved id twice, [disableDarkMode] ends in the Light
    state; when the document also has a head, [enableDarkMode] ends in
    the Dark state and [disableDarkMode] after it in the Light state; and
    when moreover neither the root nor the head carries the reserved id
    (so that the removal leaves the head in place), [enableDarkMode]
    after [disableDarkMode] ends in the Dark state. *)
Theorem styler_transitions (p : Page) (r h : Element) :
  count_id FALLBACK_STYLE_ID (document p) <= 1 ->
  isLight (disableDarkMode p) = true
  /\ (documentElement (document p) = Some r ->
      head (document p) = Some h ->
      isDark (enableDarkMode p) = true
      /\ isLight (disableDarkMode (enableDarkMode p)) = true
      /\ (has_id FALLBACK_STYLE_ID r = false ->
          has_id FALLBACK_STYLE_ID h = false ->
          isDark (enableDarkMode (disableDarkMode p)) = true)).
Proof.
  intros H.
  assert (HL : forall q, count_id FALLBACK_STYLE_ID (document q) <= 1 ->
                         isLight (disableDarkMode q) = true).
  { intros q Hq. unfold isLight. rewrite PageFacts.disableDarkMode_style.
    pose proof (PageFacts.disableDarkMode_count q) as Hc.
    apply andb_true_iff. split; [apply bool_decide_eq_true; reflexivity|].
    apply Nat.eqb_eq. lia. }
  assert (HD : forall q, count_id FALLBACK_STYLE_ID (document q) <= 1 ->
                         is_Some (head (document q)) ->
                         isDark (enableDarkMode q) = true).
  { intros q Hq [hq Hh]. destruct (PageFacts.head_root _ _ Hh) as [rq Hrq].
    unfold isDark.
    rewrite (PageFacts.enableDarkMode_style q rq Hrq), lookup_insert_eq,
      PageFacts.enableDarkMode_count.
    rewrite (bool_decide_eq_true_2 (is_Some (head (document q)))) by eauto.
    apply andb_true_iff. split; [apply bool_decide_eq_true; reflexivity|].
    apply Nat.eqb_eq. lia. }
  split; [apply HL, H|]. intros Hr Hh. split; [apply HD; eauto|]. split.
  - apply HL. rewrite PageFacts.enableDarkMode_count, bool_decide_eq_true_2 by eauto.
    lia.
  - intros Hi Hj. apply HD.
    + pose proof (PageFacts.disableDarkMode_count p). lia.
    + exact (PageFacts.disableDarkMode_head p r h Hr Hi Hh Hj).
Qed.

Lemma styler_transitions_witness :
  count_id FALLBACK_STYLE_ID (document (Examples.styled_page "news.example")) <= 1
  /\ head (document (Examples.styled_page "news.example"))
     = Some (Examples.plain "head" [Examples.plain "title" []])
  /\ isDark (enableDarkMode (Examples.styled_page "news.example")) = true
  /\ isLight (disableDarkMode (enableDarkMode (Examples.styled_page "news.example")))
     = true
  /\ isDark (enableDarkMode (disableDarkMode (Examples.styled_page "news.example")))
     = true.
Proof.
  assert (H : count_id FALLBACK_STYLE_ID
                (document (Examples.styled_page "news.example")) <= 1)
    by (vm_compute; lia).
  destruct (styler_transitions (Examples.styled_page "news.example")
              (default (Examples.plain "html" [])
                 (documentElement (document (Examples.styled_page "news.example"))))
              (Examples.plain "head" [Examples.plain "title" []]) H)
    as (_ & H').
  destruct (H' eq_refl eq_refl) as (H1 & H2 & H3).
  split; [exact H|]. split; [reflexivity|]. split; [exact H1|].
  split; [exact H2 | exact (H3 eq_refl eq_refl)].
Defined.

End StylerFacts.

Module StoreFacts.
Import Background.

Local Open Scope nat_scope.

Lemma obj_set_lookup_ne (o : JS.object) (d d' : string) (b : bool) :
  d' <> d -> JS.obj_set o d b !! d' = o !! d'.
Proof.
  intros Hn. unfold JS.obj_set.
  destruct (o !! d); [apply lookup_insert_ne; congruence|].
  destruct (String.eqb d "__proto__"); [reflexivity|].
  apply lookup_insert_ne. congruence.
Qed.

Lemma settings_of_insert (o : JS.object) (w w' : World) :
  storage w' = <[SETTINGS_KEY := o]> (storage w) -> settings_of w' = o.
Proof. unfold settings_of. intros ->. rewrite lookup_insert_eq. reflexivity. Qed.

(** X5: whatever the host accepts or rejects, [setDomainState] for one domain
    leaves the entry and the read value of every other domain, and every
    other key of the storage area, as they were. *)
Theorem setDomainState_other_domain (d d' : string) (b : bool) (w : World) :
  d' <> d ->
  let w' := exec (setDomainState d b) w in
  settings_of w' !! d' = settings_of w !! d'
  /\ JS.obj_get (settings_of w') d' = JS.obj_get (settings_of w) d'
  /\ forall k, k <> SETTINGS_KEY -> storage w' !! k = storage w !! k.
Proof.
  intros Hn. cbv zeta.
  destruct (BackgroundFacts.setDomainState_frame d b w) as (_ & S & _).
  cbv zeta in S.
  assert (H : settings_of (exec (setDomainState d b) w) !! d' = settings_of w !! d').
  { destruct (accepted w 0 _ && accepted w 1 _).
    - rewrite (settings_of_insert _ _ _ S). apply obj_set_lookup_ne, Hn.
    - rewrite (BackgroundFacts.settings_of_storage _ _ S). reflexivity. }
  split; [exact H|]. split; [unfold JS.obj_get; rewrite H; reflexivity|].
  intros k Hk. rewrite S. destruct (accepted w 0 _ && accepted w 1 _);
    [apply lookup_insert_ne; congruence | reflexivity].
Qed.

Lemma setDomainState_other_domain_witness :
  "news.example"%string <> "other.example"%string
  /\ settings_of (exec (setDomainState "other.example" false) Examples.read_only_world)
       !! "news.example"%string
     = Some true
  /\ settings_of (exec (setDomainState "other.example" false)
                       (exec (setDomainState "news.example" true) Examples.fresh_world))
       !! "news.example"%string
     = Some true.
Proof.
  assert (H : "news.example"%string <> "other.example"%string) by discriminate.
  destruct (setDomainState_other_domain "other.example" "news.example" false
              Examples.read_only_world H) as (H1 & _).
  destruct (setDomainState_other_domain "other.example" "news.example" false
              (exec (setDomainState "news.example" true) Examples.fresh_world) H)
    as (H2 & _).
  split; [exact H|]. split; [rewrite H1 | rewrite H2]; vm_compute; reflexivity.
Defined.

(** X6: a write that the host rejects, at the read or at the write, is logged
    and swallowed: [setDomainState] returns normally, the storage area is
    the one before the call, and the console has one more entry. *)
Theorem setDomainState_rejected (d : string) (b : bool) (w : World) :
  accepted w 0 (CStorageGet SETTINGS_KEY) = false
  \/ accepted w 1 (CStorageSet {[ SETTINGS_KEY := JS.obj_set (settings_of w) d b ]}) = false ->
  let w' := exec (setDomainState d b) w in
  result (setDomainState d b) w = Returned tt
  /\ storage w' = storage w
  /\ icons w' = icons w /\ pages w' = pages w
  /\ List.length (console w') = S (List.length (console w)).
Proof.
  intros H. cbv zeta. unfold result, exec.
  rewrite BackgroundFacts.setDomainState_spec. cbv zeta.
  destruct (accepted w 0 _) eqn:A0.
  - destruct H as [H|H]; [discriminate|]. rewrite H. cbn.
    rewrite List.length_app. cbn. repeat split; lia.
  - cbn. rewrite List.length_app. cbn. repeat split; lia.
Qed.

Lemma setDomainState_rejected_witness :
  accepted Examples.read_only_world 1
    (CStorageSet {[ SETTINGS_KEY :=
        JS.obj_set (settings_of Examples.read_only_world) "news.example" false ]}) = false
  /\ storage (exec (setDomainState "news.example" false) Examples.read_only_world)
     = storage Examples.read_only_world
  /\ result (setDomainState "news.example" false;; getDomainState "news.example")
            Examples.read_only_world
     = Returned (JS.VBool true).
Proof.
  destruct (setDomainState_rejected "news.example" false Examples.read_only_world
              (or_intror eq_refl)) as (_ & Hs & _).
  split; [reflexivity|]. split; [exact Hs|]. vm_compute. reflexivity.
Defined.

Lemma obj_set_twice (o : JS.object) (d : string) (b1 b2 : bool) :
  JS.obj_set (JS.obj_set o d b1) d b2 = JS.obj_set o d b2.
Proof.
  unfold JS.obj_set. destruct (o !! d) eqn:E.
  - rewrite lookup_insert_eq. apply insert_insert_eq.
  - destruct (String.eqb d "__proto__").
    + rewrite E. reflexivity.
    + rewrite lookup_insert_eq. apply insert_insert_eq.
Qed.

(** The world after an accepted [setDomainState]. *)
Lemma setDomainState_accepted (d : string) (b : bool) (w : World) :
  (forall n c, rejects w n c = false) ->
  let w' := exec (setDomainState d b) w in
  storage w' = <[SETTINGS_KEY := JS.obj_set (settings_of w) d b]> (storage w)
  /\ settings_of w' = JS.obj_set (settings_of w) d b
  /\ (forall n c, rejects w' n c = false).
Proof.
  intros Hr. cbv zeta.
  destruct (BackgroundFacts.setDomainState_frame d b w) as (_ & S & _ & _ & R & _).
  cbv zeta in S. unfold accepted in S. rewrite !Hr in S. cbn [negb andb] in S.
  split; [exact S|]. split; [exact (settings_of_insert _ _ _ S)|].
  intros n c. rewrite R. apply Hr.
Qed.

Lemma read_accepted (d : string) (w : World) :
  (forall n c, rejects w n c = false) ->
  result (getDomainState d) w
  = Returned (JS.js_or (JS.obj_get (settings_of w) d) (JS.VBool false)).
Proof.
  intros Hr. unfold result. rewrite BackgroundFacts.getDomainState_result.
  unfold read_state, accepted. rewrite Hr. reflexivity.
Qed.

Lemma read_own (o : JS.object) (d : string) (b : bool) :
  o !! d = Some b ->
  JS.js_or (JS.obj_get o d) (JS.VBool false) = JS.VBool b.
Proof. intros H. unfold JS.obj_get. rewrite H. destruct b; reflexivity. Qed.

(** X7: when the host rejects nothing, a second write for the same domain
    overrides the first: the storage area is the one the second write
    alone would have left. *)
Theorem setDomainState_overwrite (d : string) (b1 b2 : bool) (w : World) :
  (forall n c, rejects w n c = false) ->
  storage (exec (setDomainState d b2) (exec (setDomainState d b1) w))
  = storage (exec (setDomainState d b2) w).
Proof.
  intros Hr.
  destruct (setDomainState_accepted d b1 w Hr) as (S1 & O1 & R1).
  destruct (setDomainState_accepted d b2 _ R1) as (S12 & _).
  destruct (setDomainState_accepted d b2 w Hr) as (S2 & _).
  cbv zeta in *. rewrite S12, S2, O1, S1, obj_set_twice.
  apply insert_insert_eq.
Qed.

Lemma setDomainState_overwrite_witness :
  (forall n c, rejects Examples.fresh_world n c = false)
  /\ storage (exec (setDomainState "news.example" false)
                (exec (setDomainState "news.example" true) Examples.fresh_world))
     = {[ SETTINGS_KEY := {[ "news.example"%string := false ]} ]}.
Proof.
  split; [reflexivity|].
  rewrite (setDomainState_overwrite "news.example" true false Examples.fresh_world
             (fun _ _ => eq_refl)).
  vm_compute. reflexivity.
Defined.

(** X8: round trip through later writes: when the host rejects nothing, a
    value written for a domain other than ["__proto__"] is the value read
    for it afterwards, also after a write for any other domain in
    between. *)
Theorem store_round_trip (d d' : string) (b b' : bool) (w : World) :
  (forall n c, rejects w n c = false) ->
  d <> "__proto__"%string ->
  d' <> d ->
  result (setDomainState d b;; getDomainState d) w = Returned (JS.VBool b)
  /\ result (setDomainState d b;; setDomainState d' b';; getDomainState d) w
     = Returned (JS.VBool b).
Proof.
  intros Hr Hd Hn.
  destruct (setDomainState_accepted d b w Hr) as (_ & O1 & R1).
  destruct (setDomainState_accepted d' b' _ R1) as (_ & O2 & R2).
  cbv zeta in *. unfold result, bind.
  rewrite !BackgroundFacts.setDomainState_result.
  fold (result (getDomainState d) (exec (setDomainState d b) w)).
  fold (result (getDomainState d)
          (exec (setDomainState d' b') (exec (setDomainState d b) w))).
  rewrite (read_accepted _ _ R1), (read_accepted _ _ R2), O2, O1.
  split; f_equal; apply read_own.
  - apply BackgroundFacts.obj_set_lookup, Hd.
  - rewrite obj_set_lookup_ne by congruence.
    apply BackgroundFacts.obj_set_lookup, Hd.
Qed.

Lemma store_round_trip_witness :
  (forall n c, rejects Examples.fresh_world n c = false)
  /\ "constructor"%string <> "__proto__"%string
  /\ "__proto__"%string <> "constructor"%string
  /\ result (setDomainState "constructor" false;; setDomainState "__proto__" true;;
             getDomainState "constructor") Examples.fresh_world
     = Returned (JS.VBool false).
Proof.
  assert (H1 : "constructor"%string <> "__proto__"%string) by discriminate.
  assert (H2 : "__proto__"%string <> "constructor"%string) by discriminate.
  split; [reflexivity|]. split; [exact H1|]. split; [exact H2|].
  exact (proj2 (store_round_trip "constructor" "__proto__" false true
                  Examples.fresh_world (fun _ _ => eq_refl) H1 H2)).
Defined.

(** X9: [getDomainState] only reads: it never throws and leaves the storage
    area, the icons and the pages alone.  Its value is never [undefined]:
    it is a boolean, or, for a name that [Object.prototype] defines and
    the settings do not, the inherited object. *)
Theorem getDomainState_reads_only (d : string) (w : World) :
  let w' := exec (getDomainState d) w in
  storage w' = storage w /\ icons w' = icons w /\ pages w' = pages w
  /\ exists v, result (getDomainState d) w = Returned v
       /\ ((exists b, v = JS.VBool b)
           \/ (v = JS.VBuiltin d /\ JS.inherited d = true
               /\ settings_of w !! d = None)).
Proof.
  cbv zeta.
  destruct (BackgroundFacts.getDomainState_frame d w) as (_ & S & I & P & _).
  split; [exact S|]. split; [exact I|]. split; [exact P|].
  exists (read_state d w). split.
  { unfold result. rewrite BackgroundFacts.getDomainState_result. reflexivity. }
  unfold read_state. destruct (accepted w 0 _); [|left; eauto].
  unfold JS.obj_get. destruct (settings_of w !! d) as [[]|] eqn:E.
  - left. eauto.
  - left. eauto.
  - destruct (JS.inherited d) eqn:Ei; [right; auto | left; eauto].
Qed.

(** X10: [updateIcon] never throws and touches nothing but the icon of its
    tab: that icon is the "on" set for [true] and the "off" set for
    [false] when the host accepts the call, and stays what it was when the
    host rejects it. *)
Theorem updateIcon_only_that_tab (tabId : Z) (b : bool) (w : World) :
  let icon := if b then icon_on else icon_off in
  let w' := exec (updateIcon tabId b) w in
  result (updateIcon tabId b) w = Returned tt
  /\ storage w' = storage w /\ pages w' = pages w
  /\ (forall t, t <> tabId -> icons w' !! t = icons w !! t)
  /\ icons w' !! tabId
     = (if accepted w 0 (CSetIcon tabId icon) then Some icon else icons w !! tabId).
Proof.
  cbv zeta.
  destruct (BackgroundFacts.updateIcon_frame tabId b w) as (_ & S & I & P & _).
  cbv zeta in I.
  split; [unfold result; rewrite BackgroundFacts.updateIcon_result; reflexivity|].
  split; [exact S|]. split; [exact P|]. rewrite I.
  destruct (accepted w 0 _); split; try reflexivity.
  - intros t Ht. apply lookup_insert_ne. congruence.
  - apply lookup_insert_eq.
Qed.

Lemma updateIcon_only_that_tab_witness :
  (2 <> 1)%Z
  /\ icons (exec (updateIcon 1 true) (exec (updateIcon 2 false) Examples.fresh_world)) !! 2%Z
     = Some icon_off
  /\ icons (exec (updateIcon 1 true) (exec (updateIcon 2 false) Examples.fresh_world)) !! 1%Z
     = Some icon_on.
Proof.
  assert (H : (2 <> 1)%Z) by discriminate.
  destruct (updateIcon_only_that_tab 1 true
              (exec (updateIcon 2 false) Examples.fresh_world))
    as (_ & _ & _ & Ho & Hi).
  split; [exact H|]. split; [rewrite (Ho 2%Z H) | rewrite Hi]; vm_compute; reflexivity.
Defined.

End StoreFacts.

(** ** More on the listeners *)
Module ListenerFacts.
Import Background.

Local Open Scope nat_scope.

Lemma parse_undefined (P : URL.Platform) : URL.parse P "undefined" = None.
Proof. reflexivity. Qed.

Lemma parse_empty (P : URL.Platform) : URL.parse P "" = None.
Proof. reflexivity. Qed.

Lemma getDomainFromUrl_host (url : option string) (w : World) :
  let w' := exec (getDomainFromUrl url) w in
  rejects w' = rejects w /\ platform w' = platform w.
Proof.
  cbv zeta. unfold exec. rewrite BackgroundFacts.getDomainFromUrl_spec.
  destruct (URL.parse _ _); auto.
Qed.

(** The two ways a click can go. *)
Lemma onClicked_cases (tab : Tab) (w : World) :
  onClicked tab w = (Returned tt, exec (getDomainFromUrl (tab_url tab)) w)
  \/ exists d, result (getDomainFromUrl (tab_url tab)) w = Returned (Some d)
               /\ d <> ""%string.
Proof.
  destruct (URL.hostname <$> URL.parse (platform w) (to_string (tab_url tab)))
    as [d|] eqn:E.
  - destruct (String.eqb_spec d "") as [->|Hd].
    + left. eapply BackgroundFacts.onClicked_no_domain.
      * rewrite BackgroundFacts.getDomainFromUrl_result, E. reflexivity.
      * reflexivity.
    + right. exists d. rewrite BackgroundFacts.getDomainFromUrl_result, E. auto.
  - left. eapply BackgroundFacts.onClicked_no_domain.
    + rewrite BackgroundFacts.getDomainFromUrl_result, E. reflexivity.
    + reflexivity.
Qed.

Lemma onClicked_host (tab : Tab) (w : World) :
  let w' := exec (onClicked tab) w in
  rejects w' = rejects w /\ platform w' = platform w.
Proof.
  cbv zeta. destruct (onClicked_cases tab w) as [H|(d & Hd & Hne)].
  - unfold exec at 1 2. rewrite H. apply getDomainFromUrl_host.
  - unfold exec at 1 2. rewrite (BackgroundFacts.onClicked_steps tab w d Hd Hne).
    cbv zeta. cbn [snd].
    set (next := JS.js_not (read_state d w)).
    destruct (BackgroundFacts.getDomainState_frame d w) as (_ & _ & _ & _ & R1 & P1).
    destruct (BackgroundFacts.setDomainState_frame d next (exec (getDomainState d) w))
      as (_ & _ & _ & _ & R2 & P2).
    destruct (BackgroundFacts.updateIcon_frame (tab_id tab) next
                (exec (setDomainState d next) (exec (getDomainState d) w)))
      as (_ & _ & _ & _ & R3 & P3).
    destruct (BackgroundFacts.notifyContentScript_frame (tab_id tab) next
                (exec (updateIcon (tab_id tab) next)
                   (exec (setDomainState d next) (exec (getDomainState d) w))))
      as (_ & _ & _ & _ & R4 & P4).
    cbv zeta in *. split; congruence.
Qed.

(** What the host sees of [onUpdated] when the tab has a URL with a
    domain. *)
Lemma onUpdated_steps (tabId : Z) (tab : Tab) (w : World) (d : string) :
  result (getDomainFromUrl (tab_url tab)) w = Returned (Some d) ->
  d <> ""%string ->
  onUpdated tabId true tab w
  = (Returned tt,
     exec (updateIcon tabId (JS.truthy (read_state d w))) (exec (getDomainState d) w)).
Proof.
  intros Hd Hne. unfold onUpdated.
  assert (Hu : String.eqb (default ""%string (tab_url tab)) "" = false).
  { rewrite BackgroundFacts.getDomainFromUrl_result in Hd.
    destruct (tab_url tab) as [s|]; cbn in *.
    - destruct (String.eqb_spec s ""); [subst; discriminate Hd | reflexivity].
    - discriminate Hd. }
  rewrite Hu. cbn [andb negb]. unfold bind.
  rewrite (BackgroundFacts.resolved_unchanged _ _ _ Hd).
  unfold no_domain. destruct (String.eqb_spec d ""); [contradiction|].
  cbn [from_option Datatypes.id].
  rewrite BackgroundFacts.getDomainState_result, BackgroundFacts.updateIcon_result.
  reflexivity.
Qed.

(** X11: no exception escapes a listener: whatever the tab, the URL, the state
    of the world and the calls the host rejects, [onClicked] and
    [onUpdated] return normally. *)
Theorem listeners_always_return (tab : Tab) (tabId : Z) (complete : bool) (w : World) :
  result (onClicked tab) w = Returned tt
  /\ result (onUpdated tabId complete tab) w = Returned tt.
Proof.
  split.
  - destruct (onClicked_cases tab w) as [H|(d & Hd & Hne)].
    + unfold result. rewrite H. reflexivity.
    + unfold result. rewrite (BackgroundFacts.onClicked_steps tab w d Hd Hne).
      reflexivity.
  - destruct complete; [|reflexivity].
    destruct (URL.hostname <$> URL.parse (platform w) (to_string (tab_url tab)))
      as [d|] eqn:E.
    + destruct (String.eqb_spec d "") as [->|Hd].
      * unfold result, onUpdated, bind.
        destruct (negb _); cbn [andb]; [|reflexivity].
        rewrite BackgroundFacts.getDomainFromUrl_spec.
        destruct (URL.parse _ _) as [u|]; [|discriminate E].
        injection E as E. rewrite E. reflexivity.
      * unfold result. rewrite (onUpdated_steps tabId tab w d); [reflexivity| |exact Hd].
        rewrite BackgroundFacts.getDomainFromUrl_result, E. reflexivity.
    + unfold result, onUpdated, bind.
      destruct (negb _); cbn [andb]; [|reflexivity].
      rewrite BackgroundFacts.getDomainFromUrl_spec.
      destruct (URL.parse _ _) as [u|]; [discriminate E|reflexivity].
Qed.

(** X12: a click changes nothing that belongs to another tab, another domain
    or another key of the storage area, whatever the host rejects. *)
Theorem onClicked_touches_only_its_own (tab : Tab) (w : World) :
  let w' := exec (onClicked tab) w in
  (forall k, k <> SETTINGS_KEY -> storage w' !! k = storage w !! k)
  /\ (forall t, t <> tab_id tab ->
        icons w' !! t = icons w !! t /\ pages w' !! t = pages w !! t)
  /\ (forall d', result (getDomainFromUrl (tab_url tab)) w <> Returned (Some d') ->
        settings_of w' !! d' = settings_of w !! d').
Proof.
  cbv zeta. destruct (onClicked_cases tab w) as [H|(d & Hd & Hne)].
  - unfold exec at 1 2 3 4. rewrite H. cbn [snd].
    destruct (BackgroundFacts.getDomainFromUrl_frame (tab_url tab) w)
      as (S & I & P & _).
    cbv zeta in *. unfold settings_of. rewrite S, I, P. auto.
  - destruct (BackgroundFacts.onClicked_world tab w d Hd Hne)
      as (_ & _ & S & I & P).
    cbv zeta in *.
    assert (Hs : storage (exec (onClicked tab) w) = storage w
                 \/ storage (exec (onClicked tab) w)
                    = <[SETTINGS_KEY := JS.obj_set (settings_of w) d
                                          (JS.js_not (read_state d w))]> (storage w)).
    { rewrite S. match goal with |- context [if ?c then _ else _] => destruct c end; auto. }
    assert (Hi : icons (exec (onClicked tab) w) = icons w
                 \/ exists i, icons (exec (onClicked tab) w) = <[tab_id tab := i]> (icons w)).
    { rewrite I. match goal with |- context [if ?c then _ else _] => destruct c end; eauto. }
    assert (Hp : pages (exec (onClicked tab) w) = pages w
                 \/ exists q, pages (exec (onClicked tab) w) = <[tab_id tab := q]> (pages w)).
    { rewrite P. destruct (pages w !! tab_id tab); [|auto].
      match goal with |- context [if ?c then _ else _] => destruct c end; eauto. }
    clear S I P. split; [|split].
    + intros k Hk. destruct Hs as [->| ->]; [reflexivity|].
      apply lookup_insert_ne. congruence.
    + intros t Ht. split.
      * destruct Hi as [->|[i ->]]; [reflexivity|].
        apply lookup_insert_ne. congruence.
      * destruct Hp as [->|[q ->]]; [reflexivity|].
        apply lookup_insert_ne. congruence.
    + intros d' Hd'. assert (Hn : d' <> d) by congruence.
      destruct Hs as [Hs|Hs].
      * rewrite (BackgroundFacts.settings_of_storage _ _ Hs). reflexivity.
      * rewrite (StoreFacts.settings_of_insert _ _ _ Hs).
        apply StoreFacts.obj_set_lookup_ne, Hn.
Qed.

Lemma onClicked_touches_only_its_own_witness :
  (2 <> tab_id Examples.news_tab)%Z
  /\ result (getDomainFromUrl (tab_url Examples.news_tab)) Examples.read_only_world
     <> Returned (Some "other.example"%string)
  /\ pages (exec (onClicked Examples.news_tab) Examples.read_only_world) !! 2%Z = None
  /\ settings_of (exec (onClicked Examples.news_tab) Examples.read_only_world)
       !! "other.example"%string = None.
Proof.
  assert (H1 : (2 <> tab_id Examples.news_tab)%Z) by discriminate.
  assert (H2 : result (getDomainFromUrl (tab_url Examples.news_tab)) Examples.read_only_world
               <> Returned (Some "other.example"%string)) by discriminate.
  destruct (onClicked_touches_only_its_own Examples.news_tab Examples.read_only_world)
    as (_ & Ht & Hd).
  split; [exact H1|]. split; [exact H2|].
  split; [rewrite (proj2 (Ht 2%Z H1)) | rewrite (Hd _ H2)]; vm_compute; reflexivity.
Defined.

(** The page's listener understands the message the injected function
    posts. *)
Lemma onMessage_posted (b : bool) (p : Page.Page) :
  Page.onMessage (posted_message b p) p
  = if b then Page.enableDarkMode p else Page.disableDarkMode p.
Proof.
  unfold Page.onMessage, Page.from_own_window, posted_message.
  cbn [Page.source Page.data]. rewrite Nat.eqb_refl.
  destruct b; reflexivity.
Qed.

(** The world after a click that passes the guard, on a host that rejects
    nothing. *)
Lemma click_accepted (tab : Tab) (w : World) (d : string) :
  result (getDomainFromUrl (tab_url tab)) w = Returned (Some d) ->
  d <> ""%string ->
  (forall n c, rejects w n c = false) ->
  let next := JS.js_not (read_state d w) in
  let w' := exec (onClicked tab) w in
  settings_of w' = JS.obj_set (settings_of w) d next
  /\ icons w' = <[tab_id tab := if next then icon_on else icon_off]> (icons w)
  /\ pages w' = match pages w !! tab_id tab with
                | Some p => <[tab_id tab := if next then Page.enableDarkMode p
                                           else Page.disableDarkMode p]> (pages w)
                | None => pages w
                end
  /\ (forall n c, rejects w' n c = false)
  /\ result (getDomainFromUrl (tab_url tab)) w' = Returned (Some d).
Proof.
  intros Hd Hne Hr. cbv zeta.
  destruct (BackgroundFacts.onClicked_world tab w d Hd Hne) as (_ & _ & S & I & P).
  destruct (onClicked_host tab w) as (R & Pl).
  cbv zeta in *.
  assert (Ha : forall k c, accepted w k c = true).
  { intros k c. unfold accepted. rewrite Hr. reflexivity. }
  repeat rewrite Ha in S. repeat rewrite Ha in I. cbn [andb] in S.
  split; [exact (StoreFacts.settings_of_insert _ _ _ S)|].
  split; [exact I|]. split.
  - rewrite P. destruct (pages w !! tab_id tab); [|reflexivity].
    rewrite Ha, onMessage_posted. reflexivity.
  - split; [intros n c; rewrite R; apply Hr|].
    rewrite BackgroundFacts.getDomainFromUrl_result in *. rewrite Pl. exact Hd.
Qed.

(** X13: after a click on a host that rejects nothing, for a domain other
    than ["__proto__"], the store, the icon and the page agree: the store reads
    the new state, the tab shows its icon, and the page of the tab has
    been enabled for [true] and disabled for [false]. *)
Theorem click_state_agreement (tab : Tab) (w : World) (d : string) (p : Page.Page) :
  result (getDomainFromUrl (tab_url tab)) w = Returned (Some d) ->
  d <> ""%string ->
  d <> "__proto__"%string ->
  (forall n c, rejects w n c = false) ->
  pages w !! tab_id tab = Some p ->
  let next := JS.js_not (read_state d w) in
  let w' := exec (onClicked tab) w in
  result (getDomainState d) w' = Returned (JS.VBool next)
  /\ icons w' !! tab_id tab = Some (if next then icon_on else icon_off)
  /\ pages w' !! tab_id tab
     = Some (if next then Page.enableDarkMode p else Page.disableDarkMode p).
Proof.
  intros Hd Hne Hp Hr Hpg. cbv zeta.
  destruct (click_accepted tab w d Hd Hne Hr) as (S & I & P & R & _).
  cbv zeta in *. rewrite Hpg in P.
  split; [|split].
  - rewrite (StoreFacts.read_accepted _ _ R), S.
    f_equal. apply StoreFacts.read_own, BackgroundFacts.obj_set_lookup, Hp.
  - rewrite I. apply lookup_insert_eq.
  - rewrite P. apply lookup_insert_eq.
Qed.

Lemma click_state_agreement_witness :
  result (getDomainFromUrl (tab_url Examples.news_tab)) Examples.fresh_world
  = Returned (Some "news.example"%string)
  /\ result (getDomainState "news.example")
            (exec (onClicked Examples.news_tab) Examples.fresh_world)
     = Returned (JS.VBool true)
  /\ Page.isDark <$> (pages (exec (onClicked Examples.news_tab) Examples.fresh_world) !! 1%Z)
     = Some true.
Proof.
  assert (H1 : result (getDomainFromUrl (tab_url Examples.news_tab)) Examples.fresh_world
               = Returned (Some "news.example"%string)) by reflexivity.
  assert (H2 : "news.example"%string <> ""%string) by discriminate.
  assert (H3 : "news.example"%string <> "__proto__"%string) by discriminate.
  destruct (click_state_agreement Examples.news_tab Examples.fresh_world
              "news.example" (Examples.light_page "news.example")
              H1 H2 H3 (fun _ _ => eq_refl) eq_refl) as (Hs & _ & Hp).
  split; [exact H1|]. split; [exact Hs|].
  etrans; [exact (f_equal (fmap Page.isDark) Hp)|]. vm_compute. reflexivity.
Defined.

(** X14: two clicks in a row on a host that rejects nothing, for a domain other
    than ["__proto__"], bring the store and the icon back to the state that
    was read before the first click. *)
Theorem toggle_twice (tab : Tab) (w : World) (d : string) :
  result (getDomainFromUrl (tab_url tab)) w = Returned (Some d) ->
  d <> ""%string ->
  d <> "__proto__"%string ->
  (forall n c, rejects w n c = false) ->
  let before := JS.truthy (read_state d w) in
  let w2 := exec (onClicked tab) (exec (onClicked tab) w) in
  result (getDomainState d) w2 = Returned (JS.VBool before)
  /\ icons w2 !! tab_id tab = Some (if before then icon_on else icon_off).
Proof.
  intros Hd Hne Hp Hr. cbv zeta.
  destruct (click_accepted tab w d Hd Hne Hr) as (S1 & _ & _ & R1 & D1).
  destruct (click_accepted tab _ d D1 Hne R1) as (S2 & I2 & _ & R2 & _).
  cbv zeta in *.
  assert (Hread : read_state d (exec (onClicked tab) w)
                  = JS.VBool (JS.js_not (read_state d w))).
  { pose proof (StoreFacts.read_accepted d _ R1) as Hx.
    unfold result in Hx. rewrite BackgroundFacts.getDomainState_result in Hx.
    cbn [fst] in Hx. injection Hx as ->. rewrite S1.
    apply StoreFacts.read_own, BackgroundFacts.obj_set_lookup, Hp. }
  rewrite Hread in S2, I2.
  assert (Hnn : JS.js_not (JS.VBool (JS.js_not (read_state d w)))
                = JS.truthy (read_state d w)).
  { unfold JS.js_not. cbn [JS.truthy]. apply negb_involutive. }
  rewrite Hnn in S2, I2.
  split.
  - rewrite (StoreFacts.read_accepted _ _ R2), S2. f_equal.
    apply StoreFacts.read_own, BackgroundFacts.obj_set_lookup, Hp.
  - rewrite I2. apply lookup_insert_eq.
Qed.

Lemma toggle_twice_witness :
  result (getDomainFromUrl (tab_url Examples.news_tab)) Examples.fresh_world
  = Returned (Some "news.example"%string)
  /\ result (getDomainState "news.example")
            (exec (onClicked Examples.news_tab)
               (exec (onClicked Examples.news_tab) Examples.fresh_world))
     = Returned (JS.VBool false)
  /\ icons (exec (onClicked Examples.news_tab)
              (exec (onClicked Examples.news_tab) Examples.fresh_world)) !! 1%Z
     = Some icon_off.
Proof.
  assert (H1 : result (getDomainFromUrl (tab_url Examples.news_tab)) Examples.fresh_world
               = Returned (Some "news.example"%string)) by reflexivity.
  assert (H2 : "news.example"%string <> ""%string) by discriminate.
  assert (H3 : "news.example"%string <> "__proto__"%string) by discriminate.
  destruct (toggle_twice Examples.news_tab Examples.fresh_world "news.example"
              H1 H2 H3 (fun _ _ => eq_refl)) as (Hs & Hi).
  split; [exact H1|]. split; [exact Hs | exact Hi].
Defined.

(** The icons after [onUpdated] for a tab with a domain. *)
Lemma onUpdated_icons (tabId : Z) (tab : Tab) (w : World) (d : string) :
  result (getDomainFromUrl (tab_url tab)) w = Returned (Some d) ->
  d <> ""%string ->
  let icon := if JS.truthy (read_state d w) then icon_on else icon_off in
  icons (exec (onUpdated tabId true tab) w)
  = (if accepted w 1 (CSetIcon tabId icon)
     then <[tabId := icon]> (icons w) else icons w).
Proof.
  intros Hd Hne. cbv zeta. unfold exec at 1.
  rewrite (onUpdated_steps tabId tab w d Hd Hne). cbn [snd].
  destruct (BackgroundFacts.getDomainState_frame d w) as (T1 & _ & I1 & _ & R1 & _).
  destruct (BackgroundFacts.updateIcon_frame tabId (JS.truthy (read_state d w))
              (exec (getDomainState d) w)) as (_ & _ & I2 & _).
  cbv zeta in *.
  rewrite (BackgroundFacts.accepted_after w _ _ _ _ R1 T1) in I2.
  cbn [List.length Nat.add] in I2. rewrite I2, I1. reflexivity.
Qed.

(** X15: when a tab has finished loading a URL with a domain, [onUpdated] reads
    the store once and then sets the icon of [tabId] to the set for the
    truthiness of what it read; it writes nothing to the storage area and
    changes no page. *)
Theorem onUpdated_refreshes_icon (tabId : Z) (tab : Tab) (w : World) (d : string) :
  result (getDomainFromUrl (tab_url tab)) w = Returned (Some d) ->
  d <> ""%string ->
  let icon := if JS.truthy (read_state d w) then icon_on else icon_off in
  let w' := exec (onUpdated tabId true tab) w in
  trace w' = (trace w ++ [CStorageGet SETTINGS_KEY; CSetIcon tabId icon])%list
  /\ storage w' = storage w /\ pages w' = pages w
  /\ icons w' = (if accepted w 1 (CSetIcon tabId icon)
                 then <[tabId := icon]> (icons w) else icons w).
Proof.
  intros Hd Hne. cbv zeta. unfold exec at 1 2 3 4.
  rewrite (onUpdated_steps tabId tab w d Hd Hne). cbn [snd].
  destruct (BackgroundFacts.getDomainState_frame d w) as (T1 & S1 & I1 & P1 & R1 & _).
  destruct (BackgroundFacts.updateIcon_frame tabId (JS.truthy (read_state d w))
              (exec (getDomainState d) w)) as (T2 & S2 & I2 & P2 & _).
  cbv zeta in *.
  rewrite (BackgroundFacts.accepted_after w _ _ _ _ R1 T1) in I2.
  cbn [List.length Nat.add] in I2.
  rewrite T2, T1, S2, S1, P2, P1, I2, I1, <- List.app_assoc. auto.
Qed.

Lemma onUpdated_refreshes_icon_witness :
  result (getDomainFromUrl (tab_url Examples.news_tab)) Examples.read_only_world
  = Returned (Some "news.example"%string)
  /\ icons (exec (onUpdated 1 true Examples.news_tab) Examples.read_only_world) !! 1%Z
     = Some icon_on
  /\ icons (exec (onUpdated 1 true Examples.news_tab) Examples.fresh_world) !! 1%Z
     = Some icon_off.
Proof.
  assert (H1 : result (getDomainFromUrl (tab_url Examples.news_tab)) Examples.read_only_world
               = Returned (Some "news.example"%string)) by reflexivity.
  assert (H2 : "news.example"%string <> ""%string) by discriminate.
  destruct (onUpdated_refreshes_icon 1 Examples.news_tab Examples.read_only_world
              "news.example" H1 H2) as (_ & _ & _ & Hi).
  destruct (onUpdated_refreshes_icon 1 Examples.news_tab Examples.fresh_world
              "news.example" eq_refl H2) as (_ & _ & _ & Hj).
  split; [exact H1|].
  split; [rewrite Hi | rewrite Hj]; vm_compute; reflexivity.
Defined.

(** X16: [onUpdated] does nothing at all, not even a log entry, while the tab
    is still loading or when the tab has no URL; and for a URL without a
    domain it makes no host call and changes neither the storage area, nor
    an icon, nor a page. *)
Theorem onUpdated_ignored (tabId : Z) (complete : bool) (tab : Tab) (w : World) :
  (complete = false \/ tab_url tab = None \/ tab_url tab = Some ""%string ->
   onUpdated tabId complete tab w = (Returned tt, w))
  /\ (forall v, result (getDomainFromUrl (tab_url tab)) w = Returned v ->
                no_domain v = true ->
                let w' := exec (onUpdated tabId complete tab) w in
                trace w' = trace w /\ storage w' = storage w
                /\ icons w' = icons w /\ pages w' = pages w).
Proof.
  split.
  - unfold onUpdated. intros [->|[->| ->]]; [reflexivity| |];
      rewrite andb_false_r; reflexivity.
  - intros v Hv Hn. cbv zeta. unfold exec, onUpdated.
    destruct (complete && _); [|auto].
    unfold bind. unfold result in Hv.
    destruct (BackgroundFacts.getDomainFromUrl_frame (tab_url tab) w)
      as (S & I & P & T).
    cbv zeta in *. unfold exec in *.
    destruct (getDomainFromUrl (tab_url tab) w) as [[a|e] w1]; cbn [fst snd] in *;
      [|discriminate Hv].
    injection Hv as ->. rewrite Hn. cbn [snd ret]. auto.
Qed.

Lemma onUpdated_ignored_witness :
  onUpdated 1 false Examples.news_tab Examples.fresh_world
  = (Returned tt, Examples.fresh_world)
  /\ result (getDomainFromUrl (tab_url Examples.blank_tab)) Examples.fresh_world
     = Returned (Some ""%string)
  /\ icons (exec (onUpdated 1 true Examples.blank_tab) Examples.fresh_world)
     = icons Examples.fresh_world.
Proof.
  destruct (onUpdated_ignored 1 false Examples.news_tab Examples.fresh_world)
    as (H1 & _).
  destruct (onUpdated_ignored 1 true Examples.blank_tab Examples.fresh_world)
    as (_ & H2).
  destruct (H2 (Some ""%string) eq_refl eq_refl) as (_ & _ & Hi & _).
  split; [exact (H1 (or_introl eq_refl))|]. split; [reflexivity|exact Hi].
Defined.

(** X17: the icon the click sets is the icon the next refresh sets: after a
    click on a host that rejects nothing, for a domain other than
    ["__proto__"], [onUpdated] for the same tab leaves the icons as the
    click left them. *)
Theorem onUpdated_after_click (tab : Tab) (w : World) (d : string) :
  result (getDomainFromUrl (tab_url tab)) w = Returned (Some d) ->
  d <> ""%string ->
  d <> "__proto__"%string ->
  (forall n c, rejects w n c = false) ->
  let w' := exec (onClicked tab) w in
  icons (exec (onUpdated (tab_id tab) true tab) w') = icons w'
  /\ icons w' !! tab_id tab
     = Some (if JS.js_not (read_state d w) then icon_on else icon_off).
Proof.
  intros Hd Hne Hp Hr. cbv zeta.
  destruct (click_accepted tab w d Hd Hne Hr) as (S & I & _ & R & D).
  cbv zeta in *.
  pose proof (onUpdated_icons (tab_id tab) tab _ d D Hne) as Iu.
  cbv zeta in Iu.
  assert (Hread : read_state d (exec (onClicked tab) w)
                  = JS.VBool (JS.js_not (read_state d w))).
  { pose proof (StoreFacts.read_accepted d _ R) as Hx.
    unfold result in Hx. rewrite BackgroundFacts.getDomainState_result in Hx.
    cbn [fst] in Hx. injection Hx as ->. rewrite S.
    apply StoreFacts.read_own, BackgroundFacts.obj_set_lookup, Hp. }
  rewrite Hread in Iu. cbn [JS.truthy] in Iu.
  assert (Hl : icons (exec (onClicked tab) w) !! tab_id tab
               = Some (if JS.js_not (read_state d w) then icon_on else icon_off)).
  { rewrite I. apply lookup_insert_eq. }
  split; [|exact Hl].
  rewrite Iu. destruct (accepted _ 1 _); [|reflexivity].
  apply insert_id. exact Hl.
Qed.

Lemma onUpdated_after_click_witness :
  result (getDomainFromUrl (tab_url Examples.news_tab)) Examples.fresh_world
  = Returned (Some "news.example"%string)
  /\ icons (exec (onUpdated 1 true Examples.news_tab)
              (exec (onClicked Examples.news_tab) Examples.fresh_world)) !! 1%Z
     = Some icon_on.
Proof.
  assert (H1 : result (getDomainFromUrl (tab_url Examples.news_tab)) Examples.fresh_world
               = Returned (Some "news.example"%string)) by reflexivity.
  assert (H2 : "news.example"%string <> ""%string) by discriminate.
  assert (H3 : "news.example"%string <> "__proto__"%string) by discriminate.
  destruct (onUpdated_after_click Examples.news_tab Examples.fresh_world "news.example"
              H1 H2 H3 (fun _ _ => eq_refl)) as (Hi & Hl).
  split; [exact H1|].
  change 1%Z with (tab_id Examples.news_tab). rewrite Hi. exact Hl.
Defined.

(** X18: the start-up check of the content script never writes: it leaves the
    storage area, the icons and the pages of the other tabs alone.  When
    the host rejects its read, the page keeps its document and gets one
    console entry. *)
Theorem contentScript_start_reads_only (tabId : Z) (w : World) (p : Page.Page) :
  pages w !! tabId = Some p ->
  let w' := exec (contentScript_start tabId) w in
  storage w' = storage w /\ icons w' = icons w
  /\ (forall t, t <> tabId -> pages w' !! t = pages w !! t)
  /\ (accepted w 0 (CStorageGet SETTINGS_KEY) = false ->
      pages w' !! tabId
      = Some (Page.console_error p "ToothLit: Could not read storage.")
      /\ Page.document (Page.console_error p "ToothLit: Could not read storage.")
         = Page.document p).
Proof.
  intros Hp. cbv zeta. unfold exec, contentScript_start. rewrite Hp.
  unfold storage_local_get, bind, invoke, throw, accepted.
  rewrite Nat.add_0_r. change Page.SETTINGS_KEY with SETTINGS_KEY.
  destruct (rejects w _ _); cbn.
  - split; [reflexivity|]. split; [reflexivity|]. split.
    + intros t Ht. apply lookup_insert_ne. congruence.
    + intros _. split; [apply lookup_insert_eq | reflexivity].
  - split; [reflexivity|]. split; [reflexivity|]. split.
    + intros t Ht. apply lookup_insert_ne. congruence.
    + discriminate.
Qed.

Lemma contentScript_start_reads_only_witness :
  pages Examples.unreadable_world !! 1%Z = Some (Examples.light_page "news.example")
  /\ accepted Examples.unreadable_world 0 (CStorageGet SETTINGS_KEY) = false
  /\ Page.isLight <$> (pages (exec (contentScript_start 1) Examples.unreadable_world) !! 1%Z)
     = Some true
  /\ storage (exec (contentScript_start 1) Examples.unreadable_world)
     = storage Examples.unreadable_world.
Proof.
  assert (H1 : pages Examples.unreadable_world !! 1%Z
               = Some (Examples.light_page "news.example")) by reflexivity.
  destruct (contentScript_start_reads_only 1 Examples.unreadable_world _ H1)
    as (Hs & _ & _ & Hr).
  destruct (Hr eq_refl) as (Hp & _).
  split; [exact H1|]. split; [reflexivity|]. split; [|exact Hs].
  rewrite Hp. reflexivity.
Defined.

(** The page after a start-up check whose read the host accepts. *)
Lemma contentScript_start_page (t : Z) (w : World) (p : Page.Page) :
  pages w !! t = Some p ->
  accepted w 0 (CStorageGet SETTINGS_KEY) = true ->
  pages (exec (contentScript_start t) w) !! t
  = Some (Page.initialCheck
            (Some (match storage w !! SETTINGS_KEY with
                   | Some v => {[ SETTINGS_KEY := v ]}
                   | None => ∅
                   end)) p).
Proof.
  intros Hp Ha. unfold exec, contentScript_start. rewrite Hp.
  unfold storage_local_get, bind, invoke, throw. unfold accepted in Ha.
  rewrite Nat.add_0_r in Ha. change Page.SETTINGS_KEY with SETTINGS_KEY.
  apply negb_true_iff in Ha. rewrite Ha. cbn. apply lookup_insert_eq.
Qed.

Lemma click_accepted_storage (tab : Tab) (w : World) (d : string) :
  result (getDomainFromUrl (tab_url tab)) w = Returned (Some d) ->
  d <> ""%string ->
  (forall n c, rejects w n c = false) ->
  storage (exec (onClicked tab) w)
  = <[SETTINGS_KEY := JS.obj_set (settings_of w) d (JS.js_not (read_state d w))]>
      (storage w).
Proof.
  intros Hd Hne Hr.
  destruct (BackgroundFacts.onClicked_world tab w d Hd Hne) as (_ & _ & S & _).
  cbv zeta in S. unfold accepted in S. rewrite !Hr in S. exact S.
Qed.

(** X19: the preference survives a reload: after a click on a host that
    rejects nothing, for a domain other than ["__proto__"], a page of that
    domain that starts afresh in a tab receives [enableDarkMode()] from
    its start-up check when the click turned the domain on, and is left
    as it is when the click turned it off.  The page is then the one the
    call leaves; when the call throws (on a document without a head), the
    [catch] handler of the start-up chain adds its line to the console
    and the document is still the one the call leaves. *)
Theorem reload_keeps_preference
  (tab : Tab) (w : World) (d : string) (t : Z) (q : Page.Page) :
  result (getDomainFromUrl (tab_url tab)) w = Returned (Some d) ->
  d <> ""%string ->
  d <> "__proto__"%string ->
  (forall n c, rejects w n c = false) ->
  Page.hostname q = d ->
  let next := JS.js_not (read_state d w) in
  let w' := exec (onClicked tab) w in
  let loaded := set_pages (<[t := q]> (pages w')) w' in
  pages (exec (contentScript_start t) loaded) !! t
  = Some (if next then Page.catch_handler (Page.enableDarkMode_call q) else q)
  /\ Page.document <$> (pages (exec (contentScript_start t) loaded) !! t)
     = Some (Page.document (if next then Page.enableDarkMode q else q))
  /\ (fst (Page.enableDarkMode_call q) = Page.Completes ->
      pages (exec (contentScript_start t) loaded) !! t
      = Some (if next then Page.enableDarkMode q else q)).
Proof.
  intros Hd Hne Hp Hr Hq. cbv zeta.
  pose proof (click_accepted_storage tab w d Hd Hne Hr) as S.
  destruct (click_accepted tab w d Hd Hne Hr) as (_ & _ & _ & R & _).
  cbv zeta in R.
  assert (E : pages (exec (contentScript_start t)
                       (set_pages (<[t := q]> (pages (exec (onClicked tab) w)))
                                  (exec (onClicked tab) w))) !! t
              = Some (if JS.js_not (read_state d w)
                      then Page.catch_handler (Page.enableDarkMode_call q) else q)).
  { rewrite (contentScript_start_page t _ q).
    - cbn [storage set_pages]. rewrite S, lookup_insert_eq. f_equal.
      unfold Page.initialCheck. cbv zeta.
      change Page.SETTINGS_KEY with SETTINGS_KEY.
      rewrite lookup_singleton_eq. cbn [from_option Datatypes.id].
      unfold JS.obj_get. rewrite Hq, (BackgroundFacts.obj_set_lookup _ _ _ Hp).
      reflexivity.
    - cbn [pages set_pages]. apply lookup_insert_eq.
    - unfold accepted. cbn [rejects set_pages]. rewrite R. reflexivity. }
  rewrite E. split; [reflexivity|]. split.
  - cbn [fmap option_fmap option_map]. f_equal.
    destruct (JS.js_not (read_state d w)); [|reflexivity].
    apply PageFacts.catch_handler_document.
  - intros Hc. rewrite (PageFacts.catch_handler_completes q Hc). reflexivity.
Qed.

Lemma reload_keeps_preference_witness :
  result (getDomainFromUrl (tab_url Examples.news_tab)) Examples.fresh_world
  = Returned (Some "news.example"%string)
  /\ fst (Page.enableDarkMode_call (Examples.styled_page "news.example")) = Page.Completes
  /\ Page.isDark <$>
       (pages (exec (contentScript_start 5)
                 (set_pages (<[5%Z := Examples.styled_page "news.example"]>
                               (pages (exec (onClicked Examples.news_tab) Examples.fresh_world)))
                            (exec (onClicked Examples.news_tab) Examples.fresh_world)))
          !! 5%Z)
     = Some true
  /\ Page.console <$>
       (pages (exec (contentScript_start 5)
                 (set_pages (<[5%Z := Examples.svg_page "news.example"]>
                               (pages (exec (onClicked Examples.news_tab) Examples.fresh_world)))
                            (exec (onClicked Examples.news_tab) Examples.fresh_world)))
          !! 5%Z)
     = Some ["ToothLit: Could not read storage."%string].
Proof.
  assert (H1 : result (getDomainFromUrl (tab_url Examples.news_tab)) Examples.fresh_world
               = Returned (Some "news.example"%string)) by reflexivity.
  assert (H2 : "news.example"%string <> ""%string) by discriminate.
  assert (H3 : "news.example"%string <> "__proto__"%string) by discriminate.
  assert (H4 : fst (Page.enableDarkMode_call (Examples.styled_page "news.example"))
               = Page.Completes) by reflexivity.
  destruct (reload_keeps_preference Examples.news_tab Examples.fresh_world
              "news.example" 5%Z (Examples.styled_page "news.example")
              H1 H2 H3 (fun _ _ => eq_refl) eq_refl) as (_ & _ & H).
  destruct (reload_keeps_preference Examples.news_tab Examples.fresh_world
              "news.example" 5%Z (Examples.svg_page "news.example")
              H1 H2 H3 (fun _ _ => eq_refl) eq_refl) as (H' & _).
  cbv zeta in H, H'.
  split; [exact H1|]. split; [exact H4|].
  split; [rewrite (H H4) | rewrite H']; vm_compute; reflexivity.
Defined.

End ListenerFacts.
